(** * AgentFlow orchestration runtime: control plane and worker

    A shallow embedding of [internal/aor/control_plane.go] (the control
    plane's [CancelWorkflowRun] and the worker's [handleTask],
    [executeTask], [updateStepStatus], [updateStepWithResult] and
    [publishResult]) together with the properties the specification states
    about them.

    The Run Store (Postgres) and the Durable Log (JetStream) are modelled as
    explicit state: two tables, the list of accepted messages, a clock and
    the sequence of observable actions.  Go's [error] results are values;
    a handler is a function from the state to a result and a new state.

    What the collaborators do is a parameter of the handlers: the database
    and the log handles say which calls fail, an executor says what each of
    its calls returns and how long it takes.  The clock advances while an
    executor runs and while the worker sleeps; statements and publishes
    take no time on it.  [int] and [time.Duration] are 64-bit and wrap
    around.  The retry loop is followed for a number of iterations given as
    fuel; within the deadline of a delivery 3026 iterations are always
    enough ([executeTask_quiet], [handleTask_trace]). *)

From Stdlib Require Import ZArith List Lia.
From stdpp Require Import gmap strings list fin_maps pretty.

Local Open Scope string_scope.
Local Open Scope list_scope.
Local Open Scope Z_scope.

(** ** Machine integers and time *)

Module Go.

(** Two's complement wrap-around of [int] and [int64] (64-bit platform). *)
Definition wrap64 (z : Z) : Z := (z + 2 ^ 63) mod 2 ^ 64 - 2 ^ 63.

(** [time.Duration] is an [int64] count of nanoseconds. *)
Definition maxDuration : Z := 2 ^ 63 - 1.
Definition minDuration : Z := - 2 ^ 63.
Definition Second : Z := 1000000000.

(** A [time.Time] is read as nanoseconds since the epoch.  [Time.Sub]
    saturates at the largest and smallest [Duration]. *)
Definition Sub (t u : Z) : Z := Z.max minDuration (Z.min maxDuration (t - u)).

(** [int] multiplication, [Duration] multiplication, [attempt++]. *)
Definition mul (a b : Z) : Z := wrap64 (a * b).
Definition incr (a : Z) : Z := wrap64 (a + 1).

End Go.

(** ** Errors *)

(** [ErrNew] is an error carrying a message ([errors.New], [fmt.Errorf]
    without [%w], and the errors collaborators return); [ErrWrap] is
    [fmt.Errorf("<prefix>%w", cause)]. *)
Inductive error : Type :=
| ErrNew (msg : string)
| ErrWrap (prefix : string) (cause : error).

Fixpoint Error (e : error) : string :=
  match e with
  | ErrNew msg => msg
  | ErrWrap prefix cause => prefix +:+ Error cause
  end.

Definition DeadlineExceeded : error := ErrNew "context deadline exceeded".
Definition Canceled : error := ErrNew "context canceled".

(** ** Data model *)

Abbreviation UUID := N.
Abbreviation NodeType := string.

(** Modelled from the spec: the status of a StepRun (§3); the Go
    declarations of the package's types are in a file that is not among
    the sources at hand. *)
Inductive StepStatus : Type :=
| StepStatusPending | StepStatusReady | StepStatusRunning
| StepStatusSucceeded | StepStatusFailed | StepStatusCanceled.

(** Modelled from the spec: the status of a WorkflowRun (§3). *)
Inductive RunStatus : Type :=
| RunStatusQueued | RunStatusRunning
| RunStatusSucceeded | RunStatusFailed | RunStatusCanceled.

Definition StepStatus_eqb (a b : StepStatus) : bool :=
  match a, b with
  | StepStatusPending, StepStatusPending | StepStatusReady, StepStatusReady
  | StepStatusRunning, StepStatusRunning | StepStatusSucceeded, StepStatusSucceeded
  | StepStatusFailed, StepStatusFailed | StepStatusCanceled, StepStatusCanceled => true
  | _, _ => false
  end.

(** Modelled from the spec: a row of [step_run] (§6, Run Store tables),
    keyed by its [id]. *)
Record StepRun : Type := {
  sr_run_id : UUID;
  sr_node_id : string;
  sr_status : StepStatus;
  sr_attempt : Z;
  sr_worker_id : option string;
  sr_lease_deadline : option Z;
  sr_started_at : option Z;
  sr_ended_at : option Z;
  sr_error : string;
  sr_cost_cents : Z;
  sr_tokens_prompt : Z;
  sr_tokens_completion : Z;
  sr_output_json : string
}.

(** Modelled from the spec: a row of [workflow_run] (§6), keyed by its [id]. *)
Record WorkflowRun : Type := {
  wr_workflow_spec_id : UUID;
  wr_status : RunStatus;
  wr_started_at : option Z;
  wr_ended_at : option Z;
  wr_cost_cents : Z;
  wr_metadata : string;
  wr_created_at : Z
}.

(** Modelled from the spec: the node policy of §3, with the field the
    retry loop reads. *)
Record Policy : Type := { MaxRetries : Z }.

(** Modelled from the spec: a node of the DAG (§3). *)
Record Node : Type := {
  node_ID : string;
  node_Type : NodeType;
  node_Policy : Policy
}.

(** Modelled from the spec: the task message (§3, §6), with the field
    names the handlers use. *)
Record Task : Type := {
  task_ID : UUID;
  task_RunID : UUID;
  task_Node : Node;
  task_Inputs : string;
  task_Attempt : Z;
  DeadlineAt : Z
}.

(** Modelled from the spec: the result message (§3, §6), with the field
    names the handlers use. *)
Record TaskResult : Type := {
  TaskID : UUID;
  Status : StepStatus;
  ErrorMsg : string;
  CostCents : Z;
  TokensPrompt : Z;
  TokensCompletion : Z;
  Output : string
}.

(** ** The store, the log and the observable actions *)

(** The three UPDATE statements of the file, with their arguments. *)
Inductive Stmt : Type :=
| UpdCancelRun (runID : UUID)
| UpdStepStatus (status : StepStatus) (workerID : string)
                (startedAt : option Z) (stepID : UUID)
| UpdStepResult (result : TaskResult) (now : Z).

(** What is sent on a subject. *)
Inductive Payload : Type :=
| PSignal (run_id : UUID) (action : string)
| PResult (result : TaskResult).

Inductive Event : Type :=
| EvDB (q : Stmt) (err : option error)
| EvPublish (subject : string) (p : Payload) (err : option error)
| EvLog (msg : string) (err : error)
| EvExecute (attempt : Z)
| EvSleep (d : Z)
| EvCtxDone
| EvAck
| EvNak.

Record World : Type := {
  step_run : gmap UUID StepRun;
  workflow_run : gmap UUID WorkflowRun;
  published : list (string * Payload);
  clock : Z;
  trace : list Event
}.

(** ** Handlers as state transformers *)

Definition M (A : Type) : Type := World -> A * World.

Definition ret {A} (a : A) : M A := fun w => (a, w).
Definition bind {A B} (m : M A) (k : A -> M B) : M B :=
  fun w => let '(a, w') := m w in k a w'.

Notation "'do' x <- m ; k" := (bind m (fun x => k))
  (at level 10, x name, m at level 100, k at level 200).
Notation "'do' ' p <- m ; k" := (bind m (fun x => match x with p => k end))
  (at level 10, p pattern, m at level 100, k at level 200).
Notation "'run' m ; k" := (bind m (fun _ => k))
  (at level 10, m at level 100, k at level 200).

Definition emit (e : Event) : M unit := fun w =>
  (tt, {| step_run := step_run w; workflow_run := workflow_run w;
          published := published w; clock := clock w;
          trace := trace w ++ [e] |}).

Definition now : M Z := fun w => (clock w, w).

Definition advance (d : Z) : M unit := fun w =>
  (tt, {| step_run := step_run w; workflow_run := workflow_run w;
          published := published w; clock := clock w + d;
          trace := trace w |}).

Definition Printf (msg : string) (err : error) : M unit := emit (EvLog msg err).

(** ** Contexts *)

(** A context as the callee sees it: an optional deadline, and whether
    it has been cancelled by its owner. *)
Record Ctx : Type := { ctx_deadline : option Z; ctx_canceled : bool }.

Definition Background : Ctx := {| ctx_deadline := None; ctx_canceled := false |}.

(** [ctx.Err()] at clock reading [t]. *)
Definition ctx_Err (ctx : Ctx) (t : Z) : option error :=
  if ctx_canceled ctx then Some Canceled
  else match ctx_deadline ctx with
       | Some d => if d <=? t then Some DeadlineExceeded else None
       | None => None
       end.

(** [time.Until(t)]. *)
Definition Until (t : Z) : M Z := do c <- now; ret (Go.Sub t c).

(** [context.WithTimeout(parent, timeout)]: the deadline is the earlier of
    the parent's and [time.Now().Add(timeout)]. *)
Definition WithTimeout (parent : Ctx) (timeout : Z) : M Ctx :=
  do c <- now;
  ret {| ctx_deadline := Some (match ctx_deadline parent with
                               | Some d => Z.min d (c + timeout)
                               | None => c + timeout
                               end);
         ctx_canceled := ctx_canceled parent |}.

(** ** The Run Store *)

(** [UPDATE t SET ... WHERE ...]: every row the condition selects is
    rewritten, and the number of rows selected is reported. *)
Definition sql_update {R : Type} (cond : UUID -> R -> bool) (set : R -> R)
    (t : gmap UUID R) : gmap UUID R * Z :=
  (map_imap (fun k r => Some (if cond k r then set r else r)) t,
   Z.of_nat (size (filter (fun kr => cond kr.1 kr.2 = true) t))).

Definition cancellable (s : RunStatus) : bool :=
  match s with
  | RunStatusQueued | RunStatusRunning => true
  | _ => false
  end.

Definition set_run_status (s : RunStatus) (r : WorkflowRun) : WorkflowRun :=
  {| wr_workflow_spec_id := wr_workflow_spec_id r; wr_status := s;
     wr_started_at := wr_started_at r; wr_ended_at := wr_ended_at r;
     wr_cost_cents := wr_cost_cents r; wr_metadata := wr_metadata r;
     wr_created_at := wr_created_at r |}.

(** [SET status = $1, worker_id = $2, started_at = $3] *)
Definition set_step_status (status : StepStatus) (workerID : string)
    (startedAt : option Z) (r : StepRun) : StepRun :=
  {| sr_run_id := sr_run_id r; sr_node_id := sr_node_id r;
     sr_status := status; sr_attempt := sr_attempt r;
     sr_worker_id := Some workerID;
     sr_lease_deadline := sr_lease_deadline r;
     sr_started_at := startedAt; sr_ended_at := sr_ended_at r;
     sr_error := sr_error r; sr_cost_cents := sr_cost_cents r;
     sr_tokens_prompt := sr_tokens_prompt r;
     sr_tokens_completion := sr_tokens_completion r;
     sr_output_json := sr_output_json r |}.

(** [SET status = $1, ended_at = $2, error = $3, cost_cents = $4,
        tokens_prompt = $5, tokens_completion = $6] *)
Definition set_step_result (result : TaskResult) (endedAt : Z) (r : StepRun) : StepRun :=
  {| sr_run_id := sr_run_id r; sr_node_id := sr_node_id r;
     sr_status := Status result; sr_attempt := sr_attempt r;
     sr_worker_id := sr_worker_id r;
     sr_lease_deadline := sr_lease_deadline r;
     sr_started_at := sr_started_at r; sr_ended_at := Some endedAt;
     sr_error := ErrorMsg result; sr_cost_cents := CostCents result;
     sr_tokens_prompt := TokensPrompt result;
     sr_tokens_completion := TokensCompletion result;
     sr_output_json := sr_output_json r |}.

(** The effect of each statement on the tables. *)
Definition apply_stmt (q : Stmt) : M Z := fun w =>
  match q with
  | UpdCancelRun runID =>
      (* UPDATE workflow_run SET status = 'canceled'
         WHERE id = $1 AND status IN ('queued', 'running') *)
      let '(t, n) := sql_update
                       (fun k r => N.eqb k runID && cancellable (wr_status r))
                       (set_run_status RunStatusCanceled) (workflow_run w) in
      (n, {| step_run := step_run w; workflow_run := t;
             published := published w; clock := clock w; trace := trace w |})
  | UpdStepStatus status workerID startedAt stepID =>
      (* UPDATE step_run SET status = $1, worker_id = $2, started_at = $3
         WHERE id = $4 *)
      let '(t, n) := sql_update (fun k _ => N.eqb k stepID)
                       (set_step_status status workerID startedAt) (step_run w) in
      (n, {| step_run := t; workflow_run := workflow_run w;
             published := published w; clock := clock w; trace := trace w |})
  | UpdStepResult result endedAt =>
      (* UPDATE step_run SET status = $1, ended_at = $2, error = $3,
         cost_cents = $4, tokens_prompt = $5, tokens_completion = $6
         WHERE id = $7 *)
      let '(t, n) := sql_update (fun k _ => N.eqb k (TaskID result))
                       (set_step_result result endedAt) (step_run w) in
      (n, {| step_run := t; workflow_run := workflow_run w;
             published := published w; clock := clock w; trace := trace w |})
  end.

Arguments sql_update : simpl never.
Arguments apply_stmt : simpl never.

(** The database handle.  [db_fault] says which statements the connection
    fails to execute (and with which error); a statement that is not
    executed leaves the tables as they are. *)
Record DB : Type := { db_fault : Stmt -> option error }.

Record Result : Type := { res_rows : Z }.

(** [result.RowsAffected()]: Postgres reports the count with every
    command tag, so the error is nil. *)
Definition RowsAffected (r : Result) : Z * option error := (res_rows r, None).

(** [db.ExecContext(ctx, query, args...)]: a context that is already done
    fails the call before the statement is sent. *)
Definition exec_error (db : DB) (ctx : Ctx) (q : Stmt) (c : Z) : option error :=
  match ctx_Err ctx c with
  | Some e => Some e
  | None => db_fault db q
  end.

Definition ExecContext (db : DB) (ctx : Ctx) (q : Stmt) : M (Result * option error) :=
  do c <- now;
  match exec_error db ctx q c with
  | Some e => run emit (EvDB q (Some e)); ret ({| res_rows := 0 |}, Some e)
  | None =>
      do n <- apply_stmt q;
      run emit (EvDB q None);
      ret ({| res_rows := n |}, None)
  end.

(** ** The Durable Log *)

Record JetStream : Type := { js_fault : string -> Payload -> option error }.

Definition accept (subject : string) (p : Payload) : M unit := fun w =>
  (tt, {| step_run := step_run w; workflow_run := workflow_run w;
          published := published w ++ [(subject, p)]; clock := clock w;
          trace := trace w |}).

(** [js.Publish(subject, data)] *)
Definition Publish (js : JetStream) (subject : string) (p : Payload) : M (option error) :=
  match js_fault js subject p with
  | Some e => run emit (EvPublish subject p (Some e)); ret (Some e)
  | None => run accept subject p; run emit (EvPublish subject p None); ret None
  end.

(** ** Control plane *)

Record ControlPlane : Type := { cp_db : DB; cp_js : JetStream }.

Definition CancelWorkflowRun (cp : ControlPlane) (ctx : Ctx) (runID : UUID)
    : M (option error) :=
  (* Update run status *)
  let query := UpdCancelRun runID in
  do '(result, err) <- ExecContext (cp_db cp) ctx query;
  match err with
  | Some e => ret (Some (ErrWrap "failed to cancel workflow run: " e))
  | None =>
      let '(rowsAffected, err) := RowsAffected result in
      match err with
      | Some e => ret (Some (ErrWrap "failed to get rows affected: " e))
      | None =>
          if rowsAffected =? 0
          then ret (Some (ErrNew "workflow run not found or not in cancellable state"))
          else
            (* Send cancellation signal *)
            let cancelMsg := PSignal runID "cancel" in
            do err <- Publish (cp_js cp) "agentflow.signals" cancelMsg;
            run match err with
                | Some e => Printf "Failed to send cancellation signal: " e
                | None => ret tt
                end;
            ret None
      end
  end.

(** ** Worker *)

(** An executor is a plug-in: [Execute(ctx, task)] takes some time and
    returns a result or an error.  It may keep state of its own, so its
    reply may differ from one call to the next: the reply is a function of
    the context, the task, the iteration of the retry loop that makes the
    call, and the clock at the call. *)
Record ExecReply : Type := { er_elapsed : N; er_out : TaskResult + error }.

Definition Executor : Type := Ctx -> Task -> Z -> Z -> ExecReply.

(** What the Go runtime and [encoding/json] decide: which case of a
    [select] runs when both become ready at the same instant (true: the
    timer), and which results cannot be marshalled. *)
Record Runtime : Type := {
  select_tie : Z -> bool;
  marshal_fault : TaskResult -> option error
}.

Record Worker : Type := {
  w_id : string;
  w_db : DB;
  w_js : JetStream;
  executors : gmap string Executor;
  w_rt : Runtime
}.

(** A delivered message: [Data] as [json.Unmarshal] reads it. *)
Record Msg : Type := { Data : Task + error }.

Definition Ack : M unit := emit EvAck.
Definition Nak : M unit := emit EvNak.

(** [executor.Execute(ctx, task)], called in iteration [attempt]. *)
Definition Execute (executor : Executor) (ctx : Ctx) (task : Task) (attempt : Z)
    : M (TaskResult + error) :=
  do c <- now;
  run emit (EvExecute attempt);
  let reply := executor ctx task attempt c in
  run advance (Z.of_N (er_elapsed reply));
  ret (er_out reply).

(** The instant at which [ctx.Done()] is ready, seen from clock reading
    [c]; [None] when it never is. *)
Definition ctx_done_at (ctx : Ctx) (c : Z) : option Z :=
  if ctx_canceled ctx then Some c
  else match ctx_deadline ctx with
       | Some d => Some (Z.max c d)
       | None => None
       end.

(** [ctx.Err()] once [ctx.Done()] is closed. *)
Definition done_reason (ctx : Ctx) : error :=
  if ctx_canceled ctx then Canceled else DeadlineExceeded.

Inductive Selected : Type := CtxDone | TimerFired.

Definition fire_timer (c fire backoff : Z) : M Selected :=
  run advance (fire - c); run emit (EvSleep backoff); ret TimerFired.

Definition fire_done (c done : Z) : M Selected :=
  run advance (done - c); run emit EvCtxDone; ret CtxDone.

(** [select { case <-ctx.Done(): ... case <-time.After(backoff): ... }]:
    the case that becomes ready first runs.  A timer with a duration that
    is not positive fires at once. *)
Definition select_done_or_after (rt : Runtime) (ctx : Ctx) (attempt backoff : Z)
    : M Selected :=
  do c <- now;
  let fire := c + Z.max 0 backoff in
  match ctx_done_at ctx c with
  | None => fire_timer c fire backoff
  | Some done =>
      if done <? fire then fire_done c done
      else if fire <? done then fire_timer c fire backoff
      else if select_tie rt attempt then fire_timer c fire backoff
      else fire_done c done
  end.

(** [fmt.Errorf("task failed after %d attempts: %w", maxRetries, lastErr)] *)
Definition failed_after (maxRetries : Z) (lastErr : option error) : error :=
  match lastErr with
  | Some e => ErrWrap ("task failed after " +:+ pretty maxRetries +:+ " attempts: ") e
  | None => ErrNew ("task failed after " +:+ pretty maxRetries +:+ " attempts: %!w(<nil>)")
  end.

(** The [for attempt := 1; attempt <= maxRetries; attempt++] loop of
    [executeTask], entered at [attempt].  [fuel] bounds the number of
    iterations the model follows; [None] means the bound was reached. *)
Fixpoint retry_loop (fuel : nat) (rt : Runtime) (executor : Executor) (ctx : Ctx)
    (task : Task) (maxRetries attempt : Z) (lastErr : option error)
    : M (option (TaskResult + error)) :=
  match fuel with
  | O => ret None
  | S fuel' =>
      if attempt <=? maxRetries then
        do r <- Execute executor ctx task attempt;
        match r with
        | inl result => ret (Some (inl result))
        | inr err =>
            let lastErr := Some err in
            if attempt <? maxRetries then
              (* Exponential backoff *)
              let backoff := Go.mul (Go.mul attempt attempt) Go.Second in
              do which <- select_done_or_after rt ctx attempt backoff;
              match which with
              | CtxDone => ret (Some (inr (done_reason ctx)))
              | TimerFired =>
                  retry_loop fuel' rt executor ctx task maxRetries (Go.incr attempt) lastErr
              end
            else
              retry_loop fuel' rt executor ctx task maxRetries (Go.incr attempt) lastErr
        end
      else ret (Some (inr (failed_after maxRetries lastErr)))
  end.

(** [fmt.Errorf("no executor for node type %s", task.Node.Type)] *)
Definition no_executor (t : NodeType) : error :=
  ErrNew ("no executor for node type " +:+ t).

Definition executeTask (fuel : nat) (w : Worker) (ctx : Ctx) (task : Task)
    : M (option (TaskResult + error)) :=
  match executors w !! node_Type (task_Node task) with
  | None => ret (Some (inr (no_executor (node_Type (task_Node task)))))
  | Some executor =>
      (* Add retry logic *)
      let maxRetries := MaxRetries (node_Policy (task_Node task)) in
      let maxRetries := if maxRetries =? 0 then 3 (* Default *) else maxRetries in
      retry_loop fuel (w_rt w) executor ctx task maxRetries 1 None
  end.

Definition updateStepStatus (w : Worker) (ctx : Ctx) (stepID : UUID)
    (status : StepStatus) (workerID : string) : M (option error) :=
  do startedAt <- (if StepStatus_eqb status StepStatusRunning
                   then do n <- now; ret (Some n)
                   else ret None);
  let query := UpdStepStatus status workerID startedAt stepID in
  do '(_, err) <- ExecContext (w_db w) ctx query;
  ret err.

Definition updateStepWithResult (w : Worker) (ctx : Ctx) (result : TaskResult)
    : M (option error) :=
  do n <- now;
  let query := UpdStepResult result n in
  do '(_, err) <- ExecContext (w_db w) ctx query;
  ret err.

Definition publishResult (w : Worker) (ctx : Ctx) (result : TaskResult)
    : M (option error) :=
  match marshal_fault (w_rt w) result with
  | Some e => ret (Some (ErrWrap "failed to marshal result: " e))
  | None => Publish (w_js w) "agentflow.results" (PResult result)
  end.

(** [context.WithTimeout(context.Background(), time.Until(task.DeadlineAt))] *)
Definition task_context (task : Task) : M Ctx :=
  do d <- Until (DeadlineAt task);
  WithTimeout Background d.

(** The result [handleTask] builds when [executeTask] returns an error. *)
Definition failed_result (task : Task) (err : error) : TaskResult :=
  {| TaskID := task_ID task; Status := StepStatusFailed; ErrorMsg := Error err;
     CostCents := 0; TokensPrompt := 0; TokensCompletion := 0; Output := "" |}.

Definition handleTask (fuel : nat) (w : Worker) (msg : Msg) : M (option unit) :=
  match Data msg with
  | inr err =>
      run Printf "Failed to unmarshal task: " err;
      run Nak;
      ret (Some tt)
  | inl task =>
      do ctx <- task_context task;
      (* Update step status to running *)
      do err <- updateStepStatus w ctx (task_ID task) StepStatusRunning (w_id w);
      match err with
      | Some err =>
          run Printf "Failed to update step status to running: " err;
          run Nak;
          ret (Some tt)
      | None =>
          (* Execute task *)
          do r <- executeTask fuel w ctx task;
          match r with
          | None => ret None
          | Some r =>
              do result <- match r with
                           | inl result => ret result
                           | inr err =>
                               run Printf "Failed to execute task: " err;
                               ret (failed_result task err)
                           end;
              (* Update step with result *)
              do err <- updateStepWithResult w ctx result;
              match err with
              | Some err =>
                  run Printf "Failed to update step with result: " err;
                  run Nak;
                  ret (Some tt)
              | None =>
                  (* Publish result *)
                  do err <- publishResult w ctx result;
                  match err with
                  | Some err =>
                      run Printf "Failed to publish result: " err;
                      run Nak;
                      ret (Some tt)
                  | None =>
                      run Ack;
                      ret (Some tt)
                  end
              end
          end
      end
  end.

(** ** Concrete workers, tasks and stores used in the examples *)

Module Sample.

Definition healthy_db : DB := {| db_fault := fun _ => None |}.
Definition healthy_js : JetStream := {| js_fault := fun _ _ => None |}.
Definition broken_js : JetStream :=
  {| js_fault := fun _ _ => Some (ErrNew "nats: timeout") |}.
Definition rt : Runtime :=
  {| select_tie := fun _ => true; marshal_fault := fun _ => None |}.

Definition ok_result (id : UUID) : TaskResult :=
  {| TaskID := id; Status := StepStatusSucceeded; ErrorMsg := "";
     CostCents := 2; TokensPrompt := 10; TokensCompletion := 20;
     Output := "{}" |}.

(** Succeeds at once, in one millisecond. *)
Definition quick : Executor := fun _ task _ _ =>
  {| er_elapsed := 1000000%N; er_out := inl (ok_result (task_ID task)) |}.

(** Fails in the first two iterations and succeeds in the third. *)
Definition flaky : Executor := fun _ task attempt _ =>
  {| er_elapsed := 1000000%N;
     er_out := if attempt <? 3 then inr (ErrNew "upstream 503")
               else inl (ok_result (task_ID task)) |}.

(** Always fails. *)
Definition failing : Executor := fun _ _ _ _ =>
  {| er_elapsed := 1000000%N; er_out := inr (ErrNew "upstream 503") |}.

Definition worker : Worker :=
  {| w_id := "worker-a"; w_db := healthy_db; w_js := healthy_js;
     executors := {[ "llm" := flaky; "tool" := quick; "function" := failing ]};
     w_rt := rt |}.

Definition task (ty : NodeType) (retries deadline : Z) : Task :=
  {| task_ID := 7%N; task_RunID := 1%N;
     task_Node := {| node_ID := "a"; node_Type := ty;
                     node_Policy := {| MaxRetries := retries |} |};
     task_Inputs := "{}"; task_Attempt := 1; DeadlineAt := deadline |}.

Definition step (s : StepStatus) : StepRun :=
  {| sr_run_id := 1%N; sr_node_id := "a"; sr_status := s; sr_attempt := 1;
     sr_worker_id := None; sr_lease_deadline := None;
     sr_started_at := None; sr_ended_at := None; sr_error := "";
     sr_cost_cents := 0; sr_tokens_prompt := 0; sr_tokens_completion := 0;
     sr_output_json := "" |}.

Definition wfrun (s : RunStatus) : WorkflowRun :=
  {| wr_workflow_spec_id := 3%N; wr_status := s; wr_started_at := None;
     wr_ended_at := None; wr_cost_cents := 0; wr_metadata := "{}";
     wr_created_at := 0 |}.

(** A store with step 7 of run 1, at clock reading 100 s. *)
Definition world (s : StepStatus) (r : RunStatus) : World :=
  {| step_run := {[ 7%N := step s ]}; workflow_run := {[ 1%N := wfrun r ]};
     published := []; clock := 100 * Go.Second; trace := [] |}.

Definition hour : Z := 3600 * Go.Second.

End Sample.

(** ** Start and shutdown of the two components *)

(** A call that may panic. *)
Inductive outcome (A : Type) : Type :=
| Returned (a : A)
| Panicked (reason : string).

Arguments Returned {A} a.
Arguments Panicked {A} reason.

Inductive Conn : Type := ConnNATS | ConnRedis | ConnDB.

(** [nats.StreamConfig], with the fields [initStreams] sets. *)
Record StreamConfig : Type := {
  sc_Name : string;
  sc_Subjects : list string;
  sc_MaxAge : Z
}.

(** What a component does to its collaborators while it starts and stops,
    with the error each call returned. *)
Inductive Op : Type :=
| OpRunMigrations (dir : string) (err : option error)
| OpAddStream (cfg : StreamConfig) (err : option error)
| OpSchedulerStart (err : option error)
| OpMonitorStart (err : option error)
| OpSchedulerShutdown
| OpMonitorShutdown
| OpSubscribe (subject durable : string) (err : option error)
| OpGoHeartbeatLoop
| OpCloseShutdown
| OpClose (c : Conn)
| OpPrint (line : string).

(** The part of a [ControlPlane] or [Worker] value that [Start] and
    [Shutdown] read and write: the [running] flag, whether the [shutdown]
    channel (made once, by the constructor) has been closed, and the calls
    made so far. *)
Record Proc : Type := {
  p_running : bool;
  p_closed : bool;
  p_ops : list Op
}.

Definition did (o : Op) (p : Proc) : Proc :=
  {| p_running := p_running p; p_closed := p_closed p; p_ops := p_ops p ++ [o] |}.

Definition set_running (b : bool) (p : Proc) : Proc :=
  {| p_running := b; p_closed := p_closed p; p_ops := p_ops p |}.

(** [close(ch)]: closing a closed channel panics. *)
Definition close_shutdown (p : Proc) : outcome unit * Proc :=
  if p_closed p then (Panicked "close of closed channel", p)
  else (Returned tt,
        {| p_running := p_running p; p_closed := true;
           p_ops := p_ops p ++ [OpCloseShutdown] |}).

(** The answers of the collaborators of the control plane: the migration
    runner, JetStream's stream management, and the scheduler and the
    monitor, which are parts of the package that are not at hand. *)
Record ControlPlaneEnv : Type := {
  RunMigrations : string -> option error;
  AddStream : StreamConfig -> option error;
  scheduler_Start : option error;
  monitor_Start : option error
}.

Definition ErrStreamNameAlreadyInUse : error :=
  ErrNew "nats: stream name already in use".

Fixpoint error_eqb (a b : error) : bool :=
  match a, b with
  | ErrNew m, ErrNew m' => String.eqb m m'
  | ErrWrap p c, ErrWrap p' c' => String.eqb p p' && error_eqb c c'
  | _, _ => false
  end.

Definition Hour : Z := 3600 * Go.Second.

(** The streams of [initStreams]. *)
Definition streams : list StreamConfig :=
  [ {| sc_Name := "AGENTFLOW_TASKS"; sc_Subjects := ["agentflow.tasks.*"];
       sc_MaxAge := 24 * Hour |};
    {| sc_Name := "AGENTFLOW_RESULTS"; sc_Subjects := ["agentflow.results.*"];
       sc_MaxAge := 24 * Hour |};
    {| sc_Name := "AGENTFLOW_SIGNALS"; sc_Subjects := ["agentflow.signals"];
       sc_MaxAge := 24 * Hour |} ].

(** The [for _, stream := range streams] loop of [initStreams]. *)
Fixpoint initStreams_loop (env : ControlPlaneEnv) (todo : list StreamConfig)
    (p : Proc) : option error * Proc :=
  match todo with
  | [] => (None, p)
  | stream :: rest =>
      let err := AddStream env stream in
      let p := did (OpAddStream stream err) p in
      match err with
      | Some e =>
          if negb (error_eqb e ErrStreamNameAlreadyInUse)
          then (Some (ErrWrap ("failed to create stream " +:+ sc_Name stream +:+ ": ") e), p)
          else initStreams_loop env rest p
      | None => initStreams_loop env rest p
      end
  end.

Definition initStreams (env : ControlPlaneEnv) (p : Proc) : option error * Proc :=
  initStreams_loop env streams p.

(** [(cp *ControlPlane) Start] *)
Definition ControlPlane_Start (env : ControlPlaneEnv) (p : Proc) : option error * Proc :=
  if p_running p then (Some (ErrNew "control plane already running"), p)
  else
    (* Run database migrations *)
    let err := RunMigrations env "./migrations" in
    let p := did (OpRunMigrations "./migrations" err) p in
    match err with
    | Some e => (Some (ErrWrap "failed to run migrations: " e), p)
    | None =>
        (* Initialize NATS streams *)
        let '(err, p) := initStreams env p in
        match err with
        | Some e => (Some (ErrWrap "failed to initialize streams: " e), p)
        | None =>
            (* Start scheduler *)
            let err := scheduler_Start env in
            let p := did (OpSchedulerStart err) p in
            match err with
            | Some e => (Some (ErrWrap "failed to start scheduler: " e), p)
            | None =>
                (* Start monitor *)
                let err := monitor_Start env in
                let p := did (OpMonitorStart err) p in
                match err with
                | Some e => (Some (ErrWrap "failed to start monitor: " e), p)
                | None =>
                    let p := set_running true p in
                    let p := did (OpPrint "Control plane started") p in
                    (None, p)
                end
            end
        end
    end.

(** [(cp *ControlPlane) Shutdown]: the constructor has set the scheduler,
    the monitor and the three connections, so none of them is nil. *)
Definition ControlPlane_Shutdown (p : Proc) : outcome (option error) * Proc :=
  if negb (p_running p) then (Returned None, p)
  else
    match close_shutdown p with
    | (Panicked reason, p) => (Panicked reason, p)
    | (Returned _, p) =>
        (* Shutdown components *)
        let p := did OpSchedulerShutdown p in
        let p := did OpMonitorShutdown p in
        (* Close connections *)
        let p := did (OpClose ConnNATS) p in
        let p := did (OpClose ConnRedis) p in
        let p := did (OpClose ConnDB) p in
        let p := set_running false p in
        let p := did (OpPrint "Control plane shutdown complete") p in
        (Returned None, p)
    end.

(** The answers of JetStream to the worker's subscriptions, by subject and
    durable name. *)
Record WorkerEnv : Type := { Subscribe : string -> string -> option error }.

(** The subjects of [(w *Worker) Start]. *)
Definition subjects : list string :=
  ["agentflow.tasks.Gold"; "agentflow.tasks.Silver"; "agentflow.tasks.Bronze"].

(** The [for _, subject := range subjects] loop of [(w *Worker) Start]. *)
Fixpoint subscribe_loop (env : WorkerEnv) (durable : string) (todo : list string)
    (p : Proc) : option error * Proc :=
  match todo with
  | [] => (None, p)
  | subject :: rest =>
      let err := Subscribe env subject durable in
      let p := did (OpSubscribe subject durable err) p in
      match err with
      | Some e => (Some (ErrWrap ("failed to subscribe to " +:+ subject +:+ ": ") e), p)
      | None => subscribe_loop env durable rest p
      end
  end.

(** [(w *Worker) Start] *)
Definition Worker_Start (w : Worker) (env : WorkerEnv) (p : Proc) : option error * Proc :=
  if p_running p then (Some (ErrNew "worker already running"), p)
  else
    let p := set_running true p in
    (* Subscribe to task queues *)
    let '(err, p) := subscribe_loop env ("worker-" +:+ w_id w) subjects p in
    match err with
    | Some e => (Some e, p)
    | None =>
        (* Start heartbeat *)
        let p := did OpGoHeartbeatLoop p in
        let p := did (OpPrint ("Worker " +:+ w_id w +:+ " started")) p in
        (None, p)
    end.

(** [(w *Worker) Shutdown] *)
Definition Worker_Shutdown (w : Worker) (p : Proc) : outcome (option error) * Proc :=
  if negb (p_running p) then (Returned None, p)
  else
    match close_shutdown p with
    | (Panicked reason, p) => (Panicked reason, p)
    | (Returned _, p) =>
        let p := set_running false p in
        (* Close connections *)
        let p := did (OpClose ConnNATS) p in
        let p := did (OpClose ConnRedis) p in
        let p := did (OpClose ConnDB) p in
        let p := did (OpPrint ("Worker " +:+ w_id w +:+ " shutdown")) p in
        (Returned None, p)
    end.

(** A component as its constructor leaves it. *)
Definition fresh : Proc := {| p_running := false; p_closed := false; p_ops := [] |}.

(** ** Concrete collaborators used in the examples of start and shutdown *)

Module SampleEnv.

Definition healthy : ControlPlaneEnv :=
  {| RunMigrations := fun _ => None; AddStream := fun _ => None;
     scheduler_Start := None; monitor_Start := None |}.

(** The tasks stream exists already; the results stream cannot be made. *)
Definition results_down : ControlPlaneEnv :=
  {| RunMigrations := fun _ => None;
     AddStream := fun cfg =>
       if String.eqb (sc_Name cfg) "AGENTFLOW_TASKS" then Some ErrStreamNameAlreadyInUse
       else if String.eqb (sc_Name cfg) "AGENTFLOW_RESULTS" then Some (ErrNew "nats: timeout")
       else None;
     scheduler_Start := None; monitor_Start := None |}.

Definition monitor_down : ControlPlaneEnv :=
  {| RunMigrations := fun _ => None; AddStream := fun _ => None;
     scheduler_Start := None; monitor_Start := Some (ErrNew "monitor: no store") |}.

Definition subscribing : WorkerEnv := {| Subscribe := fun _ _ => None |}.

(** The sample worker, with a log that accepts nothing. *)
Definition unheard : Worker :=
  {| w_id := "worker-a"; w_db := Sample.healthy_db; w_js := Sample.broken_js;
     executors := executors Sample.worker; w_rt := Sample.rt |}.

Definition silver_down : WorkerEnv :=
  {| Subscribe := fun subject _ =>
       if String.eqb subject "agentflow.tasks.Silver"
       then Some (ErrNew "nats: connection closed") else None |}.

End SampleEnv.

(** ** Submitting and reading workflow runs *)

(** Modelled from the spec: a row of [workflow_spec] (§6), keyed by
    [(name, version)], which the table holds at most once. *)
Record WorkflowSpecRow : Type := {
  ws_id : UUID;
  ws_org_id : UUID;
  ws_dag_json : string;
  ws_metadata_json : string
}.

(** The Run Store as the queries of the control plane see it: the
    specifications (no handler here writes them), and which SELECT and
    INSERT the connection fails to execute. *)
Record RunStore : Type := {
  rs_specs : gmap (string * Z) WorkflowSpecRow;
  rs_select_spec_fault : string -> Z -> option error;
  rs_select_run_fault : UUID -> option error;
  rs_insert_run_fault : UUID -> option error
}.

(** [sql.ErrNoRows] *)
Definition ErrNoRows : error := ErrNew "sql: no rows in result set".

(** The error of an INSERT whose [id] is taken ([id] is the key of the
    table). *)
Definition ErrDuplicateKey : error :=
  ErrNew "pq: duplicate key value violates unique constraint".

Section Runs.

(** The types of the request inputs and tags, of the DAG and of the
    metadata map are declared in the part of the package that is not at
    hand. *)
Context {Inputs Tags DAG Metadata : Type}.

(** Modelled from the spec: the request of [SubmitWorkflow] (§6). *)
Record RunRequest : Type := {
  WorkflowName : string;
  WorkflowVersion : Z;
  req_Inputs : Inputs;
  req_Tags : Tags;
  BudgetCents : Z
}.

(** Modelled from the spec: the Go value of a workflow specification (§3). *)
Record WorkflowSpec : Type := {
  spec_ID : UUID;
  spec_OrgID : UUID;
  spec_Name : string;
  spec_Version : Z;
  spec_DAG : DAG;
  spec_Metadata : Metadata
}.

(** Modelled from the spec: the Go value of a workflow run (§3); the row
    of the table is [WorkflowRun]. *)
Record Run : Type := {
  run_ID : UUID;
  run_WorkflowSpecID : UUID;
  run_Status : RunStatus;
  run_StartedAt : option Z;
  run_EndedAt : option Z;
  run_CostCents : Z;
  run_Metadata : Metadata;
  run_CreatedAt : Z
}.

(** [encoding/json] on these types, the [Metadata{...}] literal of
    [SubmitWorkflow], and [scheduler.SubmitRun]. *)
Record Package : Type := {
  marshal_metadata : Metadata -> string + error;
  unmarshal_metadata : string -> Metadata + error;
  unmarshal_dag : string -> DAG + error;
  metadata_of : Inputs -> Tags -> Z -> Metadata;
  scheduler_SubmitRun : Ctx -> Run -> WorkflowSpec -> M (option error)
}.

Variables (pk : Package) (rs : RunStore).

(** The error of a query: a context that is done fails it before it is
    sent. *)
Definition query_error (ctx : Ctx) (fault : option error) (c : Z) : option error :=
  match ctx_Err ctx c with
  | Some e => Some e
  | None => fault
  end.

Definition getWorkflowSpec (ctx : Ctx) (name : string) (version : Z)
    : M (WorkflowSpec + error) :=
  (* SELECT id, org_id, name, version, dag, metadata
     FROM workflow_spec WHERE name = $1 AND version = $2 *)
  do c <- now;
  match query_error ctx (rs_select_spec_fault rs name version) c with
  | Some e => ret (inr (ErrWrap "failed to get workflow spec: " e))
  | None =>
      match rs_specs rs !! (name, version) with
      | None => ret (inr (ErrWrap "failed to get workflow spec: " ErrNoRows))
      | Some row =>
          match unmarshal_dag pk (ws_dag_json row) with
          | inr e => ret (inr (ErrWrap "failed to unmarshal DAG: " e))
          | inl dag =>
              match unmarshal_metadata pk (ws_metadata_json row) with
              | inr e => ret (inr (ErrWrap "failed to unmarshal metadata: " e))
              | inl md =>
                  ret (inl {| spec_ID := ws_id row; spec_OrgID := ws_org_id row;
                              spec_Name := name; spec_Version := version;
                              spec_DAG := dag; spec_Metadata := md |})
              end
          end
      end
  end.

Definition GetWorkflowRun (ctx : Ctx) (runID : UUID) : M (Run + error) :=
  (* SELECT id, workflow_spec_id, status, started_at, ended_at, cost_cents,
            metadata, created_at
     FROM workflow_run WHERE id = $1 *)
  do c <- now;
  fun w =>
    match query_error ctx (rs_select_run_fault rs runID) c with
    | Some e => (inr (ErrWrap "failed to get workflow run: " e), w)
    | None =>
        match workflow_run w !! runID with
        | None => (inr (ErrWrap "failed to get workflow run: " ErrNoRows), w)
        | Some row =>
            match unmarshal_metadata pk (wr_metadata row) with
            | inr e => (inr (ErrWrap "failed to unmarshal metadata: " e), w)
            | inl md =>
                (inl {| run_ID := runID;
                        run_WorkflowSpecID := wr_workflow_spec_id row;
                        run_Status := wr_status row;
                        run_StartedAt := wr_started_at row;
                        run_EndedAt := wr_ended_at row;
                        run_CostCents := wr_cost_cents row;
                        run_Metadata := md;
                        run_CreatedAt := wr_created_at row |}, w)
            end
        end
    end.

(** [INSERT INTO workflow_run (id, workflow_spec_id, status, cost_cents,
    metadata, created_at) VALUES (...)]: the columns that are not named
    are NULL. *)
Definition insert_run (wfrun : Run) (metadataJSON : string) : M unit := fun w =>
  (tt, {| step_run := step_run w;
          workflow_run :=
            <[ run_ID wfrun :=
                 {| wr_workflow_spec_id := run_WorkflowSpecID wfrun;
                    wr_status := run_Status wfrun;
                    wr_started_at := None; wr_ended_at := None;
                    wr_cost_cents := run_CostCents wfrun;
                    wr_metadata := metadataJSON;
                    wr_created_at := run_CreatedAt wfrun |} ]> (workflow_run w);
          published := published w; clock := clock w; trace := trace w |}).

Definition saveWorkflowRun (ctx : Ctx) (wfrun : Run) : M (option error) :=
  match marshal_metadata pk (run_Metadata wfrun) with
  | inr e => ret (Some (ErrWrap "failed to marshal metadata: " e))
  | inl metadataJSON =>
      do c <- now;
      fun w =>
        match query_error ctx (rs_insert_run_fault rs (run_ID wfrun)) c with
        | Some e => (Some (ErrWrap "failed to insert workflow run: " e), w)
        | None =>
            match workflow_run w !! run_ID wfrun with
            | Some _ =>
                (Some (ErrWrap "failed to insert workflow run: " ErrDuplicateKey), w)
            | None => (None, (insert_run wfrun metadataJSON w).2)
            end
        end
  end.

(** [SubmitWorkflow]; [newID] is the value of [uuid.New()]. *)
Definition SubmitWorkflow (newID : UUID) (ctx : Ctx) (req : RunRequest)
    : M (Run + error) :=
  (* Get workflow spec *)
  do r <- getWorkflowSpec ctx (WorkflowName req) (WorkflowVersion req);
  match r with
  | inr err => ret (inr (ErrWrap "failed to get workflow spec: " err))
  | inl spec =>
      (* Create workflow run *)
      do c <- now;
      let wfrun := {| run_ID := newID;
                    run_WorkflowSpecID := spec_ID spec;
                    run_Status := RunStatusQueued;
                    run_StartedAt := None; run_EndedAt := None;
                    run_CostCents := 0;
                    run_Metadata := metadata_of pk (req_Inputs req) (req_Tags req)
                                      (BudgetCents req);
                    run_CreatedAt := c |} in
      (* Save to database *)
      do err <- saveWorkflowRun ctx wfrun;
      match err with
      | Some err => ret (inr (ErrWrap "failed to save workflow run: " err))
      | None =>
          (* Submit to scheduler *)
          do err <- scheduler_SubmitRun pk ctx wfrun spec;
          match err with
          | Some err => ret (inr (ErrWrap "failed to submit run to scheduler: " err))
          | None => ret (inl wfrun)
          end
      end
  end.

End Runs.

Arguments RunRequest : clear implicits.
Arguments WorkflowSpec : clear implicits.
Arguments Run : clear implicits.
Arguments Package : clear implicits.

(** ** A concrete package and catalogue used in the examples of runs *)

Module SampleRuns.

(** JSON texts stand for the values they encode; the scheduler accepts
    every run and does nothing else. *)
Definition package : Package string (list string) string string :=
  {| marshal_metadata := inl; unmarshal_metadata := inl; unmarshal_dag := inl;
     metadata_of := fun inputs _ _ => inputs;
     scheduler_SubmitRun := fun _ _ _ => ret None |}.

Definition store : RunStore :=
  {| rs_specs := {[ ("summarize", 1) :=
                      {| ws_id := 3%N; ws_org_id := 2%N; ws_dag_json := "{}";
                         ws_metadata_json := "{}" |} ]};
     rs_select_spec_fault := fun _ _ => None;
     rs_select_run_fault := fun _ => None;
     rs_insert_run_fault := fun _ => None |}.

Definition new_run : Run string :=
  {| run_ID := 9%N; run_WorkflowSpecID := 3%N; run_Status := RunStatusQueued;
     run_StartedAt := Some 5; run_EndedAt := None; run_CostCents := 0;
     run_Metadata := "{}"; run_CreatedAt := 100 * Go.Second |}.

Definition request (name : string) : RunRequest string (list string) :=
  {| WorkflowName := name; WorkflowVersion := 1; req_Inputs := "{}";
     req_Tags := ["Gold"]; BudgetCents := 1000 |}.

End SampleRuns.

(** * Vocabulary of the properties *)

Definition terminal_run (s : RunStatus) : bool :=
  match s with
  | RunStatusSucceeded | RunStatusFailed | RunStatusCanceled => true
  | _ => false
  end.

(** The run [runID] is in [queued] or [running] in the store of [w]. *)
Definition queued_or_running (w : World) (runID : UUID) : Prop :=
  exists row, workflow_run w !! runID = Some row
              /\ (wr_status row = RunStatusQueued \/ wr_status row = RunStatusRunning).

(** Between [w] and [w'] the run went from [queued] or [running] to
    [canceled], nothing else of the row changing. *)
Definition moved_to_canceled (w w' : World) (runID : UUID) : Prop :=
  exists row, workflow_run w !! runID = Some row
              /\ (wr_status row = RunStatusQueued \/ wr_status row = RunStatusRunning)
              /\ workflow_run w' !! runID = Some (set_run_status RunStatusCanceled row).

Definition same_store (w w' : World) : Prop :=
  step_run w' = step_run w /\ workflow_run w' = workflow_run w
  /\ published w' = published w.

(** A context with a deadline, as [context.WithTimeout] makes them. *)
Definition deadline_ctx (D : Z) : Ctx :=
  {| ctx_deadline := Some D; ctx_canceled := false |}.

(** The actions of [n] consecutive iterations starting at iteration [a]:
    a call of the executor in each, and between one and the next a sleep of
    [a * a] seconds. *)
Fixpoint rounds (n : nat) (a : Z) : list Event :=
  match n with
  | O => []
  | S n' =>
      match n' with
      | O => [EvExecute a]
      | S _ => EvExecute a :: EvSleep (a * a * Go.Second) :: rounds n' (a + 1)
      end
  end.

(** How a run of the loop that made [n] iterations from iteration [a] on
    ends: with the result of the last call; with all iterations up to
    [maxRetries] used and the last error wrapped; or with the context done
    during the sleep that follows a failed call, before [maxRetries] is
    reached. *)
Definition loop_verdict (executor : Executor) (ctx : Ctx) (task : Task)
    (maxRetries a : Z) (n : nat) (lastErr : option error)
    (tail : list Event) (out : TaskResult + error) : Prop :=
  (tail = [] /\ (0 < n)%nat
   /\ exists c result,
        er_out (executor ctx task (a + Z.of_nat n - 1) c) = inl result
        /\ out = inl result)
  \/ (tail = [] /\ Z.of_nat n = Z.max 0 (maxRetries - a + 1)
      /\ exists lastErr',
           out = inr (failed_after maxRetries lastErr')
           /\ ((n = 0%nat /\ lastErr' = lastErr)
               \/ ((0 < n)%nat
                   /\ exists c err,
                        er_out (executor ctx task maxRetries c) = inr err
                        /\ lastErr' = Some err)))
  \/ (tail = [EvCtxDone] /\ (0 < n)%nat /\ a + Z.of_nat n - 1 < maxRetries
      /\ out = inr (done_reason ctx)).

(** On entry to iteration [a], the sleeps of the iterations before have
    all been slept in full, within the deadline. *)
Definition entry_ok (c0 D a : Z) (w : World) : Prop :=
  (a - 1) * (a - 1) * (a - 1) * Go.Second <= 3 * (clock w - c0)
  /\ (a = 1 \/ clock w <= D).

(** The clock reading at which iteration [a + k] makes its call, when
    iteration [a] made its call at [c] and each of the [k] iterations from
    [a] on made its call and then slept its back-off in full. *)
Fixpoint entry_clock (executor : Executor) (ctx : Ctx) (task : Task) (a c : Z)
    (k : nat) : Z :=
  match k with
  | O => c
  | S k' =>
      let a' := a + Z.of_nat k' in
      let t := entry_clock executor ctx task a c k' in
      t + Z.of_N (er_elapsed (executor ctx task a' t)) + a' * a' * Go.Second
  end.

(** The course in time of a run of the loop that made [n] iterations from
    iteration [a], entered at clock reading [c], under a context with
    deadline [D], and that returned [out] at clock reading [c'].  Every
    iteration but the last made a call that failed, and then slept its
    back-off in full, the sleep ending no later than [D].  The last
    iteration [a'] ends the loop: with the result of its call; with all
    iterations up to [maxRetries] used and the error of its call wrapped;
    or with the context's error, which happens only when the deadline falls
    within the [a' * a'] seconds that follow its failed call, the loop then
    returning at the deadline.  With no iteration at all, [maxRetries] is
    below [a]. *)
Definition loop_timing (executor : Executor) (D : Z) (task : Task)
    (maxRetries a c : Z) (n : nat) (lastErr : option error)
    (tail : list Event) (out : TaskResult + error) (c' : Z) : Prop :=
  let ctx := deadline_ctx D in
  (forall k, (S k < n)%nat ->
     (exists err,
        er_out (executor ctx task (a + Z.of_nat k)
                  (entry_clock executor ctx task a c k)) = inr err)
     /\ entry_clock executor ctx task a c (S k) <= D)
  /\ match n with
     | O =>
         maxRetries < a /\ tail = []
         /\ out = inr (failed_after maxRetries lastErr) /\ c' = c
     | S m =>
         let a' := a + Z.of_nat m in
         let t := entry_clock executor ctx task a c m in
         let reply := executor ctx task a' t in
         let u := t + Z.of_N (er_elapsed reply) in
         a' <= maxRetries
         /\ match er_out reply with
            | inl result => tail = [] /\ out = inl result /\ c' = u
            | inr err =>
                (a' = maxRetries /\ tail = []
                 /\ out = inr (failed_after maxRetries (Some err)) /\ c' = u)
                \/ (a' < maxRetries /\ tail = [EvCtxDone]
                    /\ out = inr DeadlineExceeded
                    /\ D <= u + a' * a' * Go.Second /\ c' = Z.max u D)
            end
     end.

(** The context of a delivery: its deadline is the clock reading plus the
    time until [task.DeadlineAt], as a [Duration]. *)
Definition task_deadline (task : Task) (c : Z) : Z := c + Go.Sub (DeadlineAt task) c.

(** [maxRetries] as [executeTask] computes it from the node policy. *)
Definition effective_retries (task : Task) : Z :=
  let maxRetries := MaxRetries (node_Policy (task_Node task)) in
  if maxRetries =? 0 then 3 else maxRetries.

(** The store and trace after statement [q] has been executed. *)
Definition after_stmt (q : Stmt) (w : World) : World :=
  (emit (EvDB q None) (apply_stmt q w).2).2.

(** The result [handleTask] writes and publishes, and the line it logs,
    for an outcome of [executeTask]. *)
Definition result_of (task : Task) (r : TaskResult + error) : TaskResult :=
  match r with
  | inl result => result
  | inr err => failed_result task err
  end.

Definition log_of (r : TaskResult + error) : list Event :=
  match r with
  | inl _ => []
  | inr err => [EvLog "Failed to execute task: " err]
  end.

(** The statement with which [handleTask] claims the step. *)
Definition running_stmt (w : Worker) (task : Task) (c : Z) : Stmt :=
  UpdStepStatus StepStatusRunning (w_id w) (Some c) (task_ID task).

(** Actions of the retry loop and log lines: neither a statement, nor a
    publish, nor an acknowledgement. *)
Definition quiet (e : Event) : Prop :=
  match e with
  | EvExecute _ | EvSleep _ | EvCtxDone | EvLog _ _ => True
  | _ => False
  end.

(** The rewriting of row [k] by the statement that claims the step, and
    by the statement that writes the result. *)
Definition claim_row (w : Worker) (task : Task) (c : Z) (k : UUID) (row : StepRun)
    : StepRun :=
  if N.eqb k (task_ID task)
  then set_step_status StepStatusRunning (w_id w) (Some c) row else row.

Definition write_row (result : TaskResult) (c : Z) (k : UUID) (row : StepRun)
    : StepRun :=
  if N.eqb k (TaskID result) then set_step_result result c row else row.

(** The invariant of §3 and §8.4, in the words of the specification: a row
    in [running] has a worker id, and a lease deadline that is later than
    its start. *)
Definition spec_running_invariant (row : StepRun) : Prop :=
  sr_status row = StepStatusRunning ->
  exists wid started lease,
    sr_worker_id row = Some wid /\ sr_started_at row = Some started
    /\ sr_lease_deadline row = Some lease /\ started < lease.

(** [AddStream] has created the stream, or reports that it exists. *)
Definition stream_ok (env : ControlPlaneEnv) (cfg : StreamConfig) : Prop :=
  AddStream env cfg = None \/ AddStream env cfg = Some ErrStreamNameAlreadyInUse.

(** The calls of [AddStream] for the streams [l], in order. *)
Definition add_stream_ops (env : ControlPlaneEnv) (l : list StreamConfig) : list Op :=
  map (fun cfg => OpAddStream cfg (AddStream env cfg)) l.

(** The subscriptions [Start] asks for under the durable name [durable],
    for the subjects [l] in order. *)
Definition subscribe_ops (env : WorkerEnv) (durable : string) (l : list string)
    : list Op :=
  map (fun subject => OpSubscribe subject durable (Subscribe env subject durable)) l.

Section RunRows.

Context {Metadata : Type}.

(** The run that [GetWorkflowRun] makes of a row. *)
Definition run_of_row (runID : UUID) (row : WorkflowRun) (md : Metadata) : Run Metadata :=
  {| run_ID := runID; run_WorkflowSpecID := wr_workflow_spec_id row;
     run_Status := wr_status row; run_StartedAt := wr_started_at row;
     run_EndedAt := wr_ended_at row; run_CostCents := wr_cost_cents row;
     run_Metadata := md; run_CreatedAt := wr_created_at row |}.

(** The row that [saveWorkflowRun] inserts for a run. *)
Definition row_of_run (wfrun : Run Metadata) (json : string) : WorkflowRun :=
  {| wr_workflow_spec_id := run_WorkflowSpecID wfrun; wr_status := run_Status wfrun;
     wr_started_at := None; wr_ended_at := None;
     wr_cost_cents := run_CostCents wfrun; wr_metadata := json;
     wr_created_at := run_CreatedAt wfrun |}.

End RunRows.

(** * Properties *)

(** ** The UPDATE statement *)

Section SqlUpdate.

Context {R : Type}.
Variables (cond : UUID -> R -> bool) (set : R -> R).

Lemma sql_update_lookup (t : gmap UUID R) (k : UUID) :
  (sql_update cond set t).1 !! k
  = (fun r => if cond k r then set r else r) <$> (t !! k).
Proof.
  unfold sql_update; simpl. rewrite map_lookup_imap.
  destruct (t !! k); reflexivity.
Qed.

(** A condition that names the primary key selects at most one row. *)
Lemma sql_update_rows (id : UUID) (t : gmap UUID R) :
  (forall k r, cond k r = true -> k = id) ->
  (sql_update cond set t).2
  = match t !! id with
    | Some r => if cond id r then 1 else 0
    | None => 0
    end.
Proof.
  intros Hkey. unfold sql_update; simpl.
  destruct (t !! id) as [r|] eqn:Hid; [destruct (cond id r) eqn:Hc|].
  - replace (filter (fun kr => cond kr.1 kr.2 = true) t)
      with ({[ id := r ]} : gmap UUID R); [by rewrite map_size_singleton|].
    apply map_eq; intros k. apply option_eq; intros x.
    rewrite map_lookup_filter_Some, lookup_singleton_Some; simpl.
    split.
    + intros [-> ->]. auto.
    + intros [Hk Hx]. pose proof (Hkey _ _ Hx) as ->. split; congruence.
  - replace (filter (fun kr => cond kr.1 kr.2 = true) t)
      with (∅ : gmap UUID R); [by rewrite map_size_empty|].
    apply map_eq; intros k. apply option_eq; intros x.
    rewrite map_lookup_filter_Some, lookup_empty; simpl.
    split; [discriminate|].
    intros [Hk Hx]. pose proof (Hkey _ _ Hx) as ->. congruence.
  - replace (filter (fun kr => cond kr.1 kr.2 = true) t)
      with (∅ : gmap UUID R); [by rewrite map_size_empty|].
    apply map_eq; intros k. apply option_eq; intros x.
    rewrite map_lookup_filter_Some, lookup_empty; simpl.
    split; [discriminate|].
    intros [Hk Hx]. pose proof (Hkey _ _ Hx) as ->. congruence.
Qed.

End SqlUpdate.

(** ** [CancelWorkflowRun] *)

Lemma apply_cancel (runID : UUID) (w : World) :
  let r := apply_stmt (UpdCancelRun runID) w in
  r.1 = match workflow_run w !! runID with
        | Some row => if cancellable (wr_status row) then 1 else 0
        | None => 0
        end
  /\ (forall k, workflow_run r.2 !! k
               = (fun row => if N.eqb k runID && cancellable (wr_status row)
                             then set_run_status RunStatusCanceled row else row)
                 <$> (workflow_run w !! k))
  /\ step_run r.2 = step_run w /\ published r.2 = published w
  /\ clock r.2 = clock w /\ trace r.2 = trace w.
Proof.
  cbv zeta. unfold apply_stmt.
  pose proof (sql_update_rows
                (fun k row => N.eqb k runID && cancellable (wr_status row))
                (set_run_status RunStatusCanceled) runID (workflow_run w)) as Hn.
  pose proof (sql_update_lookup
                (fun k row => N.eqb k runID && cancellable (wr_status row))
                (set_run_status RunStatusCanceled) (workflow_run w)) as Hl.
  destruct (sql_update _ _ _) as [t n]; simpl in *.
  repeat split; auto.
  rewrite Hn.
  - rewrite N.eqb_refl. reflexivity.
  - intros k row H. apply andb_true_iff in H as [H _]. by apply N.eqb_eq.
Qed.

(** A run that the statement does not select is left as it is. *)
Lemma apply_cancel_noop (runID : UUID) (w : World) :
  (forall row, workflow_run w !! runID = Some row -> cancellable (wr_status row) = false) ->
  workflow_run (apply_stmt (UpdCancelRun runID) w).2 = workflow_run w.
Proof.
  intros Hno. destruct (apply_cancel runID w) as (_ & Hl & _).
  apply map_eq; intros k. rewrite Hl.
  destruct (workflow_run w !! k) as [row|] eqn:Hk; [|reflexivity]. simpl.
  destruct (N.eqb_spec k runID) as [->|]; [|reflexivity].
  by rewrite (Hno _ Hk).
Qed.

Lemma apply_stmt_frame (q : Stmt) (w : World) :
  let r := apply_stmt q w in
  published r.2 = published w /\ clock r.2 = clock w /\ trace r.2 = trace w.
Proof.
  cbv zeta. unfold apply_stmt.
  destruct q; destruct (sql_update _ _ _); simpl; auto.
Qed.

Lemma apply_step_status (status : StepStatus) (workerID : string)
    (startedAt : option Z) (stepID : UUID) (w : World) :
  let r := apply_stmt (UpdStepStatus status workerID startedAt stepID) w in
  (forall k, step_run r.2 !! k
             = (fun row => if N.eqb k stepID
                           then set_step_status status workerID startedAt row
                           else row) <$> (step_run w !! k))
  /\ workflow_run r.2 = workflow_run w.
Proof.
  cbv zeta. unfold apply_stmt.
  pose proof (sql_update_lookup (fun k (_ : StepRun) => N.eqb k stepID)
                (set_step_status status workerID startedAt) (step_run w)) as Hl.
  destruct (sql_update _ _ _) as [t n]; simpl in *. auto.
Qed.

Lemma apply_step_result (result : TaskResult) (endedAt : Z) (w : World) :
  let r := apply_stmt (UpdStepResult result endedAt) w in
  (forall k, step_run r.2 !! k
             = (fun row => if N.eqb k (TaskID result)
                           then set_step_result result endedAt row
                           else row) <$> (step_run w !! k))
  /\ workflow_run r.2 = workflow_run w.
Proof.
  cbv zeta. unfold apply_stmt.
  pose proof (sql_update_lookup (fun k (_ : StepRun) => N.eqb k (TaskID result))
                (set_step_result result endedAt) (step_run w)) as Hl.
  destruct (sql_update _ _ _) as [t n]; simpl in *. auto.
Qed.

(** A statement reads and writes the tables only. *)
Lemma apply_stmt_trace (q : Stmt) (w : World) (tr : list Event) :
  apply_stmt q {| step_run := step_run w; workflow_run := workflow_run w;
                  published := published w; clock := clock w; trace := tr |}
  = ((apply_stmt q w).1,
     {| step_run := step_run (apply_stmt q w).2;
        workflow_run := workflow_run (apply_stmt q w).2;
        published := published w; clock := clock w; trace := tr |}).
Proof.
  unfold apply_stmt. destruct q; cbn [step_run workflow_run published clock trace];
    match goal with |- context [sql_update ?c ?f ?t] => by destruct (sql_update c f t) end.
Qed.

Opaque apply_stmt sql_update.

(** What [CancelWorkflowRun] returns and leaves behind, by cases on
    whether the statement is executed and on the row it finds. *)
Lemma CancelWorkflowRun_cases (cp : ControlPlane) (ctx : Ctx) (runID : UUID) (w : World) :
  let q := UpdCancelRun runID in
  let res := CancelWorkflowRun cp ctx runID w in
  step_run res.2 = step_run w /\ clock res.2 = clock w /\
  match exec_error (cp_db cp) ctx q (clock w) with
  | Some e =>
      res.1 = Some (ErrWrap "failed to cancel workflow run: " e)
      /\ workflow_run res.2 = workflow_run w
      /\ published res.2 = published w
      /\ trace res.2 = trace w ++ [EvDB q (Some e)]
  | None =>
      match workflow_run w !! runID with
      | Some row =>
          if cancellable (wr_status row) then
            res.1 = None
            /\ workflow_run res.2 !! runID = Some (set_run_status RunStatusCanceled row)
            /\ match js_fault (cp_js cp) "agentflow.signals" (PSignal runID "cancel") with
               | Some e =>
                   published res.2 = published w
                   /\ trace res.2 = trace w ++
                        [EvDB q None;
                         EvPublish "agentflow.signals" (PSignal runID "cancel") (Some e);
                         EvLog "Failed to send cancellation signal: " e]
               | None =>
                   published res.2
                   = published w ++ [("agentflow.signals", PSignal runID "cancel")]
                   /\ trace res.2 = trace w ++
                        [EvDB q None;
                         EvPublish "agentflow.signals" (PSignal runID "cancel") None]
               end
          else
            res.1 = Some (ErrNew "workflow run not found or not in cancellable state")
            /\ workflow_run res.2 = workflow_run w
            /\ published res.2 = published w
            /\ trace res.2 = trace w ++ [EvDB q None]
      | None =>
          res.1 = Some (ErrNew "workflow run not found or not in cancellable state")
          /\ workflow_run res.2 = workflow_run w
          /\ published res.2 = published w
          /\ trace res.2 = trace w ++ [EvDB q None]
      end
  end.
Proof.
  cbv zeta. unfold CancelWorkflowRun, ExecContext, bind, now.
  destruct (exec_error _ _ _ _) as [e|] eqn:He; simpl; [done|].
  pose proof (apply_cancel runID w) as (Hn & Hl & Hs & Hp & Hc & Ht).
  pose proof (apply_cancel_noop runID w) as Hnoop.
  destruct (apply_stmt (UpdCancelRun runID) w) as [n w1]; simpl in *.
  destruct (workflow_run w !! runID) as [row|] eqn:Hrow.
  - destruct (cancellable (wr_status row)) eqn:Hcan; subst n; simpl.
    + unfold Publish.
      destruct (js_fault _ _ _) as [e|]; simpl;
        rewrite Hl, Hrow; simpl; rewrite N.eqb_refl, Hcan; simpl;
        rewrite Hs, Hc, Hp, Ht, <- ?app_assoc; simpl; auto 10.
    + rewrite Hs, Hc, Hp, Ht. repeat split; auto.
      apply Hnoop. intros ? [= <-]. done.
  - subst n; simpl. rewrite Hs, Hc, Hp, Ht. repeat split; auto.
    apply Hnoop. intros ? [=].
Qed.

Lemma cancellable_spec (s : RunStatus) :
  cancellable s = true <-> s = RunStatusQueued \/ s = RunStatusRunning.
Proof. destruct s; simpl; intuition congruence. Qed.

Lemma terminal_not_cancellable (s : RunStatus) :
  terminal_run s = true -> cancellable s = false.
Proof. by destruct s. Qed.

(** C7: [CancelWorkflowRun] returns an error whenever the run is not in
    [queued] or [running] (in particular when there is no such run), and it
    returns nil exactly when its conditional update moved a queued or
    running run to [canceled]. *)
Theorem CancelWorkflowRun_nil_iff_moved (cp : ControlPlane) (ctx : Ctx)
    (runID : UUID) (w : World) :
  let res := CancelWorkflowRun cp ctx runID w in
  (~ queued_or_running w runID -> res.1 <> None)
  /\ (res.1 = None <-> moved_to_canceled w res.2 runID).
Proof.
  cbv zeta.
  pose proof (CancelWorkflowRun_cases cp ctx runID w) as (_ & _ & H).
  cbv zeta in H. unfold queued_or_running, moved_to_canceled.
  destruct (exec_error _ _ _ _) as [e|].
  - destruct H as (-> & Ht & _). rewrite Ht. split; [done|].
    split; [done|]. intros (row & Hrow & Hst & Hrow'). exfalso.
    rewrite Hrow in Hrow'. injection Hrow' as Hrow'.
    apply (f_equal wr_status) in Hrow'. simpl in Hrow'.
    destruct Hst as [Hst|Hst]; congruence.
  - destruct (workflow_run w !! runID) as [row|] eqn:Hrow.
    + destruct (cancellable (wr_status row)) eqn:Hcan.
      * destruct H as (-> & Hrow' & _). apply cancellable_spec in Hcan.
        split; [intros Hn; exfalso; apply Hn; eauto|].
        split; [intros _; eauto|done].
      * destruct H as (-> & Ht & _). rewrite Ht. split; [done|].
        split; [done|]. intros (row' & Hr & Hst & _). exfalso.
        injection Hr as <-. apply cancellable_spec in Hst. congruence.
    + destruct H as (-> & Ht & _). split; [done|].
      split; [done|]. by intros (row' & Hr & _).
Qed.

(** C8, as the code has it: cancelling a run that is already in a terminal
    state changes nothing in the store and sends no signal, but the call
    reports an error; when the statement is executed, the error is
    "workflow run not found or not in cancellable state". *)
Theorem CancelWorkflowRun_terminal_is_error (cp : ControlPlane) (ctx : Ctx)
    (runID : UUID) (w : World) (row : WorkflowRun) :
  workflow_run w !! runID = Some row ->
  terminal_run (wr_status row) = true ->
  let res := CancelWorkflowRun cp ctx runID w in
  res.1 <> None
  /\ (exec_error (cp_db cp) ctx (UpdCancelRun runID) (clock w) = None ->
      res.1 = Some (ErrNew "workflow run not found or not in cancellable state"))
  /\ workflow_run res.2 = workflow_run w
  /\ step_run res.2 = step_run w
  /\ published res.2 = published w.
Proof.
  intros Hrow Hterm. cbv zeta.
  pose proof (CancelWorkflowRun_cases cp ctx runID w) as (Hs & _ & H).
  cbv zeta in H. rewrite Hrow, (terminal_not_cancellable _ Hterm) in H.
  destruct (exec_error _ _ _ _) as [e|];
    destruct H as (-> & Ht & Hp & _); repeat split; auto; discriminate.
Qed.

Lemma CancelWorkflowRun_terminal_is_error_witness :
  let cp := {| cp_db := Sample.healthy_db; cp_js := Sample.healthy_js |} in
  let w := Sample.world StepStatusSucceeded RunStatusSucceeded in
  let res := CancelWorkflowRun cp Background 1%N w in
  res.1 <> None
  /\ (exec_error (cp_db cp) Background (UpdCancelRun 1%N) (clock w) = None ->
      res.1 = Some (ErrNew "workflow run not found or not in cancellable state"))
  /\ workflow_run res.2 = workflow_run w
  /\ step_run res.2 = step_run w
  /\ published res.2 = published w.
Proof.
  exact (CancelWorkflowRun_terminal_is_error
           {| cp_db := Sample.healthy_db; cp_js := Sample.healthy_js |}
           Background 1%N (Sample.world StepStatusSucceeded RunStatusSucceeded)
           (Sample.wfrun RunStatusSucceeded) eq_refl eq_refl).
Defined.

(** C8 as stated fails: cancelling run 1, which has already succeeded,
    reports an error. *)
Lemma CancelWorkflowRun_terminal_counterexample :
  (CancelWorkflowRun {| cp_db := Sample.healthy_db; cp_js := Sample.healthy_js |}
     Background 1%N (Sample.world StepStatusSucceeded RunStatusSucceeded)).1
  = Some (ErrNew "workflow run not found or not in cancellable state").
Proof. vm_compute. reflexivity. Qed.

(** C10: when the update has cancelled the run and the publish of the
    cancel signal fails, [CancelWorkflowRun] still returns nil: the run is
    [canceled] in the store, nothing was accepted on any subject, and the
    failure only shows as a log line. *)
Theorem CancelWorkflowRun_signal_failure_is_swallowed (cp : ControlPlane)
    (ctx : Ctx) (runID : UUID) (w : World) (row : WorkflowRun) (e : error) :
  workflow_run w !! runID = Some row ->
  wr_status row = RunStatusQueued \/ wr_status row = RunStatusRunning ->
  exec_error (cp_db cp) ctx (UpdCancelRun runID) (clock w) = None ->
  js_fault (cp_js cp) "agentflow.signals" (PSignal runID "cancel") = Some e ->
  let res := CancelWorkflowRun cp ctx runID w in
  res.1 = None
  /\ wr_status <$> (workflow_run res.2 !! runID) = Some RunStatusCanceled
  /\ published res.2 = published w
  /\ trace res.2 = trace w ++
       [EvDB (UpdCancelRun runID) None;
        EvPublish "agentflow.signals" (PSignal runID "cancel") (Some e);
        EvLog "Failed to send cancellation signal: " e].
Proof.
  intros Hrow Hst Hexec Hjs. cbv zeta.
  pose proof (CancelWorkflowRun_cases cp ctx runID w) as (_ & _ & H).
  cbv zeta in H. apply cancellable_spec in Hst.
  rewrite Hexec, Hrow, Hst, Hjs in H.
  destruct H as (-> & -> & -> & ->). auto.
Qed.

Lemma CancelWorkflowRun_signal_failure_is_swallowed_witness :
  let cp := {| cp_db := Sample.healthy_db; cp_js := Sample.broken_js |} in
  let w := Sample.world StepStatusRunning RunStatusRunning in
  let res := CancelWorkflowRun cp Background 1%N w in
  res.1 = None
  /\ wr_status <$> (workflow_run res.2 !! 1%N) = Some RunStatusCanceled
  /\ published res.2 = published w
  /\ trace res.2 = trace w ++
       [EvDB (UpdCancelRun 1%N) None;
        EvPublish "agentflow.signals" (PSignal 1%N "cancel")
          (Some (ErrNew "nats: timeout"));
        EvLog "Failed to send cancellation signal: " (ErrNew "nats: timeout")].
Proof.
  exact (CancelWorkflowRun_signal_failure_is_swallowed
           {| cp_db := Sample.healthy_db; cp_js := Sample.broken_js |}
           Background 1%N (Sample.world StepStatusRunning RunStatusRunning)
           (Sample.wfrun RunStatusRunning) (ErrNew "nats: timeout")
           eq_refl (or_intror eq_refl) eq_refl eq_refl).
Defined.

(** ** Machine arithmetic in the range the retry loop uses *)

Lemma wrap64_id (z : Z) : - 2 ^ 63 <= z < 2 ^ 63 -> Go.wrap64 z = z.
Proof. intros H. unfold Go.wrap64. rewrite Z.mod_small; lia. Qed.

(** Up to iteration 3025 the back-off is computed without overflow. *)
Lemma backoff_exact (a : Z) :
  1 <= a <= 3025 ->
  Go.mul (Go.mul a a) Go.Second = a * a * Go.Second /\ 0 < a * a * Go.Second.
Proof.
  intros H. unfold Go.mul, Go.Second.
  assert (1 <= a * a <= 3025 * 3025) by nia.
  rewrite (wrap64_id (a * a)) by lia.
  rewrite wrap64_id by lia. lia.
Qed.

Lemma incr_exact (a : Z) : 1 <= a <= 3025 -> Go.incr a = a + 1.
Proof. intros H. unfold Go.incr. apply wrap64_id. lia. Qed.

(** ** Steps of the worker that leave the store alone *)

Lemma same_store_refl (w : World) : same_store w w.
Proof. by repeat split. Qed.

Lemma same_store_trans (w1 w2 w3 : World) :
  same_store w1 w2 -> same_store w2 w3 -> same_store w1 w3.
Proof. unfold same_store. intros (-> & -> & ->) (-> & -> & ->). auto. Qed.

Lemma Execute_spec (executor : Executor) (ctx : Ctx) (task : Task) (a : Z) (w : World) :
  let reply := executor ctx task a (clock w) in
  let res := Execute executor ctx task a w in
  res.1 = er_out reply /\ same_store w res.2
  /\ clock res.2 = clock w + Z.of_N (er_elapsed reply)
  /\ trace res.2 = trace w ++ [EvExecute a].
Proof. cbv zeta. unfold Execute, bind, now, same_store. simpl. auto. Qed.

Lemma select_spec (rt : Runtime) (D a backoff : Z) (w : World) :
  0 < backoff ->
  let res := select_done_or_after rt (deadline_ctx D) a backoff w in
  same_store w res.2 /\
  ((res.1 = CtxDone /\ trace res.2 = trace w ++ [EvCtxDone]
    /\ clock res.2 = Z.max (clock w) D /\ D <= clock w + backoff)
   \/ (res.1 = TimerFired /\ trace res.2 = trace w ++ [EvSleep backoff]
       /\ clock res.2 = clock w + backoff /\ clock w + backoff <= D)).
Proof.
  intros Hb. cbv zeta.
  unfold select_done_or_after, bind, now, ctx_done_at, deadline_ctx; simpl.
  rewrite (Z.max_r 0 backoff) by lia.
  unfold fire_done, fire_timer, bind, same_store.
  destruct (Z.ltb_spec (Z.max (clock w) D) (clock w + backoff)); simpl.
  { split; [auto|]. left. repeat split; auto; lia. }
  destruct (Z.ltb_spec (clock w + backoff) (Z.max (clock w) D)); simpl.
  { split; [auto|]. right. repeat split; auto; lia. }
  destruct (select_tie rt a); simpl.
  { split; [auto|]. right. repeat split; auto; lia. }
  split; [auto|]. left. repeat split; auto; lia.
Qed.

(** ** The retry loop *)

Lemma rounds_cons (n : nat) (a : Z) :
  (0 < n)%nat ->
  rounds (S n) a = EvExecute a :: EvSleep (a * a * Go.Second) :: rounds n (a + 1).
Proof. destruct n; [lia|reflexivity]. Qed.

Section RetryLoop.

Variables (rt : Runtime) (executor : Executor) (task : Task) (maxRetries : Z).

(** The context was made at clock reading [c0] with deadline [D], by
    [context.WithTimeout]: the timeout is a [Duration]. *)
Variables (c0 D : Z).
Hypothesis timeout_is_a_Duration : D - c0 <= Go.maxDuration.

Lemma entry_ok_bound (a : Z) (w : World) : 1 <= a -> entry_ok c0 D a w -> a <= 3025.
Proof using timeout_is_a_Duration.
  intros Ha [Hcube Hd]. destruct Hd as [->|Hd]; [lia|].
  destruct (Z_le_gt_dec a 3025) as [|Hbig]; [done|exfalso].
  assert (3025 * 3025 * 3025 <= (a - 1) * (a - 1) * (a - 1)) by nia.
  unfold Go.maxDuration, Go.Second in *. lia.
Qed.

Lemma entry_ok_next (a : Z) (w w' : World) :
  1 <= a -> entry_ok c0 D a w ->
  clock w + a * a * Go.Second <= clock w' -> clock w' <= D ->
  entry_ok c0 D (a + 1) w'.
Proof.
  intros Ha [Hcube _] Hc Hd. split; [|by right].
  unfold Go.Second in *. nia.
Qed.

Lemma retry_loop_spec (fuel : nat) :
  forall (a : Z) (lastErr : option error) (w : World),
    1 <= a <= 3026 ->
    (a <= maxRetries -> entry_ok c0 D a w) ->
    3026 < a + Z.of_nat fuel ->
    exists out w' n tail,
      retry_loop fuel rt executor (deadline_ctx D) task maxRetries a lastErr w
      = (Some out, w')
      /\ same_store w w' /\ clock w <= clock w'
      /\ trace w' = trace w ++ rounds n a ++ tail
      /\ a + Z.of_nat n - 1 <= Z.max maxRetries (a - 1)
      /\ loop_verdict executor (deadline_ctx D) task maxRetries a n lastErr tail out.
Proof using timeout_is_a_Duration.
  induction fuel as [|fuel IH]; intros a lastErr w Ha Hentry Hfuel; [lia|].
  simpl. destruct (Z.leb_spec a maxRetries) as [Hle|Hgt].
  2:{ exists (inr (failed_after maxRetries lastErr)), w, 0%nat, [].
      split; [reflexivity|]. split; [apply same_store_refl|].
      split; [lia|]. split; [by rewrite app_nil_r|]. split; [lia|].
      right; left. split; [done|]. split; [lia|]. eauto. }
  specialize (Hentry Hle).
  pose proof (entry_ok_bound a w (proj1 Ha) Hentry) as Hsmall.
  unfold bind at 1.
  pose proof (Execute_spec executor (deadline_ctx D) task a w) as (Hout & Hs1 & Hc1 & Ht1).
  destruct (Execute executor (deadline_ctx D) task a w) as [r w1]; simpl in *.
  subst r. destruct (er_out _) as [result|err] eqn:Hreply.
  { exists (inl result), w1, 1%nat, [].
    split; [reflexivity|]. split; [done|]. split; [lia|].
    split; [by rewrite Ht1|]. split; [lia|].
    left. split; [done|]. split; [lia|].
    exists (clock w), result. split; [|done].
    by replace (a + Z.of_nat 1 - 1) with a by lia. }
  rewrite (incr_exact a) by lia.
  destruct (Z.ltb_spec a maxRetries) as [Hlt|Hge].
  - destruct (backoff_exact a) as [Hb Hpos]; [lia|]. rewrite Hb.
    unfold bind at 1.
    pose proof (select_spec rt D a (a * a * Go.Second) w1 Hpos) as (Hs2 & Hsel).
    destruct (select_done_or_after _ _ _ _ w1) as [which w2]; simpl in *.
    destruct Hsel as [(-> & Ht2 & Hc2 & _)|(-> & Ht2 & Hc2 & Hd2)].
    + exists (inr (done_reason (deadline_ctx D))), w2, 1%nat, [EvCtxDone].
      split; [reflexivity|]. split; [by eapply same_store_trans|].
      split; [lia|]. split; [by rewrite Ht2, Ht1, <- app_assoc|].
      split; [lia|]. right; right. repeat split; auto; lia.
    + destruct (IH (a + 1) (Some err) w2) as (out & w' & n & tail & Hrun & Hs & Hc & Ht & Hn & Hv).
      * lia.
      * intros _. apply (entry_ok_next a w); auto; lia.
      * lia.
      * assert (0 < n)%nat as Hnpos.
        { destruct Hv as [(_ & ? & _)|[(_ & ? & _)|(_ & ? & _)]]; lia. }
        exists out, w', (S n), tail.
        split; [exact Hrun|]. split.
        { eapply same_store_trans; [|exact Hs]. by eapply same_store_trans. }
        split; [lia|]. split.
        { rewrite Ht, Ht2, Ht1, rounds_cons by done.
          rewrite <- !app_assoc. reflexivity. }
        split; [lia|].
        destruct Hv as [(-> & _ & c & result & Hr & ->)
                       |[(-> & Hcount & lastErr' & -> & Hlast)
                        |(-> & _ & Hbefore & ->)]].
        -- left. split; [done|]. split; [lia|]. exists c, result.
           split; [|done].
           by replace (a + Z.of_nat (S n) - 1) with (a + 1 + Z.of_nat n - 1) by lia.
        -- right; left. split; [done|]. split; [lia|].
           exists lastErr'. split; [done|]. right. split; [lia|].
           destruct Hlast as [[? _]|[_ Hlast]]; [lia|exact Hlast].
        -- right; right. repeat split; auto; lia.
  - assert (a = maxRetries) as Heq by lia.
    destruct (IH (a + 1) (Some err) w1) as (out & w' & n & tail & Hrun & Hs & Hc & Ht & Hn & Hv).
    + lia.
    + intros ?. lia.
    + lia.
    + assert (n = 0%nat) as -> by lia.
      destruct Hv as [(_ & ? & _)|[(-> & _ & lastErr' & -> & Hlast)|(_ & ? & _)]]; try lia.
      destruct Hlast as [[_ ->]|[? _]]; [|lia].
      exists (inr (failed_after maxRetries (Some err))), w', 1%nat, [].
      split; [exact Hrun|]. split; [by eapply same_store_trans|].
      split; [lia|]. split; [by rewrite Ht, Ht1, <- app_assoc|].
      split; [lia|]. right; left. split; [done|]. split; [lia|].
      exists (Some err). split; [done|]. right. split; [lia|].
      exists (clock w), err. split; [|done]. by rewrite <- Heq.
Qed.

End RetryLoop.

(** ** [executeTask] and [handleTask] *)

Lemma Sub_le_maxDuration (t u : Z) : Go.Sub t u <= Go.maxDuration.
Proof. unfold Go.Sub, Go.maxDuration, Go.minDuration. lia. Qed.

Lemma Sub_exact (t u : Z) :
  Go.minDuration <= t - u <= Go.maxDuration -> Go.Sub t u = t - u.
Proof. unfold Go.Sub. lia. Qed.

Lemma task_context_spec (task : Task) (w : World) :
  task_context task w = (deadline_ctx (task_deadline task (clock w)), w).
Proof. reflexivity. Qed.

Lemma executeTask_no_executor (fuel : nat) (w : Worker) (ctx : Ctx) (task : Task)
    (wd : World) :
  executors w !! node_Type (task_Node task) = None ->
  executeTask fuel w ctx task wd
  = (Some (inr (no_executor (node_Type (task_Node task)))), wd).
Proof. intros H. unfold executeTask. by rewrite H. Qed.

Lemma executeTask_spec (fuel : nat) (w : Worker) (task : Task) (executor : Executor)
    (D : Z) (wd : World) :
  executors w !! node_Type (task_Node task) = Some executor ->
  D - clock wd <= Go.maxDuration ->
  (3026 <= fuel)%nat ->
  exists out wd' n tail,
    executeTask fuel w (deadline_ctx D) task wd = (Some out, wd')
    /\ same_store wd wd' /\ clock wd <= clock wd'
    /\ trace wd' = trace wd ++ rounds n 1 ++ tail
    /\ Z.of_nat n <= Z.max 0 (effective_retries task)
    /\ loop_verdict executor (deadline_ctx D) task (effective_retries task)
         1 n None tail out.
Proof.
  intros Hex HD Hfuel. unfold executeTask. rewrite Hex.
  destruct (retry_loop_spec (w_rt w) executor task (effective_retries task)
              (clock wd) D HD fuel 1 None wd)
    as (out & wd' & n & tail & Hrun & Hs & Hc & Ht & Hn & Hv).
  - lia.
  - intros _. split; [unfold Go.Second; lia|by left].
  - lia.
  - exists out, wd', n, tail. repeat split; auto; try apply Hs. lia.
Qed.

Lemma after_stmt_frame (q : Stmt) (w : World) :
  published (after_stmt q w) = published w
  /\ clock (after_stmt q w) = clock w
  /\ trace (after_stmt q w) = trace w ++ [EvDB q None].
Proof.
  unfold after_stmt. destruct (apply_stmt_frame q w) as (Hp & Hc & Ht).
  simpl. by rewrite Hp, Hc, Ht.
Qed.

Lemma updateStepStatus_eq (w : Worker) (ctx : Ctx) (stepID : UUID)
    (status : StepStatus) (workerID : string) (wd : World) :
  let startedAt := if StepStatus_eqb status StepStatusRunning
                   then Some (clock wd) else None in
  let q := UpdStepStatus status workerID startedAt stepID in
  updateStepStatus w ctx stepID status workerID wd
  = match exec_error (w_db w) ctx q (clock wd) with
    | Some e => (Some e, (emit (EvDB q (Some e)) wd).2)
    | None => (None, after_stmt q wd)
    end.
Proof.
  cbv zeta. unfold updateStepStatus, ExecContext, after_stmt, bind, now.
  destruct (StepStatus_eqb status StepStatusRunning); simpl;
    destruct (exec_error _ _ _ _); simpl; try reflexivity;
    by destruct (apply_stmt _ wd).
Qed.

Lemma updateStepWithResult_eq (w : Worker) (ctx : Ctx) (result : TaskResult)
    (wd : World) :
  let q := UpdStepResult result (clock wd) in
  updateStepWithResult w ctx result wd
  = match exec_error (w_db w) ctx q (clock wd) with
    | Some e => (Some e, (emit (EvDB q (Some e)) wd).2)
    | None => (None, after_stmt q wd)
    end.
Proof.
  cbv zeta. unfold updateStepWithResult, ExecContext, after_stmt, bind, now. simpl.
  destruct (exec_error _ _ _ _); simpl; try reflexivity;
    by destruct (apply_stmt _ wd).
Qed.

Lemma publishResult_eq (w : Worker) (ctx : Ctx) (result : TaskResult) (wd : World) :
  let p := PResult result in
  publishResult w ctx result wd
  = match marshal_fault (w_rt w) result with
    | Some e => (Some (ErrWrap "failed to marshal result: " e), wd)
    | None =>
        match js_fault (w_js w) "agentflow.results" p with
        | Some e => (Some e, (emit (EvPublish "agentflow.results" p (Some e)) wd).2)
        | None =>
            (None, (emit (EvPublish "agentflow.results" p None)
                      (accept "agentflow.results" p wd).2).2)
        end
    end.
Proof.
  cbv zeta. unfold publishResult, Publish, bind.
  destruct (marshal_fault _ _); [reflexivity|].
  by destruct (js_fault _ _ _).
Qed.

(** [handleTask] on a message that does not decode. *)
Lemma handleTask_malformed (fuel : nat) (w : Worker) (err : error) (wd : World) :
  let res := handleTask fuel w {| Data := inr err |} wd in
  res.1 = Some tt /\ same_store wd res.2
  /\ trace res.2 = trace wd ++ [EvLog "Failed to unmarshal task: " err; EvNak].
Proof.
  cbv zeta. unfold handleTask, same_store; simpl.
  by rewrite <- app_assoc.
Qed.

(** [handleTask] on a task, phase by phase: the claim of the step, the
    execution, the write of the result, the publish, and the
    acknowledgement. *)
Lemma handleTask_spec (fuel : nat) (w : Worker) (task : Task) (wd : World) :
  let c := clock wd in
  let ctx := deadline_ctx (task_deadline task c) in
  let q1 := running_stmt w task c in
  let res := handleTask fuel w {| Data := inl task |} wd in
  match exec_error (w_db w) ctx q1 c with
  | Some e =>
      res.1 = Some tt /\ same_store wd res.2
      /\ trace res.2 = trace wd ++
           [EvDB q1 (Some e);
            EvLog "Failed to update step status to running: " e; EvNak]
  | None =>
      match executeTask fuel w ctx task (after_stmt q1 wd) with
      | (None, _) => res.1 = None
      | (Some r, w2) =>
          let result := result_of task r in
          let q2 := UpdStepResult result (clock w2) in
          res.1 = Some tt /\
          match exec_error (w_db w) ctx q2 (clock w2) with
          | Some e =>
              same_store w2 res.2
              /\ trace res.2 = trace w2 ++ log_of r ++
                   [EvDB q2 (Some e);
                    EvLog "Failed to update step with result: " e; EvNak]
          | None =>
              step_run res.2 = step_run (apply_stmt q2 w2).2
              /\ workflow_run res.2 = workflow_run (apply_stmt q2 w2).2
              /\ match marshal_fault (w_rt w) result with
                 | Some e =>
                     published res.2 = published w2
                     /\ trace res.2 = trace w2 ++ log_of r ++
                          [EvDB q2 None;
                           EvLog "Failed to publish result: "
                             (ErrWrap "failed to marshal result: " e);
                           EvNak]
                 | None =>
                     match js_fault (w_js w) "agentflow.results" (PResult result) with
                     | Some e =>
                         published res.2 = published w2
                         /\ trace res.2 = trace w2 ++ log_of r ++
                              [EvDB q2 None;
                               EvPublish "agentflow.results" (PResult result) (Some e);
                               EvLog "Failed to publish result: " e; EvNak]
                     | None =>
                         published res.2
                         = published w2 ++ [("agentflow.results", PResult result)]
                         /\ trace res.2 = trace w2 ++ log_of r ++
                              [EvDB q2 None;
                               EvPublish "agentflow.results" (PResult result) None;
                               EvAck]
                     end
                 end
          end
      end
  end.
Proof.
  cbv zeta.
  remember (handleTask fuel w {| Data := inl task |} wd) as res eqn:Hres.
  unfold handleTask in Hres. cbn [Data] in Hres. unfold bind at 1 in Hres.
  rewrite task_context_spec in Hres. unfold bind at 1 in Hres.
  rewrite updateStepStatus_eq in Hres. cbn [StepStatus_eqb] in Hres.
  unfold running_stmt.
  destruct (exec_error _ _ _ (clock wd)) as [e|] eqn:He1.
  { subst res. unfold same_store; simpl. by rewrite <- !app_assoc. }
  unfold bind at 1 in Hres.
  destruct (executeTask _ _ _ _ _) as [[r|] w2]; [|by subst res].
  unfold bind at 1 in Hres.
  assert ((match r with
           | inl result => ret result
           | inr err => run Printf "Failed to execute task: " err;
                        ret (failed_result task err)
           end) w2
          = (result_of task r,
             {| step_run := step_run w2; workflow_run := workflow_run w2;
                published := published w2; clock := clock w2;
                trace := trace w2 ++ log_of r |})) as Hlog.
  { destruct r; simpl; [|reflexivity]. rewrite app_nil_r. by destruct w2. }
  rewrite Hlog in Hres. clear Hlog.
  set (wl := {| step_run := step_run w2; trace := trace w2 ++ log_of r |}) in Hres.
  unfold bind at 1 in Hres. rewrite updateStepWithResult_eq in Hres.
  change (clock wl) with (clock w2) in Hres.
  destruct (exec_error _ _ _ (clock w2)) as [e|] eqn:He2.
  { subst res. unfold same_store; simpl. by rewrite <- !app_assoc. }
  unfold bind at 1 in Hres. rewrite publishResult_eq in Hres.
  unfold after_stmt in Hres.
  pose proof (apply_stmt_trace (UpdStepResult (result_of task r) (clock w2)) w2
                (trace w2 ++ log_of r)) as Happ.
  fold wl in Happ.
  rewrite Happ in Hres. clear Happ.
  destruct (marshal_fault _ _) as [e|].
  { subst res; simpl. by rewrite <- !app_assoc. }
  destruct (js_fault _ _ _) as [e|]; subst res; simpl; by rewrite <- !app_assoc.
Qed.

(** ** What the trace of a delivery looks like *)

Lemma rounds_quiet (n : nat) : forall a, Forall quiet (rounds n a).
Proof.
  induction n as [|n IH]; intros a; [constructor|].
  destruct n as [|n]; [by repeat constructor|].
  change (rounds (S (S n)) a)
    with (EvExecute a :: EvSleep (a * a * Go.Second) :: rounds (S n) (a + 1)).
  repeat constructor; auto.
Qed.

Lemma log_of_quiet (r : TaskResult + error) : Forall quiet (log_of r).
Proof. destruct r; by repeat constructor. Qed.

(** Within the deadline of a delivery, [executeTask] returns, and all it
    does is call the executor and sleep. *)
Lemma executeTask_quiet (fuel : nat) (w : Worker) (task : Task) (D : Z) (wd : World) :
  D - clock wd <= Go.maxDuration ->
  (3026 <= fuel)%nat ->
  exists out wd' loop,
    executeTask fuel w (deadline_ctx D) task wd = (Some out, wd')
    /\ same_store wd wd' /\ clock wd <= clock wd'
    /\ trace wd' = trace wd ++ loop /\ Forall quiet loop.
Proof.
  intros HD Hfuel.
  destruct (executors w !! node_Type (task_Node task)) as [executor|] eqn:Hex.
  - destruct (executeTask_spec fuel w task executor D wd Hex HD Hfuel)
      as (out & wd' & n & tail & Hrun & Hs & Hc & Ht & _ & Hv).
    exists out, wd', (rounds n 1 ++ tail). repeat split; auto; try apply Hs.
    apply Forall_app. split; [apply rounds_quiet|].
    destruct Hv as [(-> & _)|[(-> & _)|(-> & _)]]; by repeat constructor.
  - exists (inr (no_executor (node_Type (task_Node task)))), wd, [].
    rewrite executeTask_no_executor by done.
    repeat split; auto; [lia|by rewrite app_nil_r].
Qed.

Lemma quiet_not_settled (l : list Event) :
  Forall quiet l ->
  ~ In EvAck l /\ ~ In EvNak l
  /\ (forall q e, ~ In (EvDB q e) l) /\ (forall s p e, ~ In (EvPublish s p e) l).
Proof.
  intros H. rewrite Forall_forall in H.
  repeat split; repeat intro; match goal with Hin : In _ l |- _ =>
    apply list_elem_of_In, H in Hin; exact Hin end.
Qed.

(** The trace and the store after a delivery, in terms of the store
    before it.  [r] is what [executeTask] returned, [c2] the clock reading
    at its return and [mid] what it did and logged. *)
Lemma handleTask_trace (fuel : nat) (w : Worker) (task : Task) (wd : World) :
  (3026 <= fuel)%nat ->
  let c := clock wd in
  let ctx := deadline_ctx (task_deadline task c) in
  let q1 := running_stmt w task c in
  let res := handleTask fuel w {| Data := inl task |} wd in
  res.1 = Some tt /\
  match exec_error (w_db w) ctx q1 c with
  | Some e =>
      same_store wd res.2
      /\ trace res.2 = trace wd ++
           [EvDB q1 (Some e);
            EvLog "Failed to update step status to running: " e; EvNak]
  | None =>
      exists r c2 mid,
        Forall quiet mid /\ c <= c2
        /\ (executors w !! node_Type (task_Node task) = None ->
            r = inr (no_executor (node_Type (task_Node task)))
            /\ c2 = c
            /\ mid = [EvLog "Failed to execute task: "
                        (no_executor (node_Type (task_Node task)))])
        /\ (is_Some (executors w !! node_Type (task_Node task)) ->
            exists n tail, mid = rounds n 1 ++ tail ++ log_of r)
        /\ let result := result_of task r in
           let q2 := UpdStepResult result c2 in
           match exec_error (w_db w) ctx q2 c2 with
           | Some e =>
               (forall k, step_run res.2 !! k
                          = claim_row w task c k <$> (step_run wd !! k))
               /\ published res.2 = published wd
               /\ trace res.2 = trace wd ++ EvDB q1 None :: mid ++
                    [EvDB q2 (Some e);
                     EvLog "Failed to update step with result: " e; EvNak]
           | None =>
               (forall k, step_run res.2 !! k
                          = (fun row => write_row result c2 k (claim_row w task c k row))
                            <$> (step_run wd !! k))
               /\ match marshal_fault (w_rt w) result with
                  | Some e =>
                      published res.2 = published wd
                      /\ trace res.2 = trace wd ++ EvDB q1 None :: mid ++
                           [EvDB q2 None;
                            EvLog "Failed to publish result: "
                              (ErrWrap "failed to marshal result: " e);
                            EvNak]
                  | None =>
                      match js_fault (w_js w) "agentflow.results" (PResult result) with
                      | Some e =>
                          published res.2 = published wd
                          /\ trace res.2 = trace wd ++ EvDB q1 None :: mid ++
                               [EvDB q2 None;
                                EvPublish "agentflow.results" (PResult result) (Some e);
                                EvLog "Failed to publish result: " e; EvNak]
                      | None =>
                          published res.2
                          = published wd ++ [("agentflow.results", PResult result)]
                          /\ trace res.2 = trace wd ++ EvDB q1 None :: mid ++
                               [EvDB q2 None;
                                EvPublish "agentflow.results" (PResult result) None;
                                EvAck]
                      end
                  end
           end
  end.
Proof.
  intros Hfuel. cbv zeta.
  pose proof (handleTask_spec fuel w task wd) as H. cbv zeta in H.
  destruct (exec_error _ _ _ (clock wd)) as [e|]; [exact H|].
  set (q1 := running_stmt w task (clock wd)) in *.
  destruct (after_stmt_frame q1 wd) as (Hp1 & Hc1 & Ht1).
  destruct (apply_step_status StepStatusRunning (w_id w) (Some (clock wd))
              (task_ID task) wd) as (Hl1 & _).
  fold (running_stmt w task (clock wd)) in Hl1. fold q1 in Hl1.
  destruct (executeTask_quiet fuel w task (task_deadline task (clock wd))
              (after_stmt q1 wd)) as (r & w2 & loop & Hrun & Hs & Hc & Ht & Hq).
  { rewrite Hc1. unfold task_deadline.
    pose proof (Sub_le_maxDuration (DeadlineAt task) (clock wd)). lia. }
  { done. }
  pose proof (executeTask_no_executor fuel w
                (deadline_ctx (task_deadline task (clock wd))) task
                (after_stmt q1 wd)) as Hnone.
  pose proof (fun ex Hex => executeTask_spec fuel w task ex
                (task_deadline task (clock wd)) (after_stmt q1 wd) Hex) as Hsome.
  rewrite Hrun in H, Hnone. destruct H as (Hres & H). split; [exact Hres|].
  destruct Hs as (Hs_step & Hs_wf & Hs_pub).
  assert (forall k, step_run w2 !! k = claim_row w task (clock wd) k <$> (step_run wd !! k))
    as Hclaim.
  { intros k. rewrite Hs_step. unfold after_stmt; simpl. apply Hl1. }
  exists r, (clock w2), (loop ++ log_of r).
  split; [apply Forall_app; split; [done|apply log_of_quiet]|].
  split; [lia|]. split.
  { intros Hex. specialize (Hnone Hex). injection Hnone as Hr Hw2.
    split; [done|]. rewrite Hw2 in Ht |- *. split; [done|].
    rewrite <- (app_nil_r (trace (after_stmt q1 wd))) in Ht at 1.
    apply app_inv_head in Ht. by subst loop r. }
  split.
  { intros [ex Hex].
    destruct (Hsome ex Hex) as (out & wd' & n & tail & Hrun' & _ & _ & Ht' & _).
    - rewrite Hc1. unfold task_deadline.
      pose proof (Sub_le_maxDuration (DeadlineAt task) (clock wd)). lia.
    - done.
    - rewrite Hrun in Hrun'. injection Hrun' as <- <-.
      rewrite Ht in Ht'. apply app_inv_head in Ht'. subst loop.
      exists n, tail. by rewrite <- app_assoc. }
  destruct (apply_step_result (result_of task r) (clock w2) w2) as (Hl2 & _).
  assert (trace w2 ++ log_of r = trace wd ++ EvDB q1 None :: (loop ++ log_of r)) as Htr.
  { rewrite Ht, Ht1, <- !app_assoc. reflexivity. }
  destruct (exec_error _ _ _ (clock w2)) as [e|].
  { destruct H as ((Hst & _ & Hpub) & Htrace). split; [|split].
    - intros k. by rewrite Hst.
    - by rewrite Hpub, Hs_pub.
    - rewrite Htrace, app_assoc, Htr, <- app_assoc. reflexivity. }
  destruct H as (Hst & _ & H). split.
  { intros k. rewrite Hst, Hl2, Hclaim.
    destruct (step_run wd !! k); reflexivity. }
  destruct (marshal_fault _ _) as [e|]; [|destruct (js_fault _ _ _) as [e|]];
    destruct H as (Hpub & Htrace); (split; [by rewrite Hpub, Hs_pub|]);
    rewrite Htrace, app_assoc, Htr, <- app_assoc; reflexivity.
Qed.

(** ** Acknowledgement *)

Lemma last_of_trace (x : Event) (mid pre : list Event) (z : Event) :
  last (x :: mid ++ pre ++ [z]) = Some z.
Proof.
  change (x :: mid ++ pre ++ [z]) with ([x] ++ mid ++ pre ++ [z]).
  rewrite !app_assoc. apply last_snoc.
Qed.

Ltac in_trace H :=
  simpl in H; rewrite ?in_app_iff in H; simpl in H.

(** Closes a goal whose hypotheses place an event where it cannot be. *)
Ltac settle :=
  repeat match goal with
         | H : _ \/ _ |- _ => destruct H
         | H : False |- _ => destruct H
         | H : @eq Event _ _ |- _ => discriminate H
         | H : In ?x ?l, Hn : ~ In ?x ?l |- _ => destruct (Hn H)
         | H : In (EvDB _ _) ?l, Hn : forall q e, ~ In (EvDB q e) ?l |- _ =>
             destruct (Hn _ _ H)
         | H : In (EvPublish _ _ _) ?l,
           Hn : forall s p e, ~ In (EvPublish s p e) ?l |- _ =>
             destruct (Hn _ _ _ H)
         end.

(** C1: every delivery ends with Ack or with Nak.  An Ack comes only
    immediately after the statement that writes the result has been
    executed and the result has been accepted on "agentflow.results" (the
    row then has the result's status, and there is no Nak and no earlier
    Ack); if a statement fails or the publish fails, the delivery ends with
    Nak and has no Ack. *)
Theorem handleTask_ack_only_after_write_and_publish (fuel : nat) (w : Worker)
    (msg : Msg) (wd : World) :
  (3026 <= fuel)%nat ->
  let res := handleTask fuel w msg wd in
  exists new,
    res.1 = Some tt /\ trace res.2 = trace wd ++ new
    /\ (last new = Some EvAck \/ last new = Some EvNak)
    /\ (In EvAck new ->
        exists pre result c,
          new = pre ++ [EvDB (UpdStepResult result c) None;
                        EvPublish "agentflow.results" (PResult result) None;
                        EvAck]
          /\ published res.2 = published wd ++ [("agentflow.results", PResult result)]
          /\ sr_status <$> (step_run res.2 !! TaskID result)
             = (fun _ => Status result) <$> (step_run wd !! TaskID result)
          /\ ~ In EvAck pre /\ ~ In EvNak new)
    /\ ((exists q e, In (EvDB q (Some e)) new)
        \/ (exists s p e, In (EvPublish s p (Some e)) new) ->
        last new = Some EvNak /\ ~ In EvAck new).
Proof.
  intros Hfuel. cbv zeta. destruct msg as [[task|err]].
  2:{ destruct (handleTask_malformed fuel w err wd) as (Hres & _ & Ht).
      eexists. split; [exact Hres|]. split; [exact Ht|].
      split; [by right|]. split.
      - intros Hin. in_trace Hin. settle.
      - intros _. split; [done|]. intros Hin. in_trace Hin. settle. }
  pose proof (handleTask_trace fuel w task wd Hfuel) as (Hres & H). cbv zeta in H.
  destruct (exec_error _ _ _ (clock wd)) as [e1|].
  { destruct H as (_ & Ht). eexists. split; [exact Hres|]. split; [exact Ht|].
    split; [by right|]. split.
    - intros Hin. in_trace Hin. settle.
    - intros _. split; [done|]. intros Hin. in_trace Hin. settle. }
  destruct H as (r & c2 & mid & Hq & _ & _ & _ & H).
  destruct (quiet_not_settled mid Hq) as (HnA & HnN & HnDB & HnPub).
  destruct (exec_error _ _ _ c2) as [e2|].
  { destruct H as (_ & _ & Ht). eexists. split; [exact Hres|]. split; [exact Ht|].
    split; [right; apply (last_of_trace _ mid [_; _])|]. split.
    - intros Hin. in_trace Hin. settle.
    - intros _. split; [apply (last_of_trace _ mid [_; _])|].
      intros Hin. in_trace Hin. settle. }
  destruct H as (Hrow & H).
  destruct (marshal_fault _ _) as [e3|]; [|destruct (js_fault _ _ _) as [e4|]];
    destruct H as (Hpub & Ht); eexists; (split; [exact Hres|]);
    (split; [exact Ht|]).
  - split; [right; apply (last_of_trace _ mid [_; _])|]. split.
    + intros Hin. in_trace Hin. settle.
    + intros _. split; [apply (last_of_trace _ mid [_; _])|].
      intros Hin. in_trace Hin. settle.
  - split; [right; apply (last_of_trace _ mid [_; _; _])|]. split.
    + intros Hin. in_trace Hin. settle.
    + intros _. split; [apply (last_of_trace _ mid [_; _; _])|].
      intros Hin. in_trace Hin. settle.
  - split; [left; apply (last_of_trace _ mid [_; _])|]. split.
    + intros _.
      exists (EvDB (running_stmt w task (clock wd)) None :: mid), (result_of task r), c2.
      split; [reflexivity|].
      split; [exact Hpub|]. split.
      { rewrite Hrow. destruct (step_run wd !! TaskID (result_of task r)); [|done].
        simpl. unfold write_row. by rewrite N.eqb_refl. }
      split; intros Hin; in_trace Hin; settle.
    + intros [(q & e & Hin)|(s & p & e & Hin)]; in_trace Hin; settle.
Qed.

Lemma handleTask_ack_only_after_write_and_publish_witness :
  let msg := {| Data := inl (Sample.task "llm" 0 (100 * Go.Second + Sample.hour)) |} in
  let wd := Sample.world StepStatusReady RunStatusRunning in
  let res := handleTask 3026 Sample.worker msg wd in
  exists new,
    res.1 = Some tt /\ trace res.2 = trace wd ++ new
    /\ (last new = Some EvAck \/ last new = Some EvNak)
    /\ (In EvAck new ->
        exists pre result c,
          new = pre ++ [EvDB (UpdStepResult result c) None;
                        EvPublish "agentflow.results" (PResult result) None;
                        EvAck]
          /\ published res.2 = published wd ++ [("agentflow.results", PResult result)]
          /\ sr_status <$> (step_run res.2 !! TaskID result)
             = (fun _ => Status result) <$> (step_run wd !! TaskID result)
          /\ ~ In EvAck pre /\ ~ In EvNak new)
    /\ ((exists q e, In (EvDB q (Some e)) new)
        \/ (exists s p e, In (EvPublish s p (Some e)) new) ->
        last new = Some EvNak /\ ~ In EvAck new).
Proof.
  exact (handleTask_ack_only_after_write_and_publish 3026 Sample.worker
           {| Data := inl (Sample.task "llm" 0 (100 * Go.Second + Sample.hour)) |}
           (Sample.world StepStatusReady RunStatusRunning) (le_n 3026)).
Defined.

(** ** Retries *)

(** The clock on entry to an iteration, seen from the iteration before. *)
Lemma entry_clock_shift (executor : Executor) (ctx : Ctx) (task : Task) (a c : Z)
    (k : nat) :
  entry_clock executor ctx task a c (S k)
  = entry_clock executor ctx task (a + 1)
      (c + Z.of_N (er_elapsed (executor ctx task a c)) + a * a * Go.Second) k.
Proof.
  induction k as [|k IH].
  - cbn [entry_clock]. change (Z.of_nat 0) with 0. by rewrite Z.add_0_r.
  - cbn [entry_clock] in *. rewrite IH.
    by replace (a + Z.of_nat (S k)) with (a + 1 + Z.of_nat k) by lia.
Qed.

(** A failed call and a full sleep, put before a run of the loop. *)
Lemma loop_timing_cons (executor : Executor) (D : Z) (task : Task)
    (maxRetries a c : Z) (n : nat) (lastErr lastErr' : option error)
    (tail : list Event) (out : TaskResult + error) (c' : Z) (err : error) :
  er_out (executor (deadline_ctx D) task a c) = inr err ->
  (0 < n)%nat ->
  c + Z.of_N (er_elapsed (executor (deadline_ctx D) task a c)) + a * a * Go.Second <= D ->
  loop_timing executor D task maxRetries (a + 1)
    (c + Z.of_N (er_elapsed (executor (deadline_ctx D) task a c)) + a * a * Go.Second)
    n lastErr' tail out c' ->
  loop_timing executor D task maxRetries a c (S n) lastErr tail out c'.
Proof.
  intros Herr Hn Hd [Hbefore Hlast]. destruct n as [|m]; [lia|].
  split.
  - intros [|k] Hk.
    + rewrite entry_clock_shift. cbn [entry_clock].
      change (Z.of_nat 0) with 0. rewrite Z.add_0_r. eauto.
    + rewrite (entry_clock_shift executor _ task a c k),
        (entry_clock_shift executor _ task a c (S k)).
      replace (a + Z.of_nat (S k)) with (a + 1 + Z.of_nat k) by lia.
      apply (Hbefore k). lia.
  - cbv zeta in *. rewrite !entry_clock_shift.
    by replace (a + Z.of_nat (S m)) with (a + 1 + Z.of_nat m) by lia.
Qed.

(** The loop, with the time it takes. *)
Section RetryTiming.

Variables (rt : Runtime) (executor : Executor) (task : Task) (maxRetries : Z).
Variables (c0 D : Z).
Hypothesis timeout_is_a_Duration : D - c0 <= Go.maxDuration.

Lemma retry_loop_timed (fuel : nat) :
  forall (a : Z) (lastErr : option error) (w : World),
    1 <= a <= 3026 ->
    (a <= maxRetries -> entry_ok c0 D a w) ->
    3026 < a + Z.of_nat fuel ->
    exists out w' n tail,
      retry_loop fuel rt executor (deadline_ctx D) task maxRetries a lastErr w
      = (Some out, w')
      /\ same_store w w'
      /\ trace w' = trace w ++ rounds n a ++ tail
      /\ a + Z.of_nat n - 1 <= Z.max maxRetries (a - 1)
      /\ loop_timing executor D task maxRetries a (clock w) n lastErr tail out
           (clock w').
Proof using timeout_is_a_Duration.
  induction fuel as [|fuel IH]; intros a lastErr w Ha Hentry Hfuel; [lia|].
  simpl. destruct (Z.leb_spec a maxRetries) as [Hle|Hgt].
  2:{ exists (inr (failed_after maxRetries lastErr)), w, 0%nat, [].
      split; [reflexivity|]. split; [apply same_store_refl|].
      split; [by rewrite app_nil_r|]. split; [lia|].
      split; [intros k Hk; lia|]. auto. }
  specialize (Hentry Hle).
  pose proof (entry_ok_bound c0 D timeout_is_a_Duration a w (proj1 Ha) Hentry) as Hsmall.
  unfold bind at 1.
  pose proof (Execute_spec executor (deadline_ctx D) task a w) as (Hout & Hs1 & Hc1 & Ht1).
  destruct (Execute executor (deadline_ctx D) task a w) as [r w1]; simpl in *.
  subst r. destruct (er_out _) as [result|err] eqn:Hreply.
  { exists (inl result), w1, 1%nat, [].
    split; [reflexivity|]. split; [done|].
    split; [by rewrite Ht1|]. split; [lia|].
    split; [intros k Hk; lia|]. cbv zeta. cbn [entry_clock].
    change (Z.of_nat 0) with 0. rewrite Z.add_0_r, Hreply. auto. }
  rewrite (incr_exact a) by lia.
  destruct (Z.ltb_spec a maxRetries) as [Hlt|Hge].
  - destruct (backoff_exact a) as [Hb Hpos]; [lia|]. rewrite Hb.
    unfold bind at 1.
    pose proof (select_spec rt D a (a * a * Go.Second) w1 Hpos) as (Hs2 & Hsel).
    destruct (select_done_or_after _ _ _ _ w1) as [which w2]; simpl in *.
    destruct Hsel as [(-> & Ht2 & Hc2 & Hd2)|(-> & Ht2 & Hc2 & Hd2)].
    + exists (inr (done_reason (deadline_ctx D))), w2, 1%nat, [EvCtxDone].
      split; [reflexivity|]. split; [by eapply same_store_trans|].
      split; [by rewrite Ht2, Ht1, <- app_assoc|].
      split; [lia|].
      split; [intros k Hk; lia|]. cbv zeta. cbn [entry_clock].
      change (Z.of_nat 0) with 0. rewrite Z.add_0_r, Hreply.
      split; [lia|]. right. rewrite <- Hc1. repeat split; auto; lia.
    + destruct (IH (a + 1) (Some err) w2)
        as (out & w' & n & tail & Hrun & Hs & Ht & Hn & Hv).
      * lia.
      * intros _. apply (entry_ok_next c0 D a w); auto; lia.
      * lia.
      * assert (0 < n)%nat as Hnpos.
        { destruct n; [|lia]. destruct Hv as (_ & ? & _). lia. }
        exists out, w', (S n), tail.
        split; [exact Hrun|]. split.
        { eapply same_store_trans; [|exact Hs]. by eapply same_store_trans. }
        split.
        { rewrite Ht, Ht2, Ht1, rounds_cons by done.
          rewrite <- !app_assoc. reflexivity. }
        split; [lia|].
        apply (loop_timing_cons executor D task maxRetries a (clock w) n lastErr
                 (Some err) tail out (clock w') err Hreply Hnpos); [lia|].
        by rewrite <- Hc1, <- Hc2.
  - assert (a = maxRetries) as Heq by lia.
    destruct (IH (a + 1) (Some err) w1)
      as (out & w' & n & tail & Hrun & Hs & Ht & Hn & Hv).
    + lia.
    + intros ?. lia.
    + lia.
    + assert (n = 0%nat) as -> by lia.
      destruct Hv as (_ & _ & -> & -> & Hc).
      exists (inr (failed_after maxRetries (Some err))), w', 1%nat, [].
      split; [exact Hrun|]. split; [by eapply same_store_trans|].
      split; [by rewrite Ht, Ht1, <- app_assoc|].
      split; [lia|].
      split; [intros k Hk; lia|]. cbv zeta. cbn [entry_clock].
      change (Z.of_nat 0) with 0. rewrite Z.add_0_r, Hreply.
      split; [lia|]. left. repeat split; auto; lia.
Qed.

End RetryTiming.

Lemma executeTask_timed (fuel : nat) (w : Worker) (task : Task) (executor : Executor)
    (D : Z) (wd : World) :
  executors w !! node_Type (task_Node task) = Some executor ->
  D - clock wd <= Go.maxDuration ->
  (3026 <= fuel)%nat ->
  exists out wd' n tail,
    executeTask fuel w (deadline_ctx D) task wd = (Some out, wd')
    /\ same_store wd wd'
    /\ trace wd' = trace wd ++ rounds n 1 ++ tail
    /\ Z.of_nat n <= Z.max 0 (effective_retries task)
    /\ loop_timing executor D task (effective_retries task) 1 (clock wd) n None
         tail out (clock wd').
Proof.
  intros Hex HD Hfuel. unfold executeTask. rewrite Hex.
  destruct (retry_loop_timed (w_rt w) executor task (effective_retries task)
              (clock wd) D HD fuel 1 None wd)
    as (out & wd' & n & tail & Hrun & Hs & Ht & Hn & Hv).
  - lia.
  - intros _. split; [unfold Go.Second; lia|by left].
  - lia.
  - exists out, wd', n, tail.
    split; [exact Hrun|]. split; [exact Hs|]. split; [exact Ht|].
    split; [lia|exact Hv].
Qed.

(** C5: with an executor registered for the node type, and under the
    context of the delivery, whose deadline is [D], [executeTask] makes
    iterations 1, 2, ..., [n] and no more than [max_retries] of them, where
    [max_retries] is the policy's [MaxRetries], or 3 when that is 0.  Every
    iteration [a] but the last made a call that failed and then slept
    [a * a] seconds in full, the sleep ending no later than [D].  The last
    iteration ends the loop: with the result of its call when the call
    succeeded; with "task failed after max_retries attempts" when the call
    failed and the iteration is [max_retries]; and otherwise with the
    context's error and without another call, which happens only when [D]
    falls within the [a * a] seconds that follow the failed call, the loop
    returning at [D].  The store is not touched, and the clock at the
    return is that of the calls and sleeps made. *)
Theorem executeTask_retries_with_quadratic_backoff (fuel : nat) (w : Worker)
    (task : Task) (executor : Executor) (wd : World) :
  executors w !! node_Type (task_Node task) = Some executor ->
  (3026 <= fuel)%nat ->
  let ctx := (task_context task wd).1 in
  let D := task_deadline task (clock wd) in
  let policy := MaxRetries (node_Policy (task_Node task)) in
  let max_retries := if policy =? 0 then 3 else policy in
  ctx = deadline_ctx D
  /\ exists out wd' n tail,
       executeTask fuel w ctx task wd = (Some out, wd')
       /\ same_store wd wd'
       /\ trace wd' = trace wd ++ rounds n 1 ++ tail
       /\ Z.of_nat n <= Z.max 0 max_retries
       /\ loop_timing executor D task max_retries 1 (clock wd) n None tail out
            (clock wd').
Proof.
  intros Hex Hfuel. cbv zeta. rewrite task_context_spec. cbn [fst].
  split; [done|].
  apply (executeTask_timed fuel w task executor); [done| |done].
  unfold task_deadline.
  pose proof (Sub_le_maxDuration (DeadlineAt task) (clock wd)). lia.
Qed.

Lemma executeTask_retries_with_quadratic_backoff_witness :
  let task := Sample.task "function" 0 (100 * Go.Second + Sample.hour) in
  let wd := Sample.world StepStatusRunning RunStatusRunning in
  let ctx := (task_context task wd).1 in
  let D := task_deadline task (clock wd) in
  let policy := MaxRetries (node_Policy (task_Node task)) in
  let max_retries := if policy =? 0 then 3 else policy in
  ctx = deadline_ctx D
  /\ exists out wd' n tail,
       executeTask 3026 Sample.worker ctx task wd = (Some out, wd')
       /\ same_store wd wd'
       /\ trace wd' = trace wd ++ rounds n 1 ++ tail
       /\ Z.of_nat n <= Z.max 0 max_retries
       /\ loop_timing Sample.failing D task max_retries 1 (clock wd) n None tail out
            (clock wd').
Proof.
  exact (executeTask_retries_with_quadratic_backoff 3026 Sample.worker
           (Sample.task "function" 0 (100 * Go.Second + Sample.hour))
           Sample.failing (Sample.world StepStatusRunning RunStatusRunning)
           eq_refl (le_n 3026)).
Defined.

(** ** A node type without executor *)

Lemma Sub_nonpos (t u : Z) : t <= u -> Go.Sub t u <= 0.
Proof. unfold Go.Sub, Go.maxDuration, Go.minDuration. lia. Qed.

Lemma ctx_Err_after_deadline (D c : Z) :
  D <= c -> ctx_Err (deadline_ctx D) c = Some DeadlineExceeded.
Proof.
  intros H. unfold ctx_Err, deadline_ctx; simpl.
  destruct (Z.leb_spec D c); [done|lia].
Qed.

Lemma exec_error_after_deadline (db : DB) (D c : Z) (q : Stmt) :
  D <= c -> exec_error db (deadline_ctx D) q c = Some DeadlineExceeded.
Proof. intros H. unfold exec_error. by rewrite ctx_Err_after_deadline. Qed.

(** Before [task.DeadlineAt] the context of the delivery is live: a
    statement fails only if the connection fails it. *)
Lemma exec_error_before_deadline (db : DB) (task : Task) (c : Z) (q : Stmt) :
  c < DeadlineAt task ->
  exec_error db (deadline_ctx (task_deadline task c)) q c = db_fault db q.
Proof.
  intros H. unfold exec_error, ctx_Err, deadline_ctx, task_deadline; simpl.
  destruct (Z.leb_spec (c + Go.Sub (DeadlineAt task) c) c) as [Hle|]; [|done].
  exfalso. unfold Go.Sub, Go.maxDuration, Go.minDuration in Hle. lia.
Qed.

(** Closes a goal about the events of a trace that is given in full. *)
Ltac by_events :=
  repeat match goal with
         | |- forall _, _ => intro
         | |- ~ _ => intro
         | |- _ /\ _ => split
         | H : In _ _ |- _ => simpl in H
         | H : _ \/ _ |- _ => destruct H
         | H : _ /\ _ |- _ => destruct H
         | H : False |- _ => destruct H
         | H : @eq Event _ _ |- _ =>
             first [discriminate H | injection H as ? ? ?
                   | injection H as ? ? | injection H as ?]
         | H : @eq Stmt _ _ |- _ => first [discriminate H | injection H as ? ?]
         | H : @eq Payload _ _ |- _ => first [discriminate H | injection H as ?]
         end; try congruence; try done.

(** The deliveries of a task without executor, case by case. *)
Lemma handleTask_no_executor_cases (fuel : nat) (w : Worker) (task : Task)
    (wd : World) :
  executors w !! node_Type (task_Node task) = None ->
  let c := clock wd in
  let ctx := deadline_ctx (task_deadline task c) in
  let err := no_executor (node_Type (task_Node task)) in
  let result := failed_result task err in
  let q1 := running_stmt w task c in
  let q2 := UpdStepResult result c in
  let res := handleTask fuel w {| Data := inl task |} wd in
  res.1 = Some tt
  /\ match exec_error (w_db w) ctx q1 c with
     | Some e =>
         same_store wd res.2
         /\ trace res.2 = trace wd ++
              [EvDB q1 (Some e);
               EvLog "Failed to update step status to running: " e; EvNak]
     | None =>
         match exec_error (w_db w) ctx q2 c with
         | Some e =>
             published res.2 = published wd
             /\ trace res.2 = trace wd ++
                  [EvDB q1 None; EvLog "Failed to execute task: " err;
                   EvDB q2 (Some e);
                   EvLog "Failed to update step with result: " e; EvNak]
         | None =>
             step_run res.2 !! task_ID task
             = (fun row => set_step_result result c
                             (set_step_status StepStatusRunning (w_id w) (Some c) row))
               <$> (step_run wd !! task_ID task)
             /\ match marshal_fault (w_rt w) result with
                | Some e =>
                    published res.2 = published wd
                    /\ trace res.2 = trace wd ++
                         [EvDB q1 None; EvLog "Failed to execute task: " err;
                          EvDB q2 None;
                          EvLog "Failed to publish result: "
                            (ErrWrap "failed to marshal result: " e);
                          EvNak]
                | None =>
                    match js_fault (w_js w) "agentflow.results" (PResult result) with
                    | Some e =>
                        published res.2 = published wd
                        /\ trace res.2 = trace wd ++
                             [EvDB q1 None; EvLog "Failed to execute task: " err;
                              EvDB q2 None;
                              EvPublish "agentflow.results" (PResult result) (Some e);
                              EvLog "Failed to publish result: " e; EvNak]
                    | None =>
                        published res.2
                        = published wd ++ [("agentflow.results", PResult result)]
                        /\ trace res.2 = trace wd ++
                             [EvDB q1 None; EvLog "Failed to execute task: " err;
                              EvDB q2 None;
                              EvPublish "agentflow.results" (PResult result) None;
                              EvAck]
                    end
                end
         end
     end.
Proof.
  intros Hex. cbv zeta.
  pose proof (handleTask_spec fuel w task wd) as H. cbv zeta in H.
  set (q1 := running_stmt w task (clock wd)) in *.
  destruct (exec_error _ _ q1 (clock wd)) as [e1|].
  { destruct H as (Hres & Hs & Ht). auto. }
  rewrite executeTask_no_executor in H by done.
  destruct (after_stmt_frame q1 wd) as (Hp1 & Hc1 & Ht1).
  destruct (apply_step_status StepStatusRunning (w_id w) (Some (clock wd))
              (task_ID task) wd) as (Hl1 & _).
  fold (running_stmt w task (clock wd)) in Hl1. fold q1 in Hl1.
  cbv zeta in H. cbn [result_of log_of] in H. rewrite Hc1 in H.
  set (result := failed_result task (no_executor (node_Type (task_Node task)))) in *.
  destruct (apply_step_result result (clock wd) (after_stmt q1 wd)) as (Hl2 & _).
  destruct H as (Hres & H). split; [exact Hres|].
  destruct (exec_error _ _ _ (clock wd)) as [e2|].
  { destruct H as ((_ & _ & Hp) & Ht). rewrite Ht1, <- app_assoc in Ht.
    split; [by rewrite Hp, Hp1|exact Ht]. }
  destruct H as (Hst & _ & H). split.
  { rewrite Hst, Hl2. unfold after_stmt at 1. cbn [emit snd step_run].
    rewrite Hl1. destruct (step_run wd !! task_ID task); [|done].
    cbn. by rewrite N.eqb_refl. }
  destruct (marshal_fault _ _) as [e3|]; [|destruct (js_fault _ _ _) as [e4|]];
    destruct H as (Hpub & Ht); rewrite Ht1, <- app_assoc in Ht;
    (split; [by rewrite Hpub, Hp1|exact Ht]).
Qed.

(** C9: for a task whose node type has no registered executor the worker
    never calls an executor, and the only result it writes or publishes is
    the [failed] result whose error is "no executor for node type <type>".
    When the task is delivered before its deadline, the store executes the
    two statements and the log accepts the message, the StepRun row is
    [failed] with that error text and an end time, the result is on
    "agentflow.results" and the message is acked.  In every other case the
    delivery ends with Nak and nothing is published; a task that is
    delivered at or after its deadline is naked at the statement that
    claims the step, with the store as it was: no result is persisted. *)
Theorem handleTask_no_executor_fails_step (fuel : nat) (w : Worker) (task : Task)
    (wd : World) :
  executors w !! node_Type (task_Node task) = None ->
  let c := clock wd in
  let type := node_Type (task_Node task) in
  let result := {| TaskID := task_ID task; Status := StepStatusFailed;
                   ErrorMsg := "no executor for node type " +:+ type;
                   CostCents := 0; TokensPrompt := 0; TokensCompletion := 0;
                   Output := "" |} in
  let q1 := running_stmt w task c in
  let q2 := UpdStepResult result c in
  let served :=
    c < DeadlineAt task
    /\ db_fault (w_db w) q1 = None /\ db_fault (w_db w) q2 = None
    /\ marshal_fault (w_rt w) result = None
    /\ js_fault (w_js w) "agentflow.results" (PResult result) = None in
  let res := handleTask fuel w {| Data := inl task |} wd in
  exists new,
    res.1 = Some tt /\ trace res.2 = trace wd ++ new
    /\ (forall a, ~ In (EvExecute a) new)
    /\ (forall r t e, In (EvDB (UpdStepResult r t) e) new -> r = result)
    /\ (forall s r e, In (EvPublish s (PResult r) e) new ->
        s = "agentflow.results" /\ r = result)
    /\ (served ->
        new = [EvDB q1 None;
               EvLog "Failed to execute task: " (no_executor type);
               EvDB q2 None;
               EvPublish "agentflow.results" (PResult result) None;
               EvAck]
        /\ (forall row, step_run wd !! task_ID task = Some row ->
            step_run res.2 !! task_ID task
            = Some {| sr_run_id := sr_run_id row; sr_node_id := sr_node_id row;
                      sr_status := StepStatusFailed; sr_attempt := sr_attempt row;
                      sr_worker_id := Some (w_id w);
                      sr_lease_deadline := sr_lease_deadline row;
                      sr_started_at := Some c; sr_ended_at := Some c;
                      sr_error := "no executor for node type " +:+ type;
                      sr_cost_cents := 0; sr_tokens_prompt := 0;
                      sr_tokens_completion := 0;
                      sr_output_json := sr_output_json row |})
        /\ published res.2 = published wd ++ [("agentflow.results", PResult result)])
    /\ (~ served ->
        last new = Some EvNak /\ ~ In EvAck new /\ published res.2 = published wd)
    /\ (DeadlineAt task <= c ->
        new = [EvDB q1 (Some DeadlineExceeded);
               EvLog "Failed to update step status to running: " DeadlineExceeded;
               EvNak]
        /\ same_store wd res.2).
Proof.
  intros Hex. cbv zeta.
  assert ({| TaskID := task_ID task; Status := StepStatusFailed;
             ErrorMsg := "no executor for node type " +:+ node_Type (task_Node task);
             CostCents := 0; TokensPrompt := 0; TokensCompletion := 0;
             Output := "" |}
          = failed_result task (no_executor (node_Type (task_Node task)))) as Hr
    by reflexivity.
  rewrite Hr.
  destruct (handleTask_no_executor_cases fuel w task wd Hex) as (Hres & H).
  cbv zeta in H.
  set (result := failed_result task (no_executor (node_Type (task_Node task)))) in *.
  set (q1 := running_stmt w task (clock wd)) in *.
  destruct (Z.ltb_spec (clock wd) (DeadlineAt task)) as [Hlive|Hlate].
  2:{ rewrite exec_error_after_deadline in H.
      2:{ unfold task_deadline.
          pose proof (Sub_nonpos (DeadlineAt task) (clock wd) Hlate). lia. }
      destruct H as (Hs & Ht). eexists. split; [exact Hres|]. split; [exact Ht|].
      pose proof Hs as (_ & _ & Hp).
      by_events; try lia. }
  rewrite !exec_error_before_deadline in H by done.
  destruct (db_fault (w_db w) q1) as [e1|] eqn:H1.
  { destruct H as ((_ & _ & Hp) & Ht).
    eexists. split; [exact Hres|]. split; [exact Ht|].
    by_events; try lia. }
  destruct (db_fault (w_db w) (UpdStepResult result (clock wd))) as [e2|] eqn:H2.
  { destruct H as (Hp & Ht).
    eexists. split; [exact Hres|]. split; [exact Ht|].
    by_events; try lia. }
  destruct H as (Hrow & H).
  destruct (marshal_fault (w_rt w) result) as [e3|] eqn:H3.
  { destruct H as (Hp & Ht).
    eexists. split; [exact Hres|]. split; [exact Ht|].
    by_events; try lia. }
  destruct (js_fault (w_js w) "agentflow.results" (PResult result)) as [e4|] eqn:H4.
  { destruct H as (Hp & Ht).
    eexists. split; [exact Hres|]. split; [exact Ht|].
    by_events; try lia. }
  destruct H as (Hp & Ht).
  eexists. split; [exact Hres|]. split; [exact Ht|].
  split; [by_events|]. split; [by_events|]. split; [by_events|].
  split; [|split; [|intros; lia]].
  - intros _. split; [done|]. split; [|done].
    intros row Hrow0. rewrite Hrow, Hrow0. reflexivity.
  - intros Hns. destruct Hns. auto.
Qed.

Lemma handleTask_no_executor_fails_step_witness :
  let w := Sample.worker in
  let task := Sample.task "webhook" 0 (100 * Go.Second + Sample.hour) in
  let wd := Sample.world StepStatusReady RunStatusRunning in
  let res := handleTask 1 w {| Data := inl task |} wd in
  let result := {| TaskID := 7%N; Status := StepStatusFailed;
                   ErrorMsg := "no executor for node type webhook";
                   CostCents := 0; TokensPrompt := 0; TokensCompletion := 0;
                   Output := "" |} in
  res.1 = Some tt
  /\ trace res.2
     = [EvDB (running_stmt w task (clock wd)) None;
        EvLog "Failed to execute task: " (no_executor "webhook");
        EvDB (UpdStepResult result (clock wd)) None;
        EvPublish "agentflow.results" (PResult result) None;
        EvAck]
  /\ step_run res.2 !! 7%N
     = Some {| sr_run_id := 1%N; sr_node_id := "a";
               sr_status := StepStatusFailed; sr_attempt := 1;
               sr_worker_id := Some "worker-a"; sr_lease_deadline := None;
               sr_started_at := Some (100 * Go.Second);
               sr_ended_at := Some (100 * Go.Second);
               sr_error := "no executor for node type webhook";
               sr_cost_cents := 0; sr_tokens_prompt := 0;
               sr_tokens_completion := 0; sr_output_json := "" |}
  /\ published res.2 = [("agentflow.results", PResult result)].
Proof.
  destruct (handleTask_no_executor_fails_step 1 Sample.worker
              (Sample.task "webhook" 0 (100 * Go.Second + Sample.hour))
              (Sample.world StepStatusReady RunStatusRunning) eq_refl)
    as (new & Hres & Ht & _ & _ & _ & Hserved & _).
  destruct Hserved as (Hnew & Hrow & Hpub).
  { repeat split; reflexivity. }
  cbv zeta. split; [exact Hres|]. split; [by rewrite Ht, Hnew|].
  split; [exact (Hrow _ eq_refl)|exact Hpub].
Defined.

(** C9 as stated fails: the node type "webhook" has no executor, the store
    and the log are healthy, and the task is delivered one second after its
    deadline.  The delivery ends with Nak at the statement that claims the
    step: no result is written to row 7, and nothing is published. *)
Lemma handleTask_no_executor_late_counterexample :
  let w := Sample.worker in
  let task := Sample.task "webhook" 0 (99 * Go.Second) in
  let wd := Sample.world StepStatusReady RunStatusRunning in
  let res := handleTask 1 w {| Data := inl task |} wd in
  executors w !! node_Type (task_Node task) = None
  /\ trace res.2
     = [EvDB (running_stmt w task (clock wd)) (Some DeadlineExceeded);
        EvLog "Failed to update step status to running: " DeadlineExceeded;
        EvNak]
  /\ step_run res.2 !! task_ID task = Some (Sample.step StepStatusReady)
  /\ published res.2 = [].
Proof. vm_compute. repeat split; reflexivity. Qed.

(** ** The claim of a step *)

Lemma lookup_after_claim (w : Worker) (ctx : Ctx) (stepID : UUID) (wd : World) :
  exec_error (w_db w) ctx
    (UpdStepStatus StepStatusRunning (w_id w) (Some (clock wd)) stepID) (clock wd) = None ->
  let res := updateStepStatus w ctx stepID StepStatusRunning (w_id w) wd in
  res.1 = None
  /\ forall k, step_run res.2 !! k
               = (fun row => if N.eqb k stepID
                             then set_step_status StepStatusRunning (w_id w)
                                    (Some (clock wd)) row
                             else row) <$> (step_run wd !! k).
Proof.
  intros Hok. cbv zeta. rewrite updateStepStatus_eq. cbn [StepStatus_eqb].
  rewrite Hok. split; [done|]. intros k. unfold after_stmt. cbn [emit snd step_run].
  apply apply_step_status.
Qed.

(** C2, as the code has it: the transition to [running] is an update keyed
    by the step id alone.  Whatever the status of the row, a statement that
    is executed sets [status = running], [worker_id] to the worker's id and
    [started_at] to the clock reading, leaves every other column (and every
    other row) as it was, and the worker goes on to execute the task and
    to write a result: the message is not acked at this point. *)
Theorem updateStepStatus_running_whatever_the_status (fuel : nat) (w : Worker)
    (task : Task) (wd : World) (row : StepRun) :
  step_run wd !! task_ID task = Some row ->
  let c := clock wd in
  let ctx := deadline_ctx (task_deadline task c) in
  let q1 := running_stmt w task c in
  exec_error (w_db w) ctx q1 c = None ->
  (3026 <= fuel)%nat ->
  let claim := updateStepStatus w ctx (task_ID task) StepStatusRunning (w_id w) wd in
  let res := handleTask fuel w {| Data := inl task |} wd in
  claim.1 = None
  /\ step_run claim.2 !! task_ID task
     = Some (set_step_status StepStatusRunning (w_id w) (Some c) row)
  /\ (forall k, k <> task_ID task -> step_run claim.2 !! k = step_run wd !! k)
  /\ exists mid result c2 e fin,
       Forall quiet mid
       /\ trace res.2 = trace wd ++ EvDB q1 None :: mid ++
                          EvDB (UpdStepResult result c2) e :: fin.
Proof.
  intros Hrow c ctx q1 Hok Hfuel. cbv zeta.
  destruct (lookup_after_claim w ctx (task_ID task) wd Hok) as (Hnil & Hl).
  split; [exact Hnil|]. split; [|split].
  - rewrite Hl, Hrow. simpl. by rewrite N.eqb_refl.
  - intros k Hk. rewrite Hl. destruct (step_run wd !! k); [|done]. simpl.
    by destruct (N.eqb_spec k (task_ID task)).
  - pose proof (handleTask_trace fuel w task wd Hfuel) as (_ & H). cbv zeta in H.
    fold c ctx q1 in H. rewrite Hok in H.
    destruct H as (r & c2 & mid & Hq & _ & _ & _ & H).
    exists mid, (result_of task r), c2.
    destruct (exec_error _ _ _ c2) as [e2|].
    { destruct H as (_ & _ & Ht). eauto. }
    destruct H as (_ & H).
    destruct (marshal_fault _ _) as [e3|]; [|destruct (js_fault _ _ _) as [e4|]];
      destruct H as (_ & Ht); eauto.
Qed.

Lemma updateStepStatus_running_whatever_the_status_witness :
  let w := Sample.worker in
  let task := Sample.task "tool" 0 (100 * Go.Second + Sample.hour) in
  let wd := Sample.world StepStatusSucceeded RunStatusRunning in
  let row := Sample.step StepStatusSucceeded in
  let c := clock wd in
  let ctx := deadline_ctx (task_deadline task c) in
  let q1 := running_stmt w task c in
  let claim := updateStepStatus w ctx (task_ID task) StepStatusRunning (w_id w) wd in
  let res := handleTask 3026 w {| Data := inl task |} wd in
  claim.1 = None
  /\ step_run claim.2 !! task_ID task
     = Some (set_step_status StepStatusRunning (w_id w) (Some c) row)
  /\ (forall k, k <> task_ID task -> step_run claim.2 !! k = step_run wd !! k)
  /\ exists mid result c2 e fin,
       Forall quiet mid
       /\ trace res.2 = trace wd ++ EvDB q1 None :: mid ++
                          EvDB (UpdStepResult result c2) e :: fin.
Proof.
  exact (updateStepStatus_running_whatever_the_status 3026 Sample.worker
           (Sample.task "tool" 0 (100 * Go.Second + Sample.hour))
           (Sample.world StepStatusSucceeded RunStatusRunning)
           (Sample.step StepStatusSucceeded) eq_refl eq_refl (le_n 3026)).
Defined.

(** C2 as stated fails: step 7 is [canceled] when its task is delivered;
    the worker does not ack and return, it marks the row [running], runs
    the executor and leaves the row [succeeded]. *)
Lemma updateStepStatus_is_not_a_compare_and_set :
  let wd := Sample.world StepStatusCanceled RunStatusCanceled in
  let task := Sample.task "tool" 0 (100 * Go.Second + Sample.hour) in
  let ctx := deadline_ctx (task_deadline task (clock wd)) in
  let claim := updateStepStatus Sample.worker ctx 7%N StepStatusRunning "worker-a" wd in
  let res := handleTask 3026 Sample.worker {| Data := inl task |} wd in
  sr_status <$> (step_run wd !! 7%N) = Some StepStatusCanceled
  /\ sr_status <$> (step_run claim.2 !! 7%N) = Some StepStatusRunning
  /\ sr_worker_id <$> (step_run claim.2 !! 7%N) = Some (Some "worker-a")
  /\ trace res.2
     = [EvDB (UpdStepStatus StepStatusRunning "worker-a" (Some 100000000000) 7%N) None;
        EvExecute 1;
        EvDB (UpdStepResult (Sample.ok_result 7%N) 100001000000) None;
        EvPublish "agentflow.results" (PResult (Sample.ok_result 7%N)) None;
        EvAck]
  /\ sr_status <$> (step_run res.2 !! 7%N) = Some StepStatusSucceeded.
Proof. vm_compute. repeat split; reflexivity. Qed.

(** ** The write of a result *)

(** C3, as the code has it: the statement that writes a result is keyed by
    the task id alone.  When it is executed, the row gets the result's
    status whatever its own status was (a [canceled] row included),
    [ended_at] is the clock reading, error, cost and token counts are the
    result's, and every other row is as it was. *)
Theorem updateStepWithResult_whatever_the_status (w : Worker) (ctx : Ctx)
    (result : TaskResult) (wd : World) (row : StepRun) :
  step_run wd !! TaskID result = Some row ->
  exec_error (w_db w) ctx (UpdStepResult result (clock wd)) (clock wd) = None ->
  let res := updateStepWithResult w ctx result wd in
  res.1 = None
  /\ step_run res.2 !! TaskID result = Some (set_step_result result (clock wd) row)
  /\ sr_status <$> (step_run res.2 !! TaskID result) = Some (Status result)
  /\ (forall k, k <> TaskID result -> step_run res.2 !! k = step_run wd !! k).
Proof.
  intros Hrow Hok. cbv zeta. rewrite updateStepWithResult_eq. rewrite Hok.
  destruct (apply_step_result result (clock wd) wd) as (Hl & _).
  unfold after_stmt. cbn [emit fst snd step_run].
  split; [done|]. rewrite !Hl, Hrow. cbn. rewrite N.eqb_refl.
  repeat split. intros k Hk. rewrite Hl.
  destruct (step_run wd !! k); [|done]. cbn.
  by destruct (N.eqb_spec k (TaskID result)).
Qed.

Lemma updateStepWithResult_whatever_the_status_witness :
  let wd := Sample.world StepStatusCanceled RunStatusCanceled in
  let result := Sample.ok_result 7%N in
  let res := updateStepWithResult Sample.worker Background result wd in
  res.1 = None
  /\ step_run res.2 !! TaskID result
     = Some (set_step_result result (clock wd) (Sample.step StepStatusCanceled))
  /\ sr_status <$> (step_run res.2 !! TaskID result) = Some (Status result)
  /\ (forall k, k <> TaskID result -> step_run res.2 !! k = step_run wd !! k).
Proof.
  exact (updateStepWithResult_whatever_the_status Sample.worker Background
           (Sample.ok_result 7%N)
           (Sample.world StepStatusCanceled RunStatusCanceled)
           (Sample.step StepStatusCanceled) eq_refl eq_refl).
Defined.

(** C3 as stated fails: step 7 is [canceled]; the worker's statement for a
    [succeeded] result is executed and the row is [succeeded]. *)
Lemma updateStepWithResult_overwrites_canceled :
  let wd := Sample.world StepStatusCanceled RunStatusCanceled in
  let res := updateStepWithResult Sample.worker Background (Sample.ok_result 7%N) wd in
  sr_status <$> (step_run wd !! 7%N) = Some StepStatusCanceled
  /\ res.1 = None
  /\ sr_status <$> (step_run res.2 !! 7%N) = Some StepStatusSucceeded.
Proof. vm_compute. repeat split; reflexivity. Qed.

(** ** Rows in [running] *)

(** C4, as the code has it: a row the worker has put in [running] has the
    worker's id as its one [worker_id] and the clock reading of the update
    as [started_at]; the worker writes no lease deadline, the column is
    what it was before. *)
Theorem running_row_has_worker_and_start (w : Worker) (ctx : Ctx) (stepID : UUID)
    (wd : World) (row : StepRun) :
  step_run wd !! stepID = Some row ->
  exec_error (w_db w) ctx
    (UpdStepStatus StepStatusRunning (w_id w) (Some (clock wd)) stepID) (clock wd) = None ->
  let res := updateStepStatus w ctx stepID StepStatusRunning (w_id w) wd in
  exists row',
    step_run res.2 !! stepID = Some row'
    /\ sr_status row' = StepStatusRunning
    /\ sr_worker_id row' = Some (w_id w)
    /\ sr_started_at row' = Some (clock wd)
    /\ sr_lease_deadline row' = sr_lease_deadline row.
Proof.
  intros Hrow Hok. cbv zeta.
  destruct (lookup_after_claim w ctx stepID wd Hok) as (_ & Hl).
  eexists. split; [rewrite Hl, Hrow; cbn; rewrite N.eqb_refl; reflexivity|].
  by repeat split.
Qed.

Lemma running_row_has_worker_and_start_witness :
  let wd := Sample.world StepStatusReady RunStatusRunning in
  let res := updateStepStatus Sample.worker Background 7%N StepStatusRunning
               (w_id Sample.worker) wd in
  exists row',
    step_run res.2 !! 7%N = Some row'
    /\ sr_status row' = StepStatusRunning
    /\ sr_worker_id row' = Some (w_id Sample.worker)
    /\ sr_started_at row' = Some (clock wd)
    /\ sr_lease_deadline row' = sr_lease_deadline (Sample.step StepStatusReady).
Proof.
  exact (running_row_has_worker_and_start Sample.worker Background 7%N
           (Sample.world StepStatusReady RunStatusRunning)
           (Sample.step StepStatusReady) eq_refl eq_refl).
Defined.

(** C4 as stated fails: step 7 is [ready] and has no lease deadline; after
    the worker's update it is [running] and still has none. *)
Lemma running_row_without_lease_deadline :
  let wd := Sample.world StepStatusReady RunStatusRunning in
  let res := updateStepStatus Sample.worker Background 7%N StepStatusRunning
               (w_id Sample.worker) wd in
  exists row',
    step_run res.2 !! 7%N = Some row'
    /\ sr_status row' = StepStatusRunning
    /\ sr_lease_deadline row' = None
    /\ ~ spec_running_invariant row'.
Proof.
  eexists. split; [vm_compute; reflexivity|].
  split; [reflexivity|]. split; [reflexivity|].
  intros Hinv. destruct (Hinv eq_refl) as (wid & started & lease & _ & _ & Hlease & _).
  discriminate Hlease.
Qed.

(** ** The context of a delivery *)

(** C6, as the code has it: the context of a delivery has the deadline
    [now + time.Until(task.DeadlineAt)].  That is [task.DeadlineAt] itself
    whenever the time until then is a [Duration]; no configured maximum
    enters, and deriving the context changes nothing. *)
Theorem task_context_deadline (task : Task) (wd : World) :
  let c := clock wd in
  let res := task_context task wd in
  res.2 = wd
  /\ ctx_canceled res.1 = false
  /\ ctx_deadline res.1 = Some (c + Go.Sub (DeadlineAt task) c)
  /\ (Go.minDuration <= DeadlineAt task - c <= Go.maxDuration ->
      ctx_deadline res.1 = Some (DeadlineAt task))
  /\ (Go.maxDuration <= DeadlineAt task - c ->
      ctx_deadline res.1 = Some (c + Go.maxDuration)).
Proof.
  cbv zeta. rewrite task_context_spec. cbn [fst snd deadline_ctx ctx_deadline ctx_canceled].
  unfold task_deadline. repeat split.
  - intros H. rewrite Sub_exact by done. f_equal. lia.
  - intros H. f_equal. unfold Go.Sub, Go.maxDuration, Go.minDuration in *. lia.
Qed.

(** C6 as stated fails: at clock reading 100 s, with a configured maximum
    of one hour and a task whose deadline is two hours away, the context's
    deadline is the task's, not the earlier [now + configured_max]. *)
Lemma task_context_ignores_configured_max :
  let wd := Sample.world StepStatusReady RunStatusRunning in
  let task := Sample.task "tool" 0 (clock wd + 2 * Sample.hour) in
  let configured_max := Sample.hour in
  ctx_deadline (task_context task wd).1 = Some (DeadlineAt task)
  /\ ctx_deadline (task_context task wd).1
     <> Some (Z.min (DeadlineAt task) (clock wd + configured_max)).
Proof. vm_compute. split; [reflexivity|discriminate]. Qed.

(** ** Termination of a delivery *)

(** X1: every delivery returns.  The deadline of the delivery's context is
    at most the largest [Duration] away, the sleeps after failed calls add
    up cubically, and so the retry loop is left (with a result, with the
    last error, or with the context's error) before iteration 3026 and
    before its back-off can overflow. *)
Theorem handleTask_returns (fuel : nat) (w : Worker) (msg : Msg) (wd : World) :
  (3026 <= fuel)%nat -> (handleTask fuel w msg wd).1 = Some tt.
Proof.
  intros Hfuel. destruct msg as [[task|err]].
  - apply (handleTask_trace fuel w task wd Hfuel).
  - apply (handleTask_malformed fuel w err wd).
Qed.

Lemma handleTask_returns_witness :
  (handleTask 3026 Sample.worker
     {| Data := inl (Sample.task "function" 100000 (100 * Go.Second + Sample.hour)) |}
     (Sample.world StepStatusReady RunStatusRunning)).1 = Some tt.
Proof.
  exact (handleTask_returns 3026 Sample.worker
           {| Data := inl (Sample.task "function" 100000 (100 * Go.Second + Sample.hour)) |}
           (Sample.world StepStatusReady RunStatusRunning) (le_n 3026)).
Defined.

(** * Further properties of the worker *)

(** X2: a task that is delivered at or after its deadline is neither
    executed nor failed: the statement that claims the step fails with the
    context's error, the store and the log are left as they are, and the
    message is naked for redelivery. *)
Theorem handleTask_after_deadline_is_nak (fuel : nat) (w : Worker) (task : Task)
    (wd : World) :
  DeadlineAt task <= clock wd ->
  let res := handleTask fuel w {| Data := inl task |} wd in
  res.1 = Some tt /\ same_store wd res.2
  /\ trace res.2 = trace wd ++
       [EvDB (running_stmt w task (clock wd)) (Some DeadlineExceeded);
        EvLog "Failed to update step status to running: " DeadlineExceeded;
        EvNak].
Proof.
  intros Hlate. cbv zeta.
  pose proof (handleTask_spec fuel w task wd) as H. cbv zeta in H.
  rewrite exec_error_after_deadline in H; [exact H|].
  unfold task_deadline.
  pose proof (Sub_nonpos (DeadlineAt task) (clock wd) Hlate). lia.
Qed.

Lemma handleTask_after_deadline_is_nak_witness :
  let task := Sample.task "tool" 0 (99 * Go.Second) in
  let wd := Sample.world StepStatusReady RunStatusRunning in
  let res := handleTask 0 Sample.worker {| Data := inl task |} wd in
  res.1 = Some tt /\ same_store wd res.2
  /\ trace res.2 = trace wd ++
       [EvDB (running_stmt Sample.worker task (clock wd)) (Some DeadlineExceeded);
        EvLog "Failed to update step status to running: " DeadlineExceeded;
        EvNak].
Proof.
  apply (handleTask_after_deadline_is_nak 0 Sample.worker
           (Sample.task "tool" 0 (99 * Go.Second))
           (Sample.world StepStatusReady RunStatusRunning)).
  vm_compute. discriminate.
Defined.

(** Whatever the back-off, a [select] that takes the context's case does
    so at or after the deadline. *)
Lemma select_general (rt : Runtime) (D a backoff : Z) (w : World) :
  let res := select_done_or_after rt (deadline_ctx D) a backoff w in
  same_store w res.2 /\
  ((res.1 = CtxDone /\ trace res.2 = trace w ++ [EvCtxDone] /\ D <= clock res.2)
   \/ (res.1 = TimerFired /\ trace res.2 = trace w ++ [EvSleep backoff])).
Proof.
  cbv zeta.
  unfold select_done_or_after, bind, now, ctx_done_at, deadline_ctx; simpl.
  unfold fire_done, fire_timer, bind, same_store.
  destruct (Z.ltb (Z.max (clock w) D) (clock w + Z.max 0 backoff)); simpl.
  { split; [auto|]. left. repeat split; auto; lia. }
  destruct (Z.ltb (clock w + Z.max 0 backoff) (Z.max (clock w) D)); simpl.
  { split; [auto|]. by right. }
  destruct (select_tie rt a); simpl.
  { split; [auto|]. by right. }
  split; [auto|]. left. repeat split; auto; lia.
Qed.

(** Once the loop has seen the context done, the deadline has passed and
    the loop has returned the context's error. *)
Lemma retry_loop_ctx_done (rt : Runtime) (executor : Executor) (task : Task)
    (maxRetries D : Z) (fuel : nat) :
  forall (a : Z) (lastErr : option error) (w : World) o w',
    retry_loop fuel rt executor (deadline_ctx D) task maxRetries a lastErr w = (o, w') ->
    exists new,
      trace w' = trace w ++ new /\ same_store w w'
      /\ (In EvCtxDone new -> D <= clock w' /\ o = Some (inr DeadlineExceeded)).
Proof.
  induction fuel as [|fuel IH]; intros a lastErr w o w' Hrun.
  { injection Hrun as <- <-. exists []. rewrite app_nil_r. split; [done|].
    split; [apply same_store_refl|]. intros []. }
  simpl in Hrun. destruct (a <=? maxRetries).
  2:{ injection Hrun as <- <-. exists []. rewrite app_nil_r. split; [done|].
      split; [apply same_store_refl|]. intros []. }
  unfold bind at 1 in Hrun.
  pose proof (Execute_spec executor (deadline_ctx D) task a w) as (_ & Hs1 & _ & Ht1).
  destruct (Execute executor (deadline_ctx D) task a w) as [r w1]; simpl in Hs1, Ht1.
  destruct r as [result|err].
  { injection Hrun as <- <-. exists [EvExecute a]. split; [done|]. split; [done|].
    intros [Hin|[]]. discriminate Hin. }
  destruct (a <? maxRetries).
  - unfold bind at 1 in Hrun.
    pose proof (select_general rt D a (Go.mul (Go.mul a a) Go.Second) w1) as (Hs2 & Hsel).
    destruct (select_done_or_after _ _ _ _ w1) as [which w2]; simpl in Hs2, Hsel.
    destruct Hsel as [(-> & Ht2 & Hc2)|(-> & Ht2)].
    + injection Hrun as <- <-. exists [EvExecute a; EvCtxDone].
      split; [by rewrite Ht2, Ht1, <- app_assoc|].
      split; [by eapply same_store_trans|]. intros _. by split.
    + destruct (IH _ _ _ _ _ Hrun) as (new & Ht & Hs & Hdone).
      exists (EvExecute a :: EvSleep (Go.mul (Go.mul a a) Go.Second) :: new).
      split; [by rewrite Ht, Ht2, Ht1, <- !app_assoc|].
      split; [eapply same_store_trans; [|exact Hs]; by eapply same_store_trans|].
      intros [Hin|[Hin|Hin]]; try discriminate Hin. by apply Hdone.
  - destruct (IH _ _ _ _ _ Hrun) as (new & Ht & Hs & Hdone).
    exists (EvExecute a :: new).
    split; [by rewrite Ht, Ht1, <- !app_assoc|].
    split; [by eapply same_store_trans|].
    intros [Hin|Hin]; [discriminate Hin|by apply Hdone].
Qed.

Lemma executeTask_ctx_done (fuel : nat) (w : Worker) (task : Task) (D : Z)
    (wd : World) o wd' :
  executeTask fuel w (deadline_ctx D) task wd = (o, wd') ->
  exists new,
    trace wd' = trace wd ++ new
    /\ (In EvCtxDone new -> D <= clock wd' /\ o = Some (inr DeadlineExceeded)).
Proof.
  unfold executeTask.
  destruct (executors w !! node_Type (task_Node task)) as [executor|].
  - intros Hrun.
    destruct (retry_loop_ctx_done _ _ _ _ _ _ _ _ _ _ _ Hrun) as (new & Ht & _ & H).
    eauto.
  - intros [= <- <-]. exists []. rewrite app_nil_r. split; [done|]. intros [].
Qed.

(** X3: a deadline that strikes while the worker sleeps between two
    attempts is never recorded.  The loop returns the context's error, but
    the statement that would write the failed result runs under the same
    context and fails too: nothing is published, the row stays as the
    claim of the step left it, and the message is naked. *)
Theorem handleTask_deadline_during_backoff_is_nak (fuel : nat) (w : Worker)
    (task : Task) (wd : World) (new : list Event) :
  (3026 <= fuel)%nat ->
  let res := handleTask fuel w {| Data := inl task |} wd in
  trace res.2 = trace wd ++ new ->
  In EvCtxDone new ->
  res.1 = Some tt /\ last new = Some EvNak
  /\ In (EvLog "Failed to execute task: " DeadlineExceeded) new
  /\ (forall r t, ~ In (EvDB (UpdStepResult r t) None) new)
  /\ published res.2 = published wd
  /\ (forall k, step_run res.2 !! k
                = claim_row w task (clock wd) k <$> (step_run wd !! k)).
Proof.
  intros Hfuel res Htrace Hdone. subst res.
  pose proof (handleTask_spec fuel w task wd) as H. cbv zeta in H.
  set (q1 := running_stmt w task (clock wd)) in *.
  set (D := task_deadline task (clock wd)) in *.
  destruct (exec_error _ _ q1 (clock wd)) as [e1|].
  { destruct H as (_ & _ & Ht). rewrite Ht in Htrace.
    apply app_inv_head in Htrace. subst new. in_trace Hdone. settle. }
  destruct (after_stmt_frame q1 wd) as (Hp1 & Hc1 & Ht1).
  destruct (apply_step_status StepStatusRunning (w_id w) (Some (clock wd))
              (task_ID task) wd) as (Hl1 & _).
  fold (running_stmt w task (clock wd)) in Hl1. fold q1 in Hl1.
  destruct (executeTask_quiet fuel w task D (after_stmt q1 wd))
    as (r & w2 & loop & Hrun & Hs & _ & Ht & Hq); [|done|].
  { rewrite Hc1. subst D. unfold task_deadline.
    pose proof (Sub_le_maxDuration (DeadlineAt task) (clock wd)). lia. }
  pose proof (executeTask_ctx_done fuel w task D (after_stmt q1 wd) _ _ Hrun)
    as (loop' & Ht' & Hd).
  rewrite Hrun in H. cbn [fst snd] in *.
  rewrite Ht in Ht'. apply app_inv_head in Ht'. subst loop'.
  destruct H as (Hres & H).
  assert (trace w2 ++ log_of r = trace wd ++ EvDB q1 None :: (loop ++ log_of r)) as Htr.
  { rewrite Ht, Ht1, <- !app_assoc. reflexivity. }
  destruct (quiet_not_settled loop Hq) as (_ & _ & HnDB & _).
  assert (In EvCtxDone loop) as Hin.
  { destruct (exec_error _ _ _ (clock w2)) as [e2|];
      [destruct H as (_ & Hfin)
      |destruct H as (_ & _ & H); destruct (marshal_fault _ _);
       [|destruct (js_fault _ _ _)]; destruct H as (_ & Hfin)];
      rewrite Hfin, app_assoc, Htr, <- app_assoc in Htrace;
      apply app_inv_head in Htrace; subst new;
      in_trace Hdone; destruct r; simpl in Hdone; settle; auto. }
  destruct (Hd Hin) as (Hclock & Hr). injection Hr as ->.
  rewrite exec_error_after_deadline in H by done.
  destruct H as ((Hst & _ & Hpub) & Hfin).
  rewrite Hfin, app_assoc, Htr, <- app_assoc in Htrace.
  apply app_inv_head in Htrace. subst new.
  split; [done|]. split; [apply (last_of_trace _ (loop ++ _) [_; _])|].
  split; [simpl; right; rewrite !in_app_iff; simpl; auto|].
  split.
  { intros r' t' Hq2. in_trace Hq2. settle. }
  destruct Hs as (Hs_step & _ & Hs_pub).
  split; [by rewrite Hpub, Hs_pub|].
  intros k. rewrite Hst, Hs_step. unfold after_stmt; simpl. apply Hl1.
Qed.

Lemma handleTask_deadline_during_backoff_is_nak_witness :
  let task := Sample.task "function" 5 (108 * Go.Second) in
  let wd := Sample.world StepStatusReady RunStatusRunning in
  let res := handleTask 3026 Sample.worker {| Data := inl task |} wd in
  let new := trace res.2 in
  res.1 = Some tt /\ last new = Some EvNak
  /\ In (EvLog "Failed to execute task: " DeadlineExceeded) new
  /\ (forall r t, ~ In (EvDB (UpdStepResult r t) None) new)
  /\ published res.2 = published wd
  /\ (forall k, step_run res.2 !! k
                = claim_row Sample.worker task (clock wd) k <$> (step_run wd !! k)).
Proof.
  apply (handleTask_deadline_during_backoff_is_nak 3026 Sample.worker
           (Sample.task "function" 5 (108 * Go.Second))
           (Sample.world StepStatusReady RunStatusRunning)).
  - apply le_n.
  - reflexivity.
  - vm_compute. tauto.
Defined.

(** The worker leaves [workflow_run] alone. *)
Lemma handleTask_workflow_run (fuel : nat) (w : Worker) (msg : Msg) (wd : World) :
  (3026 <= fuel)%nat ->
  workflow_run (handleTask fuel w msg wd).2 = workflow_run wd.
Proof.
  intros Hfuel. destruct msg as [[task|err]].
  2:{ apply (handleTask_malformed fuel w err wd). }
  pose proof (handleTask_spec fuel w task wd) as H. cbv zeta in H.
  set (q1 := running_stmt w task (clock wd)) in *.
  destruct (exec_error _ _ q1 (clock wd)) as [e1|]; [apply H|].
  destruct (after_stmt_frame q1 wd) as (_ & Hc1 & _).
  destruct (apply_step_status StepStatusRunning (w_id w) (Some (clock wd))
              (task_ID task) wd) as (_ & Hwf1).
  destruct (executeTask_quiet fuel w task (task_deadline task (clock wd))
              (after_stmt q1 wd)) as (r & w2 & loop & Hrun & Hs & _); [|done|].
  { rewrite Hc1. unfold task_deadline.
    pose proof (Sub_le_maxDuration (DeadlineAt task) (clock wd)). lia. }
  rewrite Hrun in H. destruct H as (_ & H).
  destruct Hs as (_ & Hs_wf & _).
  assert (workflow_run w2 = workflow_run wd) as Hw2.
  { rewrite Hs_wf. unfold after_stmt; simpl. exact Hwf1. }
  destruct (apply_step_result (result_of task r) (clock w2) w2) as (_ & Hwf2).
  destruct (exec_error _ _ _ (clock w2)) as [e2|].
  - destruct H as ((_ & Hwf & _) & _). by rewrite Hwf.
  - destruct H as (_ & Hwf & _). by rewrite Hwf, Hwf2.
Qed.

(** X4: what a delivery can change.  The worker never writes
    [workflow_run], it neither adds nor removes a StepRun row, it leaves
    every row other than the task's and the one the result names as it
    was, and it publishes at most one message, on "agentflow.results". *)
Theorem handleTask_frame (fuel : nat) (w : Worker) (msg : Msg) (wd : World) :
  (3026 <= fuel)%nat ->
  let res := handleTask fuel w msg wd in
  workflow_run res.2 = workflow_run wd
  /\ (forall k, is_Some (step_run res.2 !! k) <-> is_Some (step_run wd !! k))
  /\ (exists t, forall k,
        k <> t -> (forall task, Data msg = inl task -> k <> task_ID task) ->
        step_run res.2 !! k = step_run wd !! k)
  /\ (published res.2 = published wd
      \/ exists r, published res.2 = published wd ++ [("agentflow.results", PResult r)]).
Proof.
  intros Hfuel. cbv zeta. split; [by apply handleTask_workflow_run|].
  destruct msg as [[task|err]].
  2:{ destruct (handleTask_malformed fuel w err wd) as (_ & (Hst & _ & Hpub) & _).
      rewrite Hst, Hpub. split; [done|]. split; [by exists 0%N|by left]. }
  pose proof (handleTask_trace fuel w task wd Hfuel) as (_ & H). cbv zeta in H.
  destruct (exec_error _ _ _ (clock wd)) as [e1|].
  { destruct H as ((Hst & _ & Hpub) & _). rewrite Hst, Hpub.
    split; [done|]. split; [by exists 0%N|by left]. }
  destruct H as (r & c2 & mid & _ & _ & _ & _ & H).
  assert (forall k, k <> task_ID task ->
                    claim_row w task (clock wd) k <$> (step_run wd !! k)
                    = step_run wd !! k) as Hclaim.
  { intros k Hk. unfold claim_row.
    destruct (N.eqb_spec k (task_ID task)); [done|].
    by destruct (step_run wd !! k). }
  destruct (exec_error _ _ _ c2) as [e2|].
  { destruct H as (Hst & Hpub & _). split; [|split; [|by left]].
    - intros k. rewrite Hst. apply fmap_is_Some.
    - exists 0%N. intros k _ Hk. rewrite Hst. apply Hclaim. by apply Hk. }
  destruct H as (Hst & H). split; [|split].
  - intros k. rewrite Hst. apply fmap_is_Some.
  - exists (TaskID (result_of task r)). intros k Hk1 Hk2. rewrite Hst.
    specialize (Hk2 task eq_refl). unfold write_row, claim_row.
    destruct (N.eqb_spec k (TaskID (result_of task r))); [done|].
    destruct (N.eqb_spec k (task_ID task)); [done|].
    by destruct (step_run wd !! k).
  - destruct (marshal_fault _ _); [|destruct (js_fault _ _ _)];
      destruct H as (Hpub & _); eauto.
Qed.

Lemma handleTask_frame_witness :
  let msg := {| Data := inl (Sample.task "llm" 0 (100 * Go.Second + Sample.hour)) |} in
  let wd := Sample.world StepStatusReady RunStatusRunning in
  let res := handleTask 3026 Sample.worker msg wd in
  workflow_run res.2 = workflow_run wd
  /\ (forall k, is_Some (step_run res.2 !! k) <-> is_Some (step_run wd !! k))
  /\ (exists t, forall k,
        k <> t -> (forall task, Data msg = inl task -> k <> task_ID task) ->
        step_run res.2 !! k = step_run wd !! k)
  /\ (published res.2 = published wd
      \/ exists r, published res.2 = published wd ++ [("agentflow.results", PResult r)]).
Proof.
  exact (handleTask_frame 3026 Sample.worker
           {| Data := inl (Sample.task "llm" 0 (100 * Go.Second + Sample.hour)) |}
           (Sample.world StepStatusReady RunStatusRunning) (le_n 3026)).
Defined.

(** A delivery in which [executeTask] returns an error without doing
    anything, when the store and the log answer. *)
Lemma handleTask_immediate_error (fuel : nat) (w : Worker) (task : Task)
    (wd : World) (err : error) :
  let c := clock wd in
  let ctx := deadline_ctx (task_deadline task c) in
  let result := failed_result task err in
  let q1 := running_stmt w task c in
  let q2 := UpdStepResult result c in
  let res := handleTask fuel w {| Data := inl task |} wd in
  executeTask fuel w ctx task (after_stmt q1 wd) = (Some (inr err), after_stmt q1 wd) ->
  exec_error (w_db w) ctx q1 c = None ->
  exec_error (w_db w) ctx q2 c = None ->
  marshal_fault (w_rt w) result = None ->
  js_fault (w_js w) "agentflow.results" (PResult result) = None ->
  res.1 = Some tt
  /\ trace res.2 = trace wd ++
       [EvDB q1 None; EvLog "Failed to execute task: " err; EvDB q2 None;
        EvPublish "agentflow.results" (PResult result) None; EvAck]
  /\ step_run res.2 !! task_ID task
     = (fun row => set_step_result result c
                     (set_step_status StepStatusRunning (w_id w) (Some c) row))
       <$> (step_run wd !! task_ID task)
  /\ published res.2 = published wd ++ [("agentflow.results", PResult result)].
Proof.
  intros c ctx result q1 q2 res Hrun H1 H2 H3 H4.
  subst res q2 q1 result ctx c.
  pose proof (handleTask_spec fuel w task wd) as H. cbv zeta in H.
  rewrite H1, Hrun in H.
  set (q1 := running_stmt w task (clock wd)) in *.
  destruct (after_stmt_frame q1 wd) as (Hp1 & Hc1 & Ht1).
  destruct (apply_step_status StepStatusRunning (w_id w) (Some (clock wd))
              (task_ID task) wd) as (Hl1 & _).
  fold (running_stmt w task (clock wd)) in Hl1. fold q1 in Hl1.
  cbv zeta in H. cbn [result_of log_of] in H. rewrite Hc1 in H.
  rewrite H2, H3, H4 in H.
  destruct (apply_step_result (failed_result task err) (clock wd) (after_stmt q1 wd))
    as (Hl2 & _).
  destruct H as (Hres & Hst & _ & Hpub & Ht).
  split; [done|]. split; [by rewrite Ht, Ht1, <- app_assoc|]. split.
  - rewrite Hst, Hl2. unfold after_stmt at 1. cbn [emit snd step_run].
    rewrite Hl1. destruct (step_run wd !! task_ID task); [|done].
    cbn. by rewrite N.eqb_refl.
  - by rewrite Hpub, Hp1.
Qed.

(** X5: a negative [MaxRetries] means no attempt at all.  The loop body
    never runs, [executeTask] returns "task failed after <n> attempts"
    with no cause, and the step is written and published as [failed]
    although its executor was never called. *)
Theorem handleTask_negative_retries (fuel : nat) (w : Worker) (task : Task)
    (executor : Executor) (wd : World) :
  executors w !! node_Type (task_Node task) = Some executor ->
  MaxRetries (node_Policy (task_Node task)) < 0 ->
  let c := clock wd in
  let ctx := deadline_ctx (task_deadline task c) in
  let err := ErrNew ("task failed after "
                     +:+ pretty (MaxRetries (node_Policy (task_Node task)))
                     +:+ " attempts: %!w(<nil>)") in
  let result := failed_result task err in
  let q1 := running_stmt w task c in
  let q2 := UpdStepResult result c in
  let res := handleTask (S fuel) w {| Data := inl task |} wd in
  exec_error (w_db w) ctx q1 c = None ->
  exec_error (w_db w) ctx q2 c = None ->
  marshal_fault (w_rt w) result = None ->
  js_fault (w_js w) "agentflow.results" (PResult result) = None ->
  res.1 = Some tt
  /\ trace res.2 = trace wd ++
       [EvDB q1 None; EvLog "Failed to execute task: " err; EvDB q2 None;
        EvPublish "agentflow.results" (PResult result) None; EvAck]
  /\ sr_status <$> (step_run res.2 !! task_ID task)
     = (fun _ => StepStatusFailed) <$> (step_run wd !! task_ID task)
  /\ published res.2 = published wd ++ [("agentflow.results", PResult result)].
Proof.
  intros Hex Hneg c ctx err result q1 q2 res H1 H2 H3 H4.
  subst res q2 q1 result ctx c.
  destruct (handleTask_immediate_error (S fuel) w task wd err)
    as (Hres & Ht & Hrow & Hpub); try done.
  { unfold executeTask. rewrite Hex.
    destruct (Z.eqb_spec (MaxRetries (node_Policy (task_Node task))) 0); [lia|].
    simpl. destruct (Z.leb_spec 1 (MaxRetries (node_Policy (task_Node task)))); [lia|].
    reflexivity. }
  repeat split; try done.
  rewrite Hrow. by destruct (step_run wd !! task_ID task).
Qed.

Lemma handleTask_negative_retries_witness :
  let w := Sample.worker in
  let task := Sample.task "tool" (-1) (100 * Go.Second + Sample.hour) in
  let wd := Sample.world StepStatusReady RunStatusRunning in
  let c := clock wd in
  let err := ErrNew "task failed after -1 attempts: %!w(<nil>)" in
  let result := failed_result task err in
  let q1 := running_stmt w task c in
  let q2 := UpdStepResult result c in
  let res := handleTask 1 w {| Data := inl task |} wd in
  res.1 = Some tt
  /\ trace res.2 = trace wd ++
       [EvDB q1 None; EvLog "Failed to execute task: " err; EvDB q2 None;
        EvPublish "agentflow.results" (PResult result) None; EvAck]
  /\ sr_status <$> (step_run res.2 !! task_ID task)
     = (fun _ => StepStatusFailed) <$> (step_run wd !! task_ID task)
  /\ published res.2 = published wd ++ [("agentflow.results", PResult result)].
Proof.
  apply (handleTask_negative_retries 0 Sample.worker
           (Sample.task "tool" (-1) (100 * Go.Second + Sample.hour))
           Sample.quick (Sample.world StepStatusReady RunStatusRunning));
    try reflexivity.
Defined.

(** X6: a step id that is not in the table is not an error.  Both UPDATEs
    of the worker then select no row: when they are executed they return
    nil and leave the table as it was. *)
Theorem updates_of_a_missing_step_are_silent (w : Worker) (ctx : Ctx)
    (status : StepStatus) (result : TaskResult) (stepID : UUID) (wd : World) :
  step_run wd !! stepID = None ->
  TaskID result = stepID ->
  ctx_Err ctx (clock wd) = None ->
  (forall q, db_fault (w_db w) q = None) ->
  let r1 := updateStepStatus w ctx stepID status (w_id w) wd in
  let r2 := updateStepWithResult w ctx result wd in
  (r1.1 = None /\ step_run r1.2 = step_run wd)
  /\ (r2.1 = None /\ step_run r2.2 = step_run wd).
Proof.
  intros Hmiss Hid Hctx Hdb. cbv zeta.
  rewrite updateStepStatus_eq, updateStepWithResult_eq. cbv zeta.
  unfold exec_error. rewrite Hctx, !Hdb. unfold after_stmt. cbn [emit fst snd step_run].
  split; (split; [done|]); apply map_eq; intros k.
  - match goal with |- context [apply_stmt (UpdStepStatus ?s ?wk ?st ?i) wd] =>
      destruct (apply_step_status s wk st i wd) as (Hl & _) end.
    rewrite Hl. destruct (N.eqb_spec k stepID) as [->|]; [by rewrite Hmiss|].
    by destruct (step_run wd !! k).
  - destruct (apply_step_result result (clock wd) wd) as (Hl & _).
    rewrite Hl, Hid. destruct (N.eqb_spec k stepID) as [->|]; [by rewrite Hmiss|].
    by destruct (step_run wd !! k).
Qed.

Lemma updates_of_a_missing_step_are_silent_witness :
  let wd := Sample.world StepStatusReady RunStatusRunning in
  let r1 := updateStepStatus Sample.worker Background 8%N StepStatusRunning
              (w_id Sample.worker) wd in
  let r2 := updateStepWithResult Sample.worker Background (Sample.ok_result 8%N) wd in
  (r1.1 = None /\ step_run r1.2 = step_run wd)
  /\ (r2.1 = None /\ step_run r2.2 = step_run wd).
Proof.
  apply (updates_of_a_missing_step_are_silent Sample.worker Background
           StepStatusRunning (Sample.ok_result 8%N) 8%N
           (Sample.world StepStatusReady RunStatusRunning));
    reflexivity.
Defined.

(** * Further properties of the control plane *)

Lemma CancelWorkflowRun_other_runs (cp : ControlPlane) (ctx : Ctx) (runID k : UUID)
    (w : World) :
  k <> runID ->
  workflow_run (CancelWorkflowRun cp ctx runID w).2 !! k = workflow_run w !! k.
Proof.
  intros Hk. unfold CancelWorkflowRun, ExecContext, bind, now.
  destruct (exec_error _ _ _ _) as [e|]; simpl; [done|].
  pose proof (apply_cancel runID w) as (_ & Hl & _).
  destruct (apply_stmt (UpdCancelRun runID) w) as [n w1]; simpl in *.
  assert (workflow_run w1 !! k = workflow_run w !! k) as Hsame.
  { rewrite Hl. destruct (N.eqb_spec k runID); [done|].
    by destruct (workflow_run w !! k). }
  destruct (n =? 0); simpl; [done|].
  unfold Publish. by destruct (js_fault _ _ _); simpl.
Qed.

(** X7: what a cancel can change.  [CancelWorkflowRun] never touches a
    StepRun row (the steps of the run are not cancelled by it) nor another
    run; when it returns an error nothing has changed and nothing was
    sent; and it sends at most one message, the cancel signal. *)
Theorem CancelWorkflowRun_frame (cp : ControlPlane) (ctx : Ctx) (runID : UUID)
    (w : World) :
  let res := CancelWorkflowRun cp ctx runID w in
  step_run res.2 = step_run w
  /\ (forall k, k <> runID -> workflow_run res.2 !! k = workflow_run w !! k)
  /\ (res.1 <> None ->
      workflow_run res.2 = workflow_run w /\ published res.2 = published w)
  /\ (published res.2 = published w
      \/ published res.2 = published w ++ [("agentflow.signals", PSignal runID "cancel")]).
Proof.
  cbv zeta.
  pose proof (CancelWorkflowRun_cases cp ctx runID w) as (Hs & _ & H). cbv zeta in H.
  split; [exact Hs|]. split; [intros k Hk; by apply CancelWorkflowRun_other_runs|].
  destruct (exec_error _ _ _ _) as [e|].
  { destruct H as (_ & Hwf & Hp & _). auto. }
  destruct (workflow_run w !! runID) as [row|].
  - destruct (cancellable (wr_status row)).
    + destruct H as (-> & _ & H). split; [done|].
      destruct (js_fault _ _ _); destruct H as (Hp & _); auto.
    + destruct H as (_ & Hwf & Hp & _). auto.
  - destruct H as (_ & Hwf & Hp & _). auto.
Qed.

(** A cancel that returns nil has found the run in [queued] or [running]
    and left it [canceled]. *)
Lemma CancelWorkflowRun_nil_moved (cp : ControlPlane) (ctx : Ctx)
    (runID : UUID) (w : World) :
  (CancelWorkflowRun cp ctx runID w).1 = None ->
  moved_to_canceled w (CancelWorkflowRun cp ctx runID w).2 runID.
Proof.
  intros Hnil.
  pose proof (CancelWorkflowRun_cases cp ctx runID w) as (_ & _ & H).
  cbv zeta in H. unfold moved_to_canceled.
  destruct (exec_error _ _ _ _) as [e|].
  { destruct H as (He & _). rewrite He in Hnil. discriminate. }
  destruct (workflow_run w !! runID) as [row|] eqn:Hrow.
  - destruct (cancellable (wr_status row)) eqn:Hcan.
    + destruct H as (_ & Hrow' & _). apply cancellable_spec in Hcan. eauto.
    + destruct H as (He & _). rewrite He in Hnil. discriminate.
  - destruct H as (He & _). rewrite He in Hnil. discriminate.
Qed.

(** X8: cancelling is not repeatable.  After a cancel that returned nil,
    every further cancel of the same run reports an error (the
    "not in cancellable state" one when its statement is executed),
    changes nothing and sends no second signal. *)
Theorem CancelWorkflowRun_twice (cp cp' : ControlPlane) (ctx ctx' : Ctx)
    (runID : UUID) (w : World) :
  (CancelWorkflowRun cp ctx runID w).1 = None ->
  let w1 := (CancelWorkflowRun cp ctx runID w).2 in
  let res := CancelWorkflowRun cp' ctx' runID w1 in
  res.1 <> None
  /\ (exec_error (cp_db cp') ctx' (UpdCancelRun runID) (clock w1) = None ->
      res.1 = Some (ErrNew "workflow run not found or not in cancellable state"))
  /\ workflow_run res.2 = workflow_run w1
  /\ published res.2 = published w1.
Proof.
  intros Hnil. cbv zeta.
  destruct (CancelWorkflowRun_nil_moved cp ctx runID w Hnil) as (row & _ & _ & Hrow).
  pose proof (CancelWorkflowRun_cases cp' ctx' runID
                (CancelWorkflowRun cp ctx runID w).2) as (_ & _ & H).
  cbv zeta in H. rewrite Hrow in H. simpl in H.
  destruct (exec_error _ _ _ _) as [e|];
    destruct H as (-> & Hwf & Hp & _); repeat split; auto; discriminate.
Qed.

Lemma CancelWorkflowRun_twice_witness :
  let cp := {| cp_db := Sample.healthy_db; cp_js := Sample.healthy_js |} in
  let w1 := (CancelWorkflowRun cp Background 1%N
               (Sample.world StepStatusRunning RunStatusRunning)).2 in
  let res := CancelWorkflowRun cp Background 1%N w1 in
  res.1 <> None
  /\ (exec_error (cp_db cp) Background (UpdCancelRun 1%N) (clock w1) = None ->
      res.1 = Some (ErrNew "workflow run not found or not in cancellable state"))
  /\ workflow_run res.2 = workflow_run w1
  /\ published res.2 = published w1.
Proof.
  apply (CancelWorkflowRun_twice
           {| cp_db := Sample.healthy_db; cp_js := Sample.healthy_js |}
           {| cp_db := Sample.healthy_db; cp_js := Sample.healthy_js |}
           Background Background 1%N
           (Sample.world StepStatusRunning RunStatusRunning)).
  vm_compute. reflexivity.
Defined.

(** ** Streams *)

Lemma error_eqb_eq (a b : error) : error_eqb a b = true <-> a = b.
Proof.
  revert b. induction a as [m|p c IH]; intros [m'|p' c']; simpl;
    try (split; [discriminate|congruence]).
  - rewrite String.eqb_eq. split; congruence.
  - rewrite andb_true_iff, String.eqb_eq, IH. split; [intros [-> ->]|]; [done|].
    intros [= -> ->]. done.
Qed.

Lemma initStreams_loop_spec (env : ControlPlaneEnv) (todo : list StreamConfig) :
  forall (p : Proc) (o : option error) (p' : Proc),
    initStreams_loop env todo p = (o, p') ->
    p_running p' = p_running p /\ p_closed p' = p_closed p
    /\ ((o = None /\ Forall (stream_ok env) todo
         /\ p_ops p' = p_ops p ++ add_stream_ops env todo)
        \/ exists pre cfg post e,
             todo = pre ++ cfg :: post /\ Forall (stream_ok env) pre
             /\ AddStream env cfg = Some e /\ e <> ErrStreamNameAlreadyInUse
             /\ o = Some (ErrWrap ("failed to create stream " +:+ sc_Name cfg +:+ ": ") e)
             /\ p_ops p' = p_ops p ++ add_stream_ops env (pre ++ [cfg])).
Proof.
  induction todo as [|cfg rest IH]; intros p o p' Hrun; simpl in Hrun.
  { injection Hrun as <- <-. repeat split. left.
    repeat split; [constructor|by rewrite app_nil_r]. }
  assert (stream_ok env cfg ->
          initStreams_loop env rest (did (OpAddStream cfg (AddStream env cfg)) p) = (o, p') ->
          p_running p' = p_running p /\ p_closed p' = p_closed p
          /\ ((o = None /\ Forall (stream_ok env) (cfg :: rest)
               /\ p_ops p' = p_ops p ++ add_stream_ops env (cfg :: rest))
              \/ exists pre cfg' post e,
                   cfg :: rest = pre ++ cfg' :: post /\ Forall (stream_ok env) pre
                   /\ AddStream env cfg' = Some e /\ e <> ErrStreamNameAlreadyInUse
                   /\ o = Some (ErrWrap ("failed to create stream "
                                         +:+ sc_Name cfg' +:+ ": ") e)
                   /\ p_ops p' = p_ops p ++ add_stream_ops env (pre ++ [cfg']))) as Hnext.
  { intros Hok Hrest. destruct (IH _ _ _ Hrest) as (Hr & Hc & H). simpl in Hr, Hc.
    split; [done|]. split; [done|].
    destruct H as [(-> & Hall & Hops)|(pre & cfg' & post & e & -> & Hall & He & Hne & -> & Hops)].
    - left. split; [done|]. split; [by constructor|].
      rewrite Hops. simpl. by rewrite <- app_assoc.
    - right. exists (cfg :: pre), cfg', post, e.
      split; [done|]. split; [by constructor|]. do 3 (split; [done|]).
      rewrite Hops. simpl. by rewrite <- app_assoc. }
  destruct (AddStream env cfg) as [e|] eqn:He.
  - destruct (error_eqb e ErrStreamNameAlreadyInUse) eqn:Heq; simpl in Hrun.
    + apply error_eqb_eq in Heq. subst e. apply Hnext; [by right|done].
    + injection Hrun as <- <-. simpl. split; [done|]. split; [done|].
      right. exists [], cfg, rest, e.
      split; [done|]. split; [constructor|]. split; [done|]. split.
      { intros ->. rewrite (proj2 (error_eqb_eq _ _) eq_refl) in Heq. discriminate. }
      split; [done|]. simpl. by rewrite He.
  - apply Hnext; [by left|done].
Qed.

(** X9: [initStreams] returns nil exactly when, for each of the three
    streams, [AddStream] either succeeds or reports that the stream name
    is already in use; running it again on existing streams is therefore
    not an error.  It then has asked for all three, in the order tasks,
    results, signals. *)
Theorem initStreams_nil_iff (env : ControlPlaneEnv) (p : Proc) :
  let res := initStreams env p in
  (res.1 = None <-> Forall (stream_ok env) streams)
  /\ (res.1 = None -> p_ops res.2 = p_ops p ++ add_stream_ops env streams).
Proof.
  cbv zeta. unfold initStreams.
  destruct (initStreams_loop env streams p) as [o p'] eqn:Hrun.
  destruct (initStreams_loop_spec env streams p o p' Hrun) as (_ & _ & H). simpl.
  destruct H as [(-> & Hall & Hops)|(pre & cfg & post & e & Hsplit & _ & He & Hne & -> & _)].
  - split; [done|]. auto.
  - split; [|discriminate]. split; [discriminate|]. intros Hall. exfalso.
    rewrite Hsplit in Hall. apply Forall_app in Hall as (_ & Hall).
    apply Forall_cons in Hall as (Hok & _).
    destruct Hok as [Hok|Hok]; rewrite He in Hok; [discriminate|].
    injection Hok as ->. done.
Qed.

(** X10: when [initStreams] fails, it has stopped at the first stream
    whose [AddStream] returned an error other than "already in use": the
    error it returns wraps that one under the stream's name, the streams
    before are in place, and the streams after were not asked for. *)
Theorem initStreams_stops_at_first_failure (env : ControlPlaneEnv) (p : Proc)
    (err : error) :
  (initStreams env p).1 = Some err ->
  exists pre cfg post e,
    streams = pre ++ cfg :: post
    /\ Forall (stream_ok env) pre
    /\ AddStream env cfg = Some e /\ e <> ErrStreamNameAlreadyInUse
    /\ err = ErrWrap ("failed to create stream " +:+ sc_Name cfg +:+ ": ") e
    /\ p_ops (initStreams env p).2 = p_ops p ++ add_stream_ops env (pre ++ [cfg]).
Proof.
  unfold initStreams.
  destruct (initStreams_loop env streams p) as [o p'] eqn:Hrun.
  destruct (initStreams_loop_spec env streams p o p' Hrun) as (_ & _ & H). simpl.
  intros ->.
  destruct H as [(Hnil & _)|(pre & cfg & post & e & Hsplit & Hall & He & Hne & Herr & Hops)];
    [discriminate|].
  injection Herr as ->. exists pre, cfg, post, e. auto 10.
Qed.

Lemma initStreams_stops_at_first_failure_witness :
  exists pre cfg post e,
    streams = pre ++ cfg :: post
    /\ Forall (stream_ok SampleEnv.results_down) pre
    /\ AddStream SampleEnv.results_down cfg = Some e /\ e <> ErrStreamNameAlreadyInUse
    /\ ErrWrap "failed to create stream AGENTFLOW_RESULTS: " (ErrNew "nats: timeout")
       = ErrWrap ("failed to create stream " +:+ sc_Name cfg +:+ ": ") e
    /\ p_ops (initStreams SampleEnv.results_down fresh).2
       = p_ops fresh ++ add_stream_ops SampleEnv.results_down (pre ++ [cfg]).
Proof.
  exact (initStreams_stops_at_first_failure SampleEnv.results_down fresh
           (ErrWrap "failed to create stream AGENTFLOW_RESULTS: " (ErrNew "nats: timeout"))
           eq_refl).
Defined.

(** ** Start and shutdown of the control plane *)

Lemma close_shutdown_open (p : Proc) :
  p_closed p = false ->
  close_shutdown p
  = (Returned tt, {| p_running := p_running p; p_closed := true;
                     p_ops := p_ops p ++ [OpCloseShutdown] |}).
Proof. intros H. unfold close_shutdown. by rewrite H. Qed.

(** What [ControlPlane.Start] has done when it returns, by the first call
    that failed. *)
Lemma ControlPlane_Start_spec (env : ControlPlaneEnv) (p : Proc) :
  p_running p = false ->
  let res := ControlPlane_Start env p in
  let mig := OpRunMigrations "./migrations" (RunMigrations env "./migrations") in
  p_closed res.2 = p_closed p /\
  match RunMigrations env "./migrations" with
  | Some e =>
      res.1 = Some (ErrWrap "failed to run migrations: " e)
      /\ p_running res.2 = false /\ p_ops res.2 = p_ops p ++ [mig]
  | None =>
      match (initStreams env (did mig p)).1 with
      | Some e =>
          res.1 = Some (ErrWrap "failed to initialize streams: " e)
          /\ p_running res.2 = false
          /\ p_ops res.2 = p_ops (initStreams env (did mig p)).2
      | None =>
          match scheduler_Start env with
          | Some e =>
              res.1 = Some (ErrWrap "failed to start scheduler: " e)
              /\ p_running res.2 = false
              /\ p_ops res.2 = p_ops p ++ mig :: add_stream_ops env streams
                                 ++ [OpSchedulerStart (Some e)]
          | None =>
              match monitor_Start env with
              | Some e =>
                  res.1 = Some (ErrWrap "failed to start monitor: " e)
                  /\ p_running res.2 = false
                  /\ p_ops res.2 = p_ops p ++ mig :: add_stream_ops env streams
                                     ++ [OpSchedulerStart None; OpMonitorStart (Some e)]
              | None =>
                  res.1 = None /\ p_running res.2 = true
                  /\ p_ops res.2 = p_ops p ++ mig :: add_stream_ops env streams
                                     ++ [OpSchedulerStart None; OpMonitorStart None;
                                         OpPrint "Control plane started"]
              end
          end
      end
  end.
Proof.
  intros Hrun. cbv zeta. unfold ControlPlane_Start. rewrite Hrun.
  destruct (RunMigrations env "./migrations") as [e|] eqn:Hmig; [by simpl|].
  set (p1 := did (OpRunMigrations "./migrations" None) p).
  unfold initStreams in *.
  destruct (initStreams_loop env streams p1) as [o p2] eqn:Hloop.
  destruct (initStreams_loop_spec env streams p1 o p2 Hloop) as (Hr & Hc & H).
  simpl in Hr, Hc. rewrite Hrun in Hr.
  destruct o as [e|]; [by simpl|].
  destruct H as [(_ & _ & Hops)|(? & ? & ? & ? & _ & _ & _ & _ & Hno & _)];
    [|discriminate].
  simpl in Hops.
  destruct (scheduler_Start env) as [e|]; simpl.
  { split; [done|]. split; [done|]. split; [done|].
    rewrite Hops, <- !app_assoc. reflexivity. }
  destruct (monitor_Start env) as [e|]; simpl;
    (split; [done|]); (split; [done|]); (split; [done|]);
    rewrite Hops, <- !app_assoc; reflexivity.
Qed.

Lemma initStreams_ok_iff (env : ControlPlaneEnv) (p : Proc) :
  (initStreams env p).1 = None <-> Forall (stream_ok env) streams.
Proof.
  unfold initStreams.
  destruct (initStreams_loop env streams p) as [o p'] eqn:Hrun.
  destruct (initStreams_loop_spec env streams p o p' Hrun) as (_ & _ & H). simpl.
  destruct H as [(-> & Hall & _)|(pre & cfg & post & e & Hsplit & _ & He & Hne & -> & _)];
    [done|].
  split; [discriminate|]. intros Hall. exfalso.
  rewrite Hsplit in Hall. apply Forall_app in Hall as (_ & Hall).
  apply Forall_cons in Hall as (Hok & _).
  destruct Hok as [Hok|Hok]; rewrite He in Hok; [discriminate|].
  injection Hok as ->. done.
Qed.

Lemma ControlPlane_Shutdown_running (p : Proc) :
  p_running p = true -> p_closed p = false ->
  ControlPlane_Shutdown p
  = (Returned None,
     {| p_running := false; p_closed := true;
        p_ops := p_ops p ++ [OpCloseShutdown; OpSchedulerShutdown; OpMonitorShutdown;
                             OpClose ConnNATS; OpClose ConnRedis; OpClose ConnDB;
                             OpPrint "Control plane shutdown complete"] |}).
Proof.
  intros Hr Hc. unfold ControlPlane_Shutdown. rewrite Hr, close_shutdown_open by done.
  simpl. unfold did, set_running; simpl. by rewrite <- !app_assoc.
Qed.

(** X11: [ControlPlane.Start] returns nil exactly when the control plane
    was not running and the migrations, the three streams, the scheduler
    and the monitor all came up; only then is it marked running.  A start
    that fails, for whatever reason, leaves the flag as it was. *)
Theorem ControlPlane_Start_nil_iff (env : ControlPlaneEnv) (p : Proc) :
  let res := ControlPlane_Start env p in
  (res.1 = None <->
   p_running p = false /\ RunMigrations env "./migrations" = None
   /\ Forall (stream_ok env) streams
   /\ scheduler_Start env = None /\ monitor_Start env = None)
  /\ (p_running res.2 = true <-> p_running p = true \/ res.1 = None)
  /\ (p_running p = true ->
      res = (Some (ErrNew "control plane already running"), p)).
Proof.
  cbv zeta. destruct (p_running p) eqn:Hrun.
  { unfold ControlPlane_Start. rewrite Hrun. simpl. rewrite Hrun.
    split; [split; [discriminate|by intros (? & _)]|]. split; [tauto|done]. }
  pose proof (ControlPlane_Start_spec env p Hrun) as (_ & H). cbv zeta in H.
  pose proof (initStreams_ok_iff env
                (did (OpRunMigrations "./migrations" (RunMigrations env "./migrations")) p))
    as Hstreams.
  destruct (RunMigrations env "./migrations") as [e|].
  { destruct H as (-> & -> & _).
    split; [split; [discriminate|by intros (_ & ? & _)]|].
    split; [|discriminate]. split; [discriminate|]. by intros [|]. }
  destruct ((initStreams env _).1) as [e|].
  { destruct H as (-> & -> & _).
    split; [split; [discriminate|]|].
    - intros (_ & _ & Hall & _). by apply Hstreams in Hall.
    - split; [|discriminate]. split; [discriminate|]. by intros [|]. }
  pose proof (proj1 Hstreams eq_refl) as Hall.
  destruct (scheduler_Start env) as [e|].
  { destruct H as (-> & -> & _).
    split; [split; [discriminate|by intros (_ & _ & _ & ? & _)]|].
    split; [|discriminate]. split; [discriminate|]. by intros [|]. }
  destruct (monitor_Start env) as [e|].
  { destruct H as (-> & -> & _).
    split; [split; [discriminate|by intros (_ & _ & _ & _ & ?)]|].
    split; [|discriminate]. split; [discriminate|]. by intros [|]. }
  destruct H as (-> & -> & _). split; [done|]. split; [tauto|discriminate].
Qed.

(** X12: [ControlPlane.Start] undoes nothing.  When the monitor fails to
    start after the scheduler has started, [Start] returns the monitor's
    error with the scheduler left started and the control plane not marked
    running; [Shutdown] then does nothing, so nothing stops that
    scheduler. *)
Theorem ControlPlane_Start_leaves_scheduler_started (env : ControlPlaneEnv)
    (p : Proc) (e : error) :
  p_running p = false ->
  RunMigrations env "./migrations" = None ->
  Forall (stream_ok env) streams ->
  scheduler_Start env = None ->
  monitor_Start env = Some e ->
  let res := ControlPlane_Start env p in
  res.1 = Some (ErrWrap "failed to start monitor: " e)
  /\ p_ops res.2 = p_ops p ++ OpRunMigrations "./migrations" None
                     :: add_stream_ops env streams
                     ++ [OpSchedulerStart None; OpMonitorStart (Some e)]
  /\ ControlPlane_Shutdown res.2 = (Returned None, res.2).
Proof.
  intros Hrun Hmig Hall Hsched Hmon. cbv zeta.
  pose proof (ControlPlane_Start_spec env p Hrun) as (_ & H). cbv zeta in H.
  rewrite Hmig in H.
  rewrite (proj2 (initStreams_ok_iff env _) Hall), Hsched, Hmon in H.
  destruct H as (Herr & Hr & Hops). split; [done|]. split; [done|].
  unfold ControlPlane_Shutdown. by rewrite Hr.
Qed.

Lemma ControlPlane_Start_leaves_scheduler_started_witness :
  let env := SampleEnv.monitor_down in
  let res := ControlPlane_Start env fresh in
  res.1 = Some (ErrWrap "failed to start monitor: " (ErrNew "monitor: no store"))
  /\ p_ops res.2 = p_ops fresh ++ OpRunMigrations "./migrations" None
                     :: add_stream_ops env streams
                     ++ [OpSchedulerStart None;
                         OpMonitorStart (Some (ErrNew "monitor: no store"))]
  /\ ControlPlane_Shutdown res.2 = (Returned None, res.2).
Proof.
  apply (ControlPlane_Start_leaves_scheduler_started SampleEnv.monitor_down fresh
           (ErrNew "monitor: no store")); try reflexivity.
  repeat constructor.
Defined.

(** X13: a control plane is started and shut down once.  The [shutdown]
    channel is made by the constructor only, so after a start and a
    shutdown, the shutdown that follows a second successful start closes
    the closed channel and panics; after a second start that failed,
    [Shutdown] does nothing. *)
Theorem ControlPlane_second_Shutdown_panics (env1 env2 : ControlPlaneEnv) (p : Proc) :
  p_running p = false -> p_closed p = false ->
  (ControlPlane_Start env1 p).1 = None ->
  let p1 := (ControlPlane_Start env1 p).2 in
  let r2 := ControlPlane_Shutdown p1 in
  let r3 := ControlPlane_Start env2 r2.2 in
  r2.1 = Returned None /\ p_running r2.2 = false
  /\ (r3.1 = None ->
      ControlPlane_Shutdown r3.2 = (Panicked "close of closed channel", r3.2))
  /\ (r3.1 <> None -> ControlPlane_Shutdown r3.2 = (Returned None, r3.2)).
Proof.
  intros Hrun Hopen Hok. cbv zeta.
  pose proof (ControlPlane_Start_spec env1 p Hrun) as (Hc1 & H1). cbv zeta in H1.
  assert (p_running (ControlPlane_Start env1 p).2 = true) as Hr1.
  { destruct (RunMigrations env1 _); [destruct H1 as (He & _); congruence|].
    destruct ((initStreams env1 _).1); [destruct H1 as (He & _); congruence|].
    destruct (scheduler_Start env1); [destruct H1 as (He & _); congruence|].
    destruct (monitor_Start env1); [destruct H1 as (He & _); congruence|].
    apply H1. }
  rewrite Hopen in Hc1.
  rewrite (ControlPlane_Shutdown_running _ Hr1 Hc1). cbn [fst snd].
  split; [done|]. split; [done|].
  set (p2 := {| p_running := false; p_closed := true |}).
  pose proof (ControlPlane_Start_spec env2 p2 eq_refl) as (Hc3 & H3). cbv zeta in H3.
  cbn [p_closed p2] in Hc3.
  split.
  - intros Hnil. unfold ControlPlane_Shutdown, close_shutdown. rewrite Hc3.
    replace (p_running (ControlPlane_Start env2 p2).2) with true; [done|].
    destruct (RunMigrations env2 _); [destruct H3 as (He & _); congruence|].
    destruct ((initStreams env2 _).1); [destruct H3 as (He & _); congruence|].
    destruct (scheduler_Start env2); [destruct H3 as (He & _); congruence|].
    destruct (monitor_Start env2); [destruct H3 as (He & _); congruence|].
    symmetry. apply H3.
  - intros Herr. unfold ControlPlane_Shutdown.
    replace (p_running (ControlPlane_Start env2 p2).2) with false; [done|].
    destruct (RunMigrations env2 _); [symmetry; apply H3|].
    destruct ((initStreams env2 _).1); [symmetry; apply H3|].
    destruct (scheduler_Start env2); [symmetry; apply H3|].
    destruct (monitor_Start env2); [symmetry; apply H3|].
    destruct H3 as (He & _). congruence.
Qed.

Lemma ControlPlane_second_Shutdown_panics_witness :
  let p1 := (ControlPlane_Start SampleEnv.healthy fresh).2 in
  let r2 := ControlPlane_Shutdown p1 in
  let r3 := ControlPlane_Start SampleEnv.healthy r2.2 in
  r2.1 = Returned None /\ p_running r2.2 = false
  /\ (r3.1 = None ->
      ControlPlane_Shutdown r3.2 = (Panicked "close of closed channel", r3.2))
  /\ (r3.1 <> None -> ControlPlane_Shutdown r3.2 = (Returned None, r3.2)).
Proof.
  exact (ControlPlane_second_Shutdown_panics SampleEnv.healthy SampleEnv.healthy fresh
           eq_refl eq_refl eq_refl).
Defined.

(** ** Start and shutdown of the worker *)

Lemma subscribe_loop_spec (env : WorkerEnv) (durable : string) (todo : list string) :
  forall (p : Proc) (o : option error) (p' : Proc),
    subscribe_loop env durable todo p = (o, p') ->
    p_running p' = p_running p /\ p_closed p' = p_closed p
    /\ ((o = None /\ Forall (fun s => Subscribe env s durable = None) todo
         /\ p_ops p' = p_ops p ++ subscribe_ops env durable todo)
        \/ exists pre subject post e,
             todo = pre ++ subject :: post
             /\ Forall (fun s => Subscribe env s durable = None) pre
             /\ Subscribe env subject durable = Some e
             /\ o = Some (ErrWrap ("failed to subscribe to " +:+ subject +:+ ": ") e)
             /\ p_ops p' = p_ops p ++ subscribe_ops env durable (pre ++ [subject])).
Proof.
  induction todo as [|subject rest IH]; intros p o p' Hrun; simpl in Hrun.
  { injection Hrun as <- <-. repeat split. left.
    repeat split; [constructor|by rewrite app_nil_r]. }
  destruct (Subscribe env subject durable) as [e|] eqn:He.
  - injection Hrun as <- <-. simpl. split; [done|]. split; [done|].
    right. exists [], subject, rest, e.
    split; [done|]. split; [constructor|]. do 2 (split; [done|]).
    simpl. by rewrite He.
  - destruct (IH _ _ _ Hrun) as (Hr & Hc & H). simpl in Hr, Hc.
    split; [done|]. split; [done|].
    destruct H as [(-> & Hall & Hops)|(pre & s & post & e & -> & Hall & Hs & -> & Hops)].
    + left. split; [done|]. split; [by constructor|].
      rewrite Hops. simpl. by rewrite He, <- app_assoc.
    + right. exists (subject :: pre), s, post, e.
      split; [done|]. split; [by constructor|]. do 2 (split; [done|]).
      rewrite Hops. simpl. by rewrite He, <- app_assoc.
Qed.

(** X14: [Worker.Start] returns nil exactly when the worker was not
    running and the subscriptions to the Gold, Silver and Bronze task
    subjects all succeeded.  It has then made these three subscriptions, in
    this order and all under the one durable name "worker-<id>", and has
    started one heartbeat loop. *)
Theorem Worker_Start_nil_iff (w : Worker) (env : WorkerEnv) (p : Proc) :
  let durable := "worker-" +:+ w_id w in
  let res := Worker_Start w env p in
  (res.1 = None <->
   p_running p = false /\ Forall (fun s => Subscribe env s durable = None) subjects)
  /\ (res.1 = None ->
      p_running res.2 = true
      /\ p_ops res.2 = p_ops p ++
           [OpSubscribe "agentflow.tasks.Gold" durable None;
            OpSubscribe "agentflow.tasks.Silver" durable None;
            OpSubscribe "agentflow.tasks.Bronze" durable None;
            OpGoHeartbeatLoop;
            OpPrint ("Worker " +:+ w_id w +:+ " started")]).
Proof.
  cbv zeta. unfold Worker_Start. destruct (p_running p) eqn:Hrun.
  { simpl. split; [split; [discriminate|by intros (? & _)]|discriminate]. }
  destruct (subscribe_loop env _ subjects (set_running true p)) as [o p'] eqn:Hloop.
  destruct (subscribe_loop_spec _ _ _ _ _ _ Hloop) as (Hr & _ & H). simpl in Hr.
  destruct H as [(-> & Hall & Hops)|(pre & s & post & e & Hsplit & _ & He & -> & _)].
  - simpl. split; [done|]. intros _. split; [done|].
    rewrite Hops. simpl.
    pose proof Hall as Hall'. unfold subjects in Hall'.
    apply Forall_cons in Hall' as (-> & Hall').
    apply Forall_cons in Hall' as (-> & Hall').
    apply Forall_cons in Hall' as (-> & _).
    by rewrite <- !app_assoc.
  - simpl. split; [|discriminate]. split; [discriminate|].
    intros (_ & Hall). exfalso. rewrite Hsplit in Hall.
    apply Forall_app in Hall as (_ & Hall).
    apply Forall_cons in Hall as (Hok & _). congruence.
Qed.

(** X15: a start that fails cannot be retried.  [Worker.Start] sets the
    running flag before it subscribes and does not reset it: when a
    subscription fails, it returns that error wrapped under the subject,
    keeps the subscriptions made before, starts no heartbeat, and leaves
    the worker marked running, so that every further [Start] returns
    "worker already running" and does nothing. *)
Theorem Worker_Start_failure_leaves_running (w : Worker) (env env' : WorkerEnv)
    (p : Proc) (err : error) :
  p_running p = false ->
  (Worker_Start w env p).1 = Some err ->
  let durable := "worker-" +:+ w_id w in
  let p1 := (Worker_Start w env p).2 in
  p_running p1 = true
  /\ (exists pre subject post e,
        subjects = pre ++ subject :: post
        /\ Subscribe env subject durable = Some e
        /\ err = ErrWrap ("failed to subscribe to " +:+ subject +:+ ": ") e
        /\ p_ops p1 = p_ops p ++ subscribe_ops env durable (pre ++ [subject]))
  /\ Worker_Start w env' p1 = (Some (ErrNew "worker already running"), p1).
Proof.
  intros Hrun Herr. cbv zeta. unfold Worker_Start in Herr |- *. rewrite Hrun in *.
  destruct (subscribe_loop env _ subjects (set_running true p)) as [o p'] eqn:Hloop.
  destruct (subscribe_loop_spec _ _ _ _ _ _ Hloop) as (Hr & _ & H). simpl in Hr.
  destruct H as [(-> & _)|(pre & s & post & e & Hsplit & _ & He & -> & Hops)];
    [discriminate|].
  simpl in Herr. injection Herr as <-. simpl.
  split; [done|]. split; [exists pre, s, post, e; auto|].
  by rewrite Hr.
Qed.

Lemma Worker_Start_failure_leaves_running_witness :
  let w := Sample.worker in
  let env := SampleEnv.silver_down in
  let durable := "worker-" +:+ w_id w in
  let p1 := (Worker_Start w env fresh).2 in
  p_running p1 = true
  /\ (exists pre subject post e,
        subjects = pre ++ subject :: post
        /\ Subscribe env subject durable = Some e
        /\ ErrWrap "failed to subscribe to agentflow.tasks.Silver: "
             (ErrNew "nats: connection closed")
           = ErrWrap ("failed to subscribe to " +:+ subject +:+ ": ") e
        /\ p_ops p1 = p_ops fresh ++ subscribe_ops env durable (pre ++ [subject]))
  /\ Worker_Start w SampleEnv.subscribing p1
     = (Some (ErrNew "worker already running"), p1).
Proof.
  exact (Worker_Start_failure_leaves_running Sample.worker SampleEnv.silver_down
           SampleEnv.subscribing fresh
           (ErrWrap "failed to subscribe to agentflow.tasks.Silver: "
              (ErrNew "nats: connection closed"))
           eq_refl eq_refl).
Defined.

Lemma Worker_Start_sets_running (w : Worker) (env : WorkerEnv) (p : Proc) :
  p_running (Worker_Start w env p).2 = true
  /\ p_closed (Worker_Start w env p).2 = p_closed p.
Proof.
  unfold Worker_Start. destruct (p_running p) eqn:Hrun; [done|].
  destruct (subscribe_loop env _ subjects (set_running true p)) as [o p'] eqn:Hloop.
  destruct (subscribe_loop_spec _ _ _ _ _ _ Hloop) as (Hr & Hc & _).
  simpl in Hr, Hc. by destruct o.
Qed.

Lemma Worker_Shutdown_running (w : Worker) (p : Proc) :
  p_running p = true -> p_closed p = false ->
  Worker_Shutdown w p
  = (Returned None,
     {| p_running := false; p_closed := true;
        p_ops := p_ops p ++ [OpCloseShutdown; OpClose ConnNATS; OpClose ConnRedis;
                             OpClose ConnDB;
                             OpPrint ("Worker " +:+ w_id w +:+ " shutdown")] |}).
Proof.
  intros Hr Hc. unfold Worker_Shutdown. rewrite Hr, close_shutdown_open by done.
  simpl. unfold did, set_running; simpl. by rewrite <- !app_assoc.
Qed.

(** X16: a worker is shut down once.  Whatever the subscriptions answer,
    after [Start], [Shutdown], [Start], the next [Shutdown] closes the
    [shutdown] channel a second time and panics: the channel is made by the
    constructor only, and [Start] marks the worker running even when it
    fails. *)
Theorem Worker_second_Shutdown_panics (w : Worker) (env1 env2 : WorkerEnv) (p : Proc) :
  p_closed p = false ->
  let p1 := (Worker_Start w env1 p).2 in
  let r2 := Worker_Shutdown w p1 in
  let p3 := (Worker_Start w env2 r2.2).2 in
  r2.1 = Returned None /\ p_running r2.2 = false
  /\ Worker_Shutdown w p3 = (Panicked "close of closed channel", p3).
Proof.
  intros Hopen. cbv zeta.
  destruct (Worker_Start_sets_running w env1 p) as (Hr1 & Hc1). rewrite Hopen in Hc1.
  rewrite (Worker_Shutdown_running w _ Hr1 Hc1). cbn [fst snd].
  split; [done|]. split; [done|].
  match goal with |- context [Worker_Start w env2 ?q] =>
    destruct (Worker_Start_sets_running w env2 q) as (Hr3 & Hc3) end.
  cbn [p_closed] in Hc3.
  unfold Worker_Shutdown, close_shutdown. rewrite Hr3, Hc3. reflexivity.
Qed.

Lemma Worker_second_Shutdown_panics_witness :
  let w := Sample.worker in
  let p1 := (Worker_Start w SampleEnv.subscribing fresh).2 in
  let r2 := Worker_Shutdown w p1 in
  let p3 := (Worker_Start w SampleEnv.silver_down r2.2).2 in
  r2.1 = Returned None /\ p_running r2.2 = false
  /\ Worker_Shutdown w p3 = (Panicked "close of closed channel", p3).
Proof.
  exact (Worker_second_Shutdown_panics Sample.worker SampleEnv.subscribing
           SampleEnv.silver_down fresh eq_refl).
Defined.

(** * Submitting and reading runs *)

Section RunsProperties.

Context {Inputs Tags DAG Metadata : Type}.
Variables (pk : Package Inputs Tags DAG Metadata) (rs : RunStore).

Lemma GetWorkflowRun_eq (ctx : Ctx) (runID : UUID) (w : World) :
  GetWorkflowRun pk rs ctx runID w
  = (match query_error ctx (rs_select_run_fault rs runID) (clock w) with
     | Some e => inr (ErrWrap "failed to get workflow run: " e)
     | None =>
         match workflow_run w !! runID with
         | None => inr (ErrWrap "failed to get workflow run: " ErrNoRows)
         | Some row =>
             match unmarshal_metadata pk (wr_metadata row) with
             | inr e => inr (ErrWrap "failed to unmarshal metadata: " e)
             | inl md => inl (run_of_row runID row md)
             end
         end
     end, w).
Proof.
  unfold GetWorkflowRun, bind, now.
  destruct (query_error _ _ _); [done|].
  destruct (workflow_run w !! runID) as [row|]; [|done].
  by destruct (unmarshal_metadata pk (wr_metadata row)).
Qed.

Lemma saveWorkflowRun_eq (ctx : Ctx) (wfrun : Run Metadata) (w : World) :
  saveWorkflowRun pk rs ctx wfrun w
  = match marshal_metadata pk (run_Metadata wfrun) with
    | inr e => (Some (ErrWrap "failed to marshal metadata: " e), w)
    | inl json =>
        match query_error ctx (rs_insert_run_fault rs (run_ID wfrun)) (clock w) with
        | Some e => (Some (ErrWrap "failed to insert workflow run: " e), w)
        | None =>
            match workflow_run w !! run_ID wfrun with
            | Some _ =>
                (Some (ErrWrap "failed to insert workflow run: " ErrDuplicateKey), w)
            | None =>
                (None,
                 {| step_run := step_run w;
                    workflow_run := <[ run_ID wfrun := row_of_run wfrun json ]>
                                      (workflow_run w);
                    published := published w; clock := clock w; trace := trace w |})
            end
        end
    end.
Proof.
  unfold saveWorkflowRun, bind, now.
  destruct (marshal_metadata pk _); [|done].
  destruct (query_error _ _ _); [done|].
  by destruct (workflow_run w !! run_ID wfrun).
Qed.

(** X17: [GetWorkflowRun] only reads.  It never changes the store, and it
    returns a run exactly when the query is executed, a row with that id
    exists and its metadata decodes; for an id that is not in the table
    the error is "failed to get workflow run: sql: no rows in result
    set". *)
Theorem GetWorkflowRun_reads_only (ctx : Ctx) (runID : UUID) (w : World) :
  let res := GetWorkflowRun pk rs ctx runID w in
  res.2 = w
  /\ ((exists r, res.1 = inl r) <->
      query_error ctx (rs_select_run_fault rs runID) (clock w) = None
      /\ exists row md, workflow_run w !! runID = Some row
                        /\ unmarshal_metadata pk (wr_metadata row) = inl md)
  /\ (query_error ctx (rs_select_run_fault rs runID) (clock w) = None ->
      workflow_run w !! runID = None ->
      res.1 = inr (ErrWrap "failed to get workflow run: " ErrNoRows)).
Proof.
  cbv zeta. rewrite GetWorkflowRun_eq. cbn [fst snd]. split; [done|].
  destruct (query_error _ _ _) as [e|].
  { split; [|discriminate]. split; [by intros [? ?]|by intros [? _]]. }
  destruct (workflow_run w !! runID) as [row|].
  2:{ split; [|done]. split; [by intros [? ?]|by intros (_ & ? & ? & ? & _)]. }
  split; [|discriminate].
  destruct (unmarshal_metadata pk (wr_metadata row)) as [md|e] eqn:Hmd.
  - split; [intros _; split; [done|]; eauto|eauto].
  - split; [by intros [? ?]|].
    intros (_ & row' & md & [= <-] & Hmd'). congruence.
Qed.

(** X18: what is saved can be read back.  After [saveWorkflowRun] has
    returned nil, [GetWorkflowRun] of the run's id (when its query is
    executed) returns the run with the same id, specification, status, cost
    and creation time, and with the metadata that decoding its JSON gives;
    [started_at] and [ended_at] are not among the inserted columns and come
    back unset. *)
Theorem saveWorkflowRun_then_GetWorkflowRun (ctx ctx' : Ctx) (wfrun : Run Metadata)
    (w : World) :
  (saveWorkflowRun pk rs ctx wfrun w).1 = None ->
  let w1 := (saveWorkflowRun pk rs ctx wfrun w).2 in
  query_error ctx' (rs_select_run_fault rs (run_ID wfrun)) (clock w1) = None ->
  exists json,
    marshal_metadata pk (run_Metadata wfrun) = inl json
    /\ workflow_run w !! run_ID wfrun = None
    /\ GetWorkflowRun pk rs ctx' (run_ID wfrun) w1
       = (match unmarshal_metadata pk json with
          | inl md =>
              inl {| run_ID := run_ID wfrun;
                     run_WorkflowSpecID := run_WorkflowSpecID wfrun;
                     run_Status := run_Status wfrun;
                     run_StartedAt := None; run_EndedAt := None;
                     run_CostCents := run_CostCents wfrun;
                     run_Metadata := md;
                     run_CreatedAt := run_CreatedAt wfrun |}
          | inr e => inr (ErrWrap "failed to unmarshal metadata: " e)
          end, w1).
Proof.
  cbv zeta. rewrite saveWorkflowRun_eq.
  destruct (marshal_metadata pk (run_Metadata wfrun)) as [json|e]; [|discriminate].
  destruct (query_error ctx _ _); [discriminate|].
  destruct (workflow_run w !! run_ID wfrun) eqn:Hfree; [discriminate|].
  cbn [fst snd]. intros _ Hq. exists json. split; [done|]. split; [done|].
  rewrite GetWorkflowRun_eq. cbn [clock workflow_run] in *. rewrite Hq.
  rewrite lookup_insert_eq. cbn [row_of_run wr_metadata].
  by destruct (unmarshal_metadata pk json).
Qed.

(** X19: a cancelled run reads as [canceled].  After [CancelWorkflowRun]
    has returned nil, [GetWorkflowRun] of that run (when its query is
    executed and the metadata decodes) returns it with status [canceled]
    and every other field as the row had it before. *)
Theorem GetWorkflowRun_after_cancel (cp : ControlPlane) (ctx ctx' : Ctx)
    (runID : UUID) (w : World) :
  (CancelWorkflowRun cp ctx runID w).1 = None ->
  let w1 := (CancelWorkflowRun cp ctx runID w).2 in
  query_error ctx' (rs_select_run_fault rs runID) (clock w1) = None ->
  exists row,
    workflow_run w !! runID = Some row
    /\ GetWorkflowRun pk rs ctx' runID w1
       = (match unmarshal_metadata pk (wr_metadata row) with
          | inl md => inl (run_of_row runID (set_run_status RunStatusCanceled row) md)
          | inr e => inr (ErrWrap "failed to unmarshal metadata: " e)
          end, w1).
Proof.
  intros Hnil w1 Hq. subst w1.
  destruct (CancelWorkflowRun_nil_moved cp ctx runID w Hnil) as (row & Hrow & _ & Hrow').
  exists row. split; [done|].
  rewrite GetWorkflowRun_eq, Hq, Hrow'. cbn [set_run_status wr_metadata].
  by destruct (unmarshal_metadata pk (wr_metadata row)).
Qed.

Lemma getWorkflowSpec_reads_only (ctx : Ctx) (name : string) (version : Z) (w : World) :
  (getWorkflowSpec pk rs ctx name version w).2 = w
  /\ (rs_specs rs !! (name, version) = None ->
      exists e, (getWorkflowSpec pk rs ctx name version w).1
                = inr (ErrWrap "failed to get workflow spec: " e)
                /\ (query_error ctx (rs_select_spec_fault rs name version) (clock w) = None ->
                    e = ErrNoRows)).
Proof.
  unfold getWorkflowSpec, bind, now.
  destruct (query_error _ _ _) as [e|]; simpl.
  { split; [done|]. intros _. exists e. by split. }
  destruct (rs_specs rs !! (name, version)) as [row|]; simpl.
  2:{ split; [done|]. intros _. exists ErrNoRows. by split. }
  destruct (unmarshal_dag pk _); simpl; [|by split].
  destruct (unmarshal_metadata pk _); simpl; by split.
Qed.

(** X20: submitting a workflow whose [(name, version)] is not in the
    catalogue fails before anything is written: no run is inserted and the
    scheduler is not called.  The error carries the prefix twice, "failed
    to get workflow spec: failed to get workflow spec: ", around
    [sql.ErrNoRows] when the query was executed. *)
Theorem SubmitWorkflow_unknown_spec (newID : UUID) (ctx : Ctx)
    (req : RunRequest Inputs Tags) (w : World) :
  rs_specs rs !! (WorkflowName req, WorkflowVersion req) = None ->
  let res := SubmitWorkflow pk rs newID ctx req w in
  res.2 = w
  /\ exists e,
       res.1 = inr (ErrWrap "failed to get workflow spec: "
                      (ErrWrap "failed to get workflow spec: " e))
       /\ (query_error ctx (rs_select_spec_fault rs (WorkflowName req)
                              (WorkflowVersion req)) (clock w) = None ->
           e = ErrNoRows).
Proof.
  intros Hmiss. cbv zeta.
  remember (SubmitWorkflow pk rs newID ctx req w) as res eqn:Hres.
  unfold SubmitWorkflow in Hres. unfold bind at 1 in Hres.
  destruct (getWorkflowSpec_reads_only ctx (WorkflowName req) (WorkflowVersion req) w)
    as (Hw & H).
  destruct (H Hmiss) as (e & He & Hno).
  destruct (getWorkflowSpec pk rs ctx _ _ w) as [r w']. simpl in Hw, He. subst w' r res.
  simpl. split; [done|]. by exists e.
Qed.

(** X21: [SubmitWorkflow] either fails without touching the store, or
    hands the scheduler a store to which exactly one row has been added:
    the new run, under the fresh id, [queued], with cost 0, created at the
    clock reading and with no start or end time.  What it returns is then
    the scheduler's verdict, and if the scheduler fails the inserted row is
    not taken back. *)
Theorem SubmitWorkflow_inserts_then_schedules (newID : UUID) (ctx : Ctx)
    (req : RunRequest Inputs Tags) (w : World) :
  let res := SubmitWorkflow pk rs newID ctx req w in
  (res.2 = w /\ exists e, res.1 = inr e)
  \/ exists spec wfrun json w1,
       run_ID wfrun = newID /\ run_Status wfrun = RunStatusQueued
       /\ run_WorkflowSpecID wfrun = spec_ID spec
       /\ run_CostCents wfrun = 0 /\ run_CreatedAt wfrun = clock w
       /\ workflow_run w !! newID = None
       /\ workflow_run w1 = <[ newID := row_of_run wfrun json ]> (workflow_run w)
       /\ step_run w1 = step_run w /\ published w1 = published w
       /\ res.2 = (scheduler_SubmitRun pk ctx wfrun spec w1).2
       /\ res.1 = match (scheduler_SubmitRun pk ctx wfrun spec w1).1 with
                  | Some e => inr (ErrWrap "failed to submit run to scheduler: " e)
                  | None => inl wfrun
                  end.
Proof.
  cbv zeta.
  remember (SubmitWorkflow pk rs newID ctx req w) as res eqn:Hres.
  unfold SubmitWorkflow in Hres. unfold bind at 1 in Hres.
  destruct (getWorkflowSpec_reads_only ctx (WorkflowName req) (WorkflowVersion req) w)
    as (Hw & _).
  destruct (getWorkflowSpec pk rs ctx _ _ w) as [r w']. simpl in Hw. subst w'.
  destruct r as [spec|e]; [|left; subst res; simpl; eauto].
  unfold bind at 1, now in Hres. unfold bind at 1 in Hres.
  rewrite saveWorkflowRun_eq in Hres. cbn [run_Metadata run_ID] in Hres.
  destruct (marshal_metadata pk _) as [json|e]; [|left; subst res; simpl; eauto].
  destruct (query_error _ _ _); [left; subst res; simpl; eauto|].
  destruct (workflow_run w !! newID) eqn:Hfree; [left; subst res; simpl; eauto|].
  right. unfold bind at 1 in Hres.
  match type of Hres with context [scheduler_SubmitRun pk ctx ?r spec ?w1] =>
    exists spec, r, json, w1 end.
  do 9 (split; [done|]).
  destruct (scheduler_SubmitRun pk ctx _ spec _) as [[e|] w2]; subst res; by split.
Qed.

End RunsProperties.

Lemma saveWorkflowRun_then_GetWorkflowRun_witness :
  let pk := SampleRuns.package in
  let rs := SampleRuns.store in
  let wfrun := SampleRuns.new_run in
  let w1 := (saveWorkflowRun pk rs Background wfrun
               (Sample.world StepStatusReady RunStatusRunning)).2 in
  exists json,
    marshal_metadata pk (run_Metadata wfrun) = inl json
    /\ workflow_run (Sample.world StepStatusReady RunStatusRunning) !! run_ID wfrun = None
    /\ GetWorkflowRun pk rs Background (run_ID wfrun) w1
       = (match unmarshal_metadata pk json with
          | inl md =>
              inl {| run_ID := run_ID wfrun;
                     run_WorkflowSpecID := run_WorkflowSpecID wfrun;
                     run_Status := run_Status wfrun;
                     run_StartedAt := None; run_EndedAt := None;
                     run_CostCents := run_CostCents wfrun;
                     run_Metadata := md;
                     run_CreatedAt := run_CreatedAt wfrun |}
          | inr e => inr (ErrWrap "failed to unmarshal metadata: " e)
          end, w1).
Proof.
  exact (saveWorkflowRun_then_GetWorkflowRun SampleRuns.package SampleRuns.store
           Background Background SampleRuns.new_run
           (Sample.world StepStatusReady RunStatusRunning) eq_refl eq_refl).
Defined.

Lemma GetWorkflowRun_after_cancel_witness :
  let cp := {| cp_db := Sample.healthy_db; cp_js := Sample.healthy_js |} in
  let w := Sample.world StepStatusRunning RunStatusRunning in
  let w1 := (CancelWorkflowRun cp Background 1%N w).2 in
  exists row,
    workflow_run w !! 1%N = Some row
    /\ GetWorkflowRun SampleRuns.package SampleRuns.store Background 1%N w1
       = (match unmarshal_metadata SampleRuns.package (wr_metadata row) with
          | inl md => inl (run_of_row 1%N (set_run_status RunStatusCanceled row) md)
          | inr e => inr (ErrWrap "failed to unmarshal metadata: " e)
          end, w1).
Proof.
  apply (GetWorkflowRun_after_cancel SampleRuns.package SampleRuns.store
           {| cp_db := Sample.healthy_db; cp_js := Sample.healthy_js |}
           Background Background 1%N
           (Sample.world StepStatusRunning RunStatusRunning)).
  - vm_compute. reflexivity.
  - vm_compute. reflexivity.
Defined.

Lemma SubmitWorkflow_unknown_spec_witness :
  let w := Sample.world StepStatusReady RunStatusRunning in
  let res := SubmitWorkflow SampleRuns.package SampleRuns.store 9%N Background
               (SampleRuns.request "translate") w in
  res.2 = w
  /\ exists e,
       res.1 = inr (ErrWrap "failed to get workflow spec: "
                      (ErrWrap "failed to get workflow spec: " e))
       /\ (query_error Background
             (rs_select_spec_fault SampleRuns.store "translate" 1) (clock w) = None ->
           e = ErrNoRows).
Proof.
  apply (SubmitWorkflow_unknown_spec SampleRuns.package SampleRuns.store 9%N Background
           (SampleRuns.request "translate")
           (Sample.world StepStatusReady RunStatusRunning)).
  vm_compute. reflexivity.
Defined.

(** * A publish that fails after the write *)

(** X22: the write of the result is not undone when the publish fails.
    If [js.Publish] returns an error, the row named by the result already
    has the result's status, nothing is on "agentflow.results", and the
    message is naked: the task will be delivered, and executed, again. *)
Theorem handleTask_publish_failure_keeps_written_result (fuel : nat) (w : Worker)
    (task : Task) (wd : World) (new : list Event) (s : string) (p : Payload)
    (e : error) :
  (3026 <= fuel)%nat ->
  let res := handleTask fuel w {| Data := inl task |} wd in
  trace res.2 = trace wd ++ new ->
  In (EvPublish s p (Some e)) new ->
  exists result c,
    s = "agentflow.results" /\ p = PResult result
    /\ In (EvDB (UpdStepResult result c) None) new
    /\ last new = Some EvNak
    /\ published res.2 = published wd
    /\ sr_status <$> (step_run res.2 !! TaskID result)
       = (fun _ => Status result) <$> (step_run wd !! TaskID result).
Proof.
  intros Hfuel res Htrace Hin. subst res.
  pose proof (handleTask_trace fuel w task wd Hfuel) as (_ & H). cbv zeta in H.
  destruct (exec_error _ _ _ (clock wd)) as [e1|].
  { destruct H as (_ & Ht). rewrite Ht in Htrace. apply app_inv_head in Htrace.
    subst new. in_trace Hin. settle. }
  destruct H as (r & c2 & mid & Hq & _ & _ & _ & H).
  destruct (quiet_not_settled mid Hq) as (_ & _ & _ & HnPub).
  destruct (exec_error _ _ _ c2) as [e2|].
  { destruct H as (_ & _ & Ht). rewrite Ht in Htrace. apply app_inv_head in Htrace.
    subst new. in_trace Hin. settle. }
  destruct H as (Hrow & H).
  destruct (marshal_fault _ _) as [e3|]; [|destruct (js_fault _ _ _) as [e4|]];
    destruct H as (Hpub & Ht); rewrite Ht in Htrace; apply app_inv_head in Htrace;
    subst new; in_trace Hin.
  - settle.
  - destruct Hin as [Hin|[Hin|[Hin|[Hin|[Hin|[Hin|[]]]]]]];
      try discriminate Hin; [destruct (HnPub _ _ _ Hin)|].
    injection Hin as <- <- <-.
    exists (result_of task r), c2. split; [done|]. split; [done|].
    split; [simpl; right; rewrite in_app_iff; simpl; auto|].
    split; [apply (last_of_trace _ mid [_; _; _])|]. split; [done|].
    rewrite Hrow. destruct (step_run wd !! TaskID (result_of task r)); [|done].
    simpl. unfold write_row. by rewrite N.eqb_refl.
  - settle.
Qed.

Lemma handleTask_publish_failure_keeps_written_result_witness :
  let task := Sample.task "tool" 0 (100 * Go.Second + Sample.hour) in
  let wd := Sample.world StepStatusReady RunStatusRunning in
  let res := handleTask 3026 SampleEnv.unheard {| Data := inl task |} wd in
  let new := trace res.2 in
  exists result c,
    "agentflow.results" = "agentflow.results" /\ PResult (Sample.ok_result 7%N) = PResult result
    /\ In (EvDB (UpdStepResult result c) None) new
    /\ last new = Some EvNak
    /\ published res.2 = published wd
    /\ sr_status <$> (step_run res.2 !! TaskID result)
       = (fun _ => Status result) <$> (step_run wd !! TaskID result).
Proof.
  apply (handleTask_publish_failure_keeps_written_result 3026 SampleEnv.unheard
           (Sample.task "tool" 0 (100 * Go.Second + Sample.hour))
           (Sample.world StepStatusReady RunStatusRunning)
           _ "agentflow.results" (PResult (Sample.ok_result 7%N)) (ErrNew "nats: timeout")).
  - apply le_n.
  - reflexivity.
  - vm_compute. tauto.
Defined.
